(** * Vid-to-Thumb: frame resolution, filename templating, path de-duplication

    A shallow embedding of [Vid-to-Thumb.py].  Python values are modelled
    as follows:
    - [int] is [Z]; [str] is [string], restricted to ASCII, so that
      [str.isdigit] is the class [0-9], [str.isalpha] is [a-zA-Z] and the
      regular-expression class [\w] is [a-zA-Z0-9_];
    - [float] is an IEEE-754 binary64 value, [spec_float] with precision 53
      and maximal exponent 1024, with round-to-nearest-even arithmetic;
    - an exception is a value of [exn]; code that can raise returns
      [exc A];
    - [print] appends a [message] to a log that is returned with the value.
    Paths follow [posixpath], and [os.path.exists] is membership in a
    finite set of paths.  The video library is outside the program: a
    capture is the record of what it reports, and [cv2.imwrite] is a
    parameter that returns a flag or raises; so are [os.listdir] and
    [os.makedirs].  [int] applied to text follows CPython's limit on the
    number of digits. *)

From Stdlib Require Import ZArith Ascii String List Bool Lia.
From Stdlib Require Import Floats.SpecFloat.
From stdpp Require Import base strings pretty gmap.

Local Open Scope string_scope.
Local Open Scope Z_scope.

(** ** Exceptions and printed messages *)

Inductive exn : Type :=
| ValueError
| OverflowError
| IndexError
| ZeroDivisionError
| ReError
| Cv2Error
| OSError.

Inductive exc (A : Type) : Type :=
| Ok (a : A)
| Raise (e : exn).
Arguments Ok {A} a.
Arguments Raise {A} e.

Definition bind {A B : Type} (m : exc A) (k : A -> exc B) : exc B :=
  match m with
  | Ok a => k a
  | Raise e => Raise e
  end.

Notation "'do' x <- m ; k" := (bind m (fun x => k))
  (at level 10, x name, m at level 100, k at level 200).

(** The texts printed by the program, by the [print] call they come from. *)
Inductive message : Type :=
| InvalidTimeFormat (time_str : string)
| InvalidFrameSpec (frame_option : string)
| PatternError (e : exn)
| CannotOpen (video_path : string)
| FpsDefaulted
| CannotReadFrame (video_path : string) (frame_number : Z)
| Saved (output_path : string)
| ErrorOccurred (e : exn).

(** ** Python built-ins on strings *)

Module Py.

Definition isdigit (c : ascii) : bool :=
  let n := nat_of_ascii c in (48 <=? n)%nat && (n <=? 57)%nat.

Definition isalpha (c : ascii) : bool :=
  let n := nat_of_ascii c in
  ((65 <=? n)%nat && (n <=? 90)%nat) || ((97 <=? n)%nat && (n <=? 122)%nat).

(** The class [\w]. *)
Definition isword (c : ascii) : bool :=
  isdigit c || isalpha c || Ascii.eqb c "_".

Fixpoint forallb_str (p : ascii -> bool) (s : string) : bool :=
  match s with
  | EmptyString => true
  | String c s' => p c && forallb_str p s'
  end.

Fixpoint filter_str (p : ascii -> bool) (s : string) : string :=
  match s with
  | EmptyString => EmptyString
  | String c s' => if p c then String c (filter_str p s') else filter_str p s'
  end.

(** [c in s] for a one-character [c]. *)
Fixpoint contains_char (c : ascii) (s : string) : bool :=
  match s with
  | EmptyString => false
  | String a s' => Ascii.eqb a c || contains_char c s'
  end.

(** [s.isdigit()]: all characters are digits and there is at least one. *)
Definition str_isdigit (s : string) : bool :=
  match s with
  | EmptyString => false
  | _ => forallb_str isdigit s
  end.

(** [s.startswith(p)]. *)
Fixpoint startswith (p s : string) : bool :=
  match p, s with
  | EmptyString, _ => true
  | String a p', String b s' => Ascii.eqb a b && startswith p' s'
  | String _ _, EmptyString => false
  end.

(** [s[n:]]. *)
Fixpoint drop (n : nat) (s : string) : string :=
  match n, s with
  | O, _ => s
  | S n', String _ s' => drop n' s'
  | S _, EmptyString => EmptyString
  end.

(** [s[:n]] for [n >= 0]. *)
Fixpoint take (n : nat) (s : string) : string :=
  match n, s with
  | S n', String c s' => String c (take n' s')
  | _, _ => EmptyString
  end.

(** [s[:-1]]. *)
Fixpoint drop_last (s : string) : string :=
  match s with
  | EmptyString => EmptyString
  | String c EmptyString => EmptyString
  | String c s' => String c (drop_last s')
  end.

Definition digit_value (c : ascii) : Z := Z.of_nat (nat_of_ascii c) - 48.

Fixpoint int_digits (acc : Z) (s : string) : Z :=
  match s with
  | EmptyString => acc
  | String c s' => int_digits (10 * acc + digit_value c) s'
  end.

(** [sys.get_int_max_str_digits()]: CPython (3.11, and the later releases
    of 3.7 to 3.10) refuses to convert a text of more digits. *)
Definition int_max_str_digits : Z := 4300.

(** [int(s)] on the strings the program passes to it: a run of digits,
    possibly empty.  The empty string raises [ValueError], and so does a
    run of more than [int_max_str_digits] digits, leading zeros counted. *)
Definition int_of_str (s : string) : exc Z :=
  if str_isdigit s then
    if int_max_str_digits <? Z.of_nat (String.length s) then Raise ValueError
    else Ok (int_digits 0 s)
  else Raise ValueError.

(** [s.replace(old, new)]: every non-overlapping occurrence of [old],
    scanning from the left.  [skip] counts the characters of an occurrence
    that are still to be passed over. *)
Fixpoint replace_go (old new : string) (skip : nat) (s : string) : string :=
  match s with
  | EmptyString => EmptyString
  | String c s' =>
      match skip with
      | S k => replace_go old new k s'
      | O =>
          if startswith old s
          then new +:+ replace_go old new (Nat.pred (String.length old)) s'
          else String c (replace_go old new O s')
      end
  end.

(** With an empty [old], [new] is inserted before every character and at
    the end. *)
Fixpoint intersperse (new s : string) : string :=
  match s with
  | EmptyString => new
  | String c s' => new +:+ String c (intersperse new s')
  end.

Definition replace (s old new : string) : string :=
  match old with
  | EmptyString => intersperse new s
  | _ => replace_go old new O s
  end.

(** [s.split(sep)] for a one-character separator: always at least one
    field. *)
Fixpoint split (sep : ascii) (s : string) : list string :=
  match s with
  | EmptyString => [EmptyString]
  | String c s' =>
      if Ascii.eqb c sep then EmptyString :: split sep s'
      else match split sep s' with
           | h :: t => String c h :: t
           | [] => [String c EmptyString]
           end
  end.

(** [s.split(sep, 1)]: split at the first separator only. *)
Fixpoint split1 (sep : ascii) (s : string) : list string :=
  match s with
  | EmptyString => [EmptyString]
  | String c s' =>
      if Ascii.eqb c sep then [EmptyString; s']
      else match split1 sep s' with
           | h :: t => String c h :: t
           | [] => [String c EmptyString]
           end
  end.

(** [l[i]], raising [IndexError] out of range. *)
Definition index {A : Type} (l : list A) (i : nat) : exc A :=
  match nth_error l i with
  | Some a => Ok a
  | None => Raise IndexError
  end.

(** The format [{n:06d}]: width 6 counting the sign, zeros after the
    sign.  The numbers formatted are frame indices, far below the
    [int_max_str_digits] digits over which the conversion of an [int] to
    text raises. *)
Definition zfill (width : nat) (digits : string) : string :=
  String.concat "" (repeat "0" (width - String.length digits)) +:+ digits.

Definition format_06d (n : Z) : string :=
  if n <? 0 then "-" +:+ zfill 5 (pretty (Z.abs n))
  else zfill 6 (pretty n).

(** ** Floats *)

Definition float : Type := spec_float.

Definition prec : Z := 53.
Definition emax : Z := 1024.

(** [float(n)] for an integer [n], rounded to nearest even. *)
Definition float_of_int (n : Z) : exc float :=
  match binary_normalize prec emax n 0 false with
  | S754_infinity _ => Raise OverflowError
  | x => Ok x
  end.

(** A float literal with an integral value that is exactly representable. *)
Definition float_lit (n : Z) : float := binary_normalize prec emax n 0 false.

Definition fmul (x y : float) : float := SFmul prec emax x y.

(** [x / y] on floats: a zero divisor raises. *)
Definition ftruediv (x y : float) : exc float :=
  match y with
  | S754_zero _ => Raise ZeroDivisionError
  | _ => Ok (SFdiv prec emax x y)
  end.

(** [x <= 0] for a float against the integer zero. *)
Definition fle0 (x : float) : bool := SFleb x (S754_zero false).

(** [int(x)]: truncation towards zero; infinities and NaN raise. *)
Definition int_of_float (x : float) : exc Z :=
  match x with
  | S754_zero _ => Ok 0
  | S754_nan => Raise ValueError
  | S754_infinity _ => Raise OverflowError
  | S754_finite s m e => Ok (cond_Zopp s (Z.shiftl (Zpos m) e))
  end.

(** The format [{x:.2f}]: the exact value of [x] rounded to two decimals,
    ties to even. *)
Definition round_hundredths (m : positive) (e : Z) : Z :=
  let n := Zpos m * 100 in
  if 0 <=? e then Z.shiftl n e
  else
    let d := Z.shiftl 1 (- e) in
    let q := n / d in
    let r := n mod d in
    match Z.compare (2 * r) d with
    | Lt => q
    | Gt => q + 1
    | Eq => if Z.even q then q else q + 1
    end.

Definition two_digits (n : Z) : string :=
  if n <? 10 then "0" +:+ pretty n else pretty n.

Definition fixed2 (sign : bool) (n : Z) : string :=
  (if sign then "-" else "") +:+ pretty (n / 100) +:+ "." +:+ two_digits (n mod 100).

Definition format_2f (x : float) : string :=
  match x with
  | S754_nan => "nan"
  | S754_infinity s => if s then "-inf" else "inf"
  | S754_zero s => fixed2 s 0
  | S754_finite s m e => fixed2 s (round_hundredths m e)
  end.

(** [s.lower()] on ASCII text. *)
Definition lower_char (c : ascii) : ascii :=
  let n := nat_of_ascii c in
  if (65 <=? n)%nat && (n <=? 90)%nat then ascii_of_nat (n + 32) else c.

Fixpoint lower (s : string) : string :=
  match s with
  | EmptyString => EmptyString
  | String c s' => String (lower_char c) (lower s')
  end.

(** [s.endswith(suffix)]. *)
Fixpoint endswith (suffix s : string) : bool :=
  String.eqb s suffix ||
  match s with
  | EmptyString => false
  | String _ s' => endswith suffix s'
  end.

End Py.

(** ** [datetime.timedelta] *)

(** [timedelta(hours=h, minutes=m, seconds=s)] with integer arguments:
    the duration is normalised to days and seconds of the day (the
    microsecond field is zero), and a day count above 999999999 raises
    [OverflowError]. *)
Record timedelta_t : Type := { days : Z; secs : Z }.

Definition timedelta (hours minutes seconds : Z) : exc timedelta_t :=
  let total := hours * 3600 + minutes * 60 + seconds in
  let d := total / 86400 in
  if (999999999 <? Z.abs d) then Raise OverflowError
  else Ok {| days := d; secs := total mod 86400 |}.

(** [td.total_seconds()]: with a zero microsecond field the quotient by
    [10**6] is the integer [days * 86400 + seconds], which is below [2^53]
    and so is represented exactly. *)
Definition total_seconds (td : timedelta_t) : Py.float :=
  Py.float_lit (days td * 86400 + secs td).

(** ** Frame resolution *)

(** An image buffer, as far as the program looks at it. *)
Definition frame : Type := nat.

(** What the video library reports for a capture: whether it opened, the
    frame count (after the [int] conversion of line 10), the frame rate,
    and the outcome of seeking to a position and reading there
    ([cap.set(CAP_PROP_POS_FRAMES, n)] followed by [cap.read()]). *)
Record VideoCapture : Type := {
  isOpened : bool;
  CAP_PROP_FRAME_COUNT : Z;
  CAP_PROP_FPS : Py.float;
  read_at : Z -> option frame
}.

(** The [-n] argument after the command line's conversion: an [int] or a
    [str]. *)
Inductive frame_option : Type :=
| FInt (n : Z)
| FStr (s : string).

(** The dictionary [parts] of [parse_time], with its three fixed keys. *)
Record parts_t : Type := { hours : Z; minutes : Z; seconds : Z }.

(** [char in units]. *)
Definition is_unit (c : ascii) : bool :=
  Ascii.eqb c "h" || Ascii.eqb c "m" || Ascii.eqb c "s".

(** [parts[units[char]] = v]. *)
Definition set_unit (c : ascii) (v : Z) (parts : parts_t) : parts_t :=
  if Ascii.eqb c "h" then {| hours := v; minutes := minutes parts; seconds := seconds parts |}
  else if Ascii.eqb c "m" then {| hours := hours parts; minutes := v; seconds := seconds parts |}
  else {| hours := hours parts; minutes := minutes parts; seconds := v |}.

(** The [for] loop of [parse_time], on the loop state
    [(parts, current_value)]. *)
Fixpoint parse_time_loop (time_str : string) (parts : parts_t) (current_value : string)
  : exc (parts_t * string) :=
  match time_str with
  | EmptyString => Ok (parts, current_value)
  | String char rest =>
      if Py.isdigit char then
        parse_time_loop rest parts (current_value +:+ String char EmptyString)
      else if is_unit char then
        do v <- Py.int_of_str current_value ;
        parse_time_loop rest (set_unit char v parts) EmptyString
      else parse_time_loop rest parts current_value
  end.

(** [parse_time] (lines 28-42). *)
Definition parse_time (time_str : string) : exc parts_t :=
  do st <- parse_time_loop time_str {| hours := 0; minutes := 0; seconds := 0 |} EmptyString ;
  let '(parts, current_value) := st in
  match current_value with
  | EmptyString => Ok parts
  | _ =>
      do v <- Py.int_of_str current_value ;
      Ok {| hours := hours parts; minutes := minutes parts; seconds := v |}
  end.

(** The body of the [try] block of [calculate_frame_number]
    (lines 18-20). *)
Definition relative_frame (time_str : string) (fps : Py.float) (total_frames : Z) : exc Z :=
  do parts <- parse_time time_str ;
  do time_obj <- timedelta (hours parts) (minutes parts) (seconds parts) ;
  let target_sec := total_seconds time_obj in
  do n <- Py.int_of_float (Py.fmul target_sec fps) ;
  Ok (Z.min n (total_frames - 1)).

(** [calculate_frame_number] (lines 8-26): the value returned and what
    is printed. *)
Definition calculate_frame_number (cap : VideoCapture) (frame_option : frame_option)
  : Z * list message :=
  let total_frames := CAP_PROP_FRAME_COUNT cap in
  let fps := CAP_PROP_FPS cap in
  match frame_option with
  | FInt n => (Z.min (Z.max n 0) (total_frames - 1), [])
  | FStr s =>
      if Py.startswith "t+" s then
        let time_str := Py.drop 2 s in
        match relative_frame time_str fps total_frames with
        | Ok n => (n, [])
        | Raise _ => (0, [InvalidTimeFormat time_str])
        end
      else (0, [InvalidFrameSpec s])
  end.

(** The conversion of the [-n] argument on the command line (line 175):
    [int(x) if x.isdigit() else x], for the arguments that the argument
    parser accepts: a [ValueError] of the converter, which is what a run
    of more than [Py.int_max_str_digits] digits gives, is turned by
    [argparse] into a usage error before the program starts. *)
Definition frame_arg (x : string) : frame_option :=
  if Py.str_isdigit x then FInt (Py.int_digits 0 x) else FStr x.

(** An opened capture with the given frame count and rate, whose every
    read succeeds. *)
Definition mk_cap (total_frames : Z) (fps : Py.float) : VideoCapture :=
  {| isOpened := true; CAP_PROP_FRAME_COUNT := total_frames;
     CAP_PROP_FPS := fps; read_at := fun _ => Some O |}.

(** ** Filename templating *)

Module Re.

(** [span p s]: the longest prefix of [s] whose characters satisfy [p], and
    the rest. *)
Fixpoint span (p : ascii -> bool) (s : string) : string * string :=
  match s with
  | EmptyString => (EmptyString, EmptyString)
  | String c s' =>
      if p c then let '(a, b) := span p s' in (String c a, b)
      else (EmptyString, s)
  end.

Definition not_close (c : ascii) : bool := negb (Ascii.eqb c "}").

Definition nonempty (s : string) : bool :=
  match s with EmptyString => false | _ => true end.

Definition starts_with_close (s : string) : bool :=
  match s with String c _ => Ascii.eqb c "}" | EmptyString => false end.

Fixpoint last_is (c : ascii) (s : string) : bool :=
  match s with
  | EmptyString => false
  | String a EmptyString => Ascii.eqb a c
  | String _ s' => last_is c s'
  end.

(** Each matcher tries its pattern at the start of [s] and returns group 1.
    The whole match is group 1 between two braces. *)

(** [{(\w+\.\w+)}] *)
Definition match_dotted (s : string) : option string :=
  match s with
  | String "{" s1 =>
      let '(w1, r1) := span Py.isword s1 in
      match r1 with
      | String "." r2 =>
          let '(w2, r3) := span Py.isword r2 in
          if nonempty w1 && nonempty w2 && starts_with_close r3
          then Some (w1 +:+ "." +:+ w2) else None
      | _ => None
      end
  | _ => None
  end.

(** [{(\w+:[^}]+)}] *)
Definition match_colon (s : string) : option string :=
  match s with
  | String "{" s1 =>
      let '(w1, r1) := span Py.isword s1 in
      match r1 with
      | String ":" r2 =>
          let '(x, r3) := span not_close r2 in
          if nonempty w1 && nonempty x && starts_with_close r3
          then Some (w1 +:+ ":" +:+ x) else None
      | _ => None
      end
  | _ => None
  end.

(** [{(<prefix>[^}]+\))}] for a literal [prefix]: the run of characters
    other than the closing brace must end in a parenthesis, have at least
    one character before it, and be followed by the closing brace. *)
Definition match_call (prefix : string) (s : string) : option string :=
  match s with
  | String "{" s1 =>
      if Py.startswith prefix s1 then
        let '(x, r) := span not_close (Py.drop (String.length prefix) s1) in
        if last_is ")" x && nonempty (Py.drop_last x) && starts_with_close r
        then Some (prefix +:+ x) else None
      else None
  | _ => None
  end.

(** [re.sub(pattern, repl, s)] for a pattern that only matches non-empty
    text: leftmost matches, not overlapping, each replaced by what [repl]
    returns for its group 1; the first exception [repl] raises ends the
    call.  [skip] counts the characters of a match still to be passed. *)
Fixpoint sub_go (pat : string -> option string) (repl : string -> exc string)
    (skip : nat) (s : string) : exc string :=
  match s with
  | EmptyString => Ok EmptyString
  | String c s' =>
      match skip with
      | S k => sub_go pat repl k s'
      | O =>
          match pat s with
          | Some command =>
              do r <- repl command;
              do rest <- sub_go pat repl (S (String.length command)) s';
              Ok (r +:+ rest)
          | None =>
              do rest <- sub_go pat repl O s';
              Ok (String c rest)
          end
      end
  end.

Definition sub (pat : string -> option string) (repl : string -> exc string)
    (s : string) : exc string :=
  sub_go pat repl O s.

End Re.

Module Path.

(** [s.rfind(c)]: the index of the last [c], or [-1]. *)
Fixpoint rfind_go (c : ascii) (s : string) (i last : Z) : Z :=
  match s with
  | EmptyString => last
  | String a s' => rfind_go c s' (i + 1) (if Ascii.eqb a c then i else last)
  end.

Definition rfind (c : ascii) (s : string) : Z := rfind_go c s 0 (-1).

(** [posixpath.splitext]: split at the last dot of the last component,
    unless that component has only dots before it. *)
Definition splitext (p : string) : string * string :=
  let sepIndex := rfind "/" p in
  let dotIndex := rfind "." p in
  if sepIndex <? dotIndex then
    let filenameIndex := Z.to_nat (sepIndex + 1) in
    let leading := Py.take (Z.to_nat dotIndex - filenameIndex) (Py.drop filenameIndex p) in
    if Py.forallb_str (fun c => Ascii.eqb c ".") leading then (p, EmptyString)
    else (Py.take (Z.to_nat dotIndex) p, Py.drop (Z.to_nat dotIndex) p)
  else (p, EmptyString).

(** [posixpath.basename]: what follows the last slash. *)
Definition basename (p : string) : string :=
  Py.drop (Z.to_nat (rfind "/" p + 1)) p.

(** [posixpath.join] of two components. *)
Definition join (a b : string) : string :=
  if Py.startswith "/" b then b
  else if negb (Re.nonempty a) || Re.last_is "/" a then a +:+ b
  else a +:+ "/" +:+ b.

End Path.

Section Templater.

(** [re.search(regex, original)] followed by [.group()]: the user's
    regular expression is run by the library, which raises on a pattern it
    cannot compile. *)
Variable re_search : string -> string -> exc (option string).

(** [regex_replacer] (lines 55-74), as a function of group 1 of the
    match; group 0 is group 1 between braces. *)
Definition regex_replacer (original : string) (command : string) : exc string :=
  let group0 := "{" +:+ command +:+ "}" in
  let otherwise :=
    if Py.startswith "n.match(" command then
      let regex := Py.drop_last (Py.drop 8 command) in
      do matched <- re_search regex original;
      match matched with
      | Some g => Ok g
      | None => Ok EmptyString
      end
    else if Py.startswith "n.replace(" command then
      let args := Py.split1 "," (Py.drop_last (Py.drop 10 command)) in
      do a0 <- Py.index args 0;
      do a1 <- Py.index args 1;
      Ok (Py.replace original a0 a1)
    else Ok group0 in
  if Py.contains_char ":" command then
    let parts := Py.split ":" command in
    do p0 <- Py.index parts 0;
    if String.eqb p0 "n" then
      do p1 <- Py.index parts 1;
      if Py.str_isdigit p1 then
        do k <- Py.int_of_str p1;
        Ok (Py.take (Z.to_nat k) original)
      else otherwise
    else otherwise
  else otherwise.

(** The [replacements] dictionary, in insertion order. *)
Definition replacements (original : string) (frame_num : Z) (time_pos : string)
  : list (string * string) :=
  [ ("{n}", original);
    ("{f}", Py.format_06d frame_num);
    ("{t}", time_pos);
    ("{n.base}", fst (Path.splitext original));
    ("{n.digits}", Py.filter_str Py.isdigit original);
    ("{n.letters}", Py.filter_str Py.isalpha original) ].

(** The loop of lines 77-78. *)
Definition substitute_tokens (repls : list (string * string)) (pattern : string) : string :=
  fold_left (fun pat kv => Py.replace pat (fst kv) (snd kv)) repls pattern.

(** The body of the [try] block of [apply_regex_pattern]
    (lines 77-85). *)
Definition render_body (original pattern : string) (frame_num : Z) (time_pos : string)
  : exc string :=
  let pattern := substitute_tokens (replacements original frame_num time_pos) pattern in
  do pattern <- Re.sub Re.match_dotted (regex_replacer original) pattern;
  do pattern <- Re.sub Re.match_colon (regex_replacer original) pattern;
  do pattern <- Re.sub (Re.match_call "n.match(") (regex_replacer original) pattern;
  do pattern <- Re.sub (Re.match_call "n.replace(") (regex_replacer original) pattern;
  Ok pattern.

(** [apply_regex_pattern] (lines 44-89): the name returned and what is
    printed. *)
Definition apply_regex_pattern (original pattern : string) (frame_num : Z) (time_pos : string)
  : string * list message :=
  match render_body original pattern frame_num time_pos with
  | Ok pattern => (pattern, [])
  | Raise e => (original +:+ "_error", [PatternError e])
  end.

End Templater.

(** A regular-expression engine that knows no pattern: every search
    finds nothing, and a lone opening parenthesis does not compile. *)
Definition re_stub (regex original : string) : exc (option string) :=
  if String.eqb regex "(" then Raise ReError else Ok None.

(** ** Path de-duplication *)

(** The [while] loop of [avoid_overwrite] over the set [fs] of existing
    paths; [fuel] bounds the number of tests. *)
Fixpoint avoid_overwrite_loop (fuel : nat) (fs : gset string) (base ext path : string)
    (counter : Z) : option string :=
  match fuel with
  | O => None
  | S fuel' =>
      if decide (path ∈ fs)
      then avoid_overwrite_loop fuel' fs base ext
             (base +:+ "_" +:+ pretty counter +:+ ext) (counter + 1)
      else Some path
  end.

(** [avoid_overwrite] (lines 141-148); [os.path.exists] is membership in
    [fs].  The fuel is one more than the number of existing paths, which
    is enough for the loop to end (see [avoid_overwrite_least]). *)
Definition avoid_overwrite (fs : gset string) (path : string) : option string :=
  let '(base, ext) := Path.splitext path in
  avoid_overwrite_loop (S (size fs)) fs base ext path 1.

(** ** Extraction of one frame *)

(** What [extract_frame] prints, and the [cv2.imwrite] call it makes, if
    any; the call may create the file, return [False] or raise. *)
Record outcome : Type := {
  printed : list message;
  written : option (string * frame)
}.

Section ExtractFrame.

Variable re_search : string -> string -> exc (option string).

(** [cv2.imwrite] (line 133): it returns whether the file was created, or
    raises; the call stands inside the [try] of lines 98-137. *)
Variable imwrite : string -> frame -> exc bool.

(** [extract_frame] (lines 91-139).
    The set [fs] holds the paths that exist when the function is called;
    [cap] is the capture opened on [video_path].  A [name_pattern] that is
    [None] or empty selects the default name.  The returned value of
    [cv2.imwrite] is not looked at; an exception it raises is caught at
    line 136 and printed in place of the success line.  The result is
    [None] only if the search for a free path runs out of fuel. *)
Definition extract_frame (fs : gset string) (cap : VideoCapture)
    (video_path : string) (frame_option : frame_option)
    (output_format output_dir : string) (name_pattern : option string)
    (keep_original_name : bool) : option outcome :=
  if negb (isOpened cap) then
    Some {| printed := [CannotOpen video_path]; written := None |}
  else
    let '(frame_number, log1) := calculate_frame_number cap frame_option in
    let fps := CAP_PROP_FPS cap in
    let '(fps, log2) :=
      if Py.fle0 fps then (Py.float_lit 30, [FpsDefaulted]) else (fps, []) in
    match read_at cap frame_number with
    | None =>
        Some {| printed := log1 ++ log2 ++ [CannotReadFrame video_path frame_number];
                written := None |}
    | Some fr =>
        match (do x <- Py.float_of_int frame_number;
               do q <- Py.ftruediv x fps;
               Ok (Py.format_2f q +:+ "s")) with
        | Raise e =>
            Some {| printed := log1 ++ log2 ++ [ErrorOccurred e]; written := None |}
        | Ok time_position =>
            let original_name := fst (Path.splitext (Path.basename video_path)) in
            let '(filename, log3) :=
              if keep_original_name then (original_name, [])
              else match name_pattern with
                   | Some (String c p) =>
                       apply_regex_pattern re_search original_name (String c p)
                         frame_number time_position
                   | _ =>
                       (original_name +:+ "_f" +:+ Py.format_06d frame_number
                          +:+ "_" +:+ time_position, [])
                   end in
            let output_path := Path.join output_dir (filename +:+ "." +:+ output_format) in
            match avoid_overwrite fs output_path with
            | Some output_path =>
                match imwrite output_path fr with
                | Ok _ =>
                    Some {| printed := log1 ++ log2 ++ log3 ++ [Saved output_path];
                            written := Some (output_path, fr) |}
                | Raise e =>
                    Some {| printed := log1 ++ log2 ++ log3 ++ [ErrorOccurred e];
                            written := Some (output_path, fr) |}
                end
            | None => None
            end
        end
    end.

End ExtractFrame.

(** An image writer that creates every file it is asked for. *)
Definition imwrite_ok (path : string) (fr : frame) : exc bool := Ok true.

(** ** The batch *)

(** The extensions of line 154. *)
Definition video_extensions : list string :=
  [".mp4"; ".avi"; ".mov"; ".mkv"; ".flv"; ".wmv"].

(** The filter of line 154: [f.lower().endswith((...))]. *)
Definition is_video (f : string) : bool :=
  existsb (fun ext => Py.endswith ext (Py.lower f)) video_extensions.

Section Batch.

Variable re_search : string -> string -> exc (option string).

(** The file system and the libraries, as far as the batch looks at them:
    [isdir] and [listdir] are [os.path.isdir] and [os.listdir], the second
    of which raises on a directory it cannot read; [makedirs] is
    [os.makedirs(output_dir, exist_ok=True)], which gives the paths that
    exist afterwards, or raises; [VideoCapture_open] is what
    [cv2.VideoCapture(path)] gives; [imwrite] is [cv2.imwrite]: whether the
    file is created, or an exception. *)
Variable isdir : string -> bool.
Variable listdir : string -> exc (list string).
Variable makedirs : string -> gset string -> exc (gset string).
Variable VideoCapture_open : string -> VideoCapture.
Variable imwrite : string -> frame -> exc bool.

(** Lines 152-156: the files to process.  [os.listdir] stands outside any
    [try]: what it raises leaves [process_videos]. *)
Definition select_files (input_path : string) : exc (list string) :=
  if isdir input_path then
    do names <- listdir input_path;
    Ok (map (Path.join input_path) (filter (fun f => is_video f = true) names))
  else Ok [input_path].

(** The paths that exist after an [extract_frame] call: the path handed to
    [cv2.imwrite] is new only if the call created the file. *)
Definition after_write (fs : gset string) (o : outcome) : gset string :=
  match written o with
  | Some (output_path, fr) =>
      match imwrite output_path fr with
      | Ok true => {[ output_path ]} ∪ fs
      | _ => fs
      end
  | None => fs
  end.

(** The loop of lines 160-168, from the set [fs] of existing paths: the
    outcomes in order, and the paths existing at the end. *)
Fixpoint process_files (files : list string) (fs : gset string)
    (frame_option : frame_option) (output_format output_dir : string)
    (name_pattern : option string) (keep_original_name : bool)
  : option (list outcome * gset string) :=
  match files with
  | [] => Some ([], fs)
  | video_path :: rest =>
      match extract_frame re_search imwrite fs (VideoCapture_open video_path) video_path
              frame_option output_format output_dir name_pattern keep_original_name with
      | Some o =>
          match process_files rest (after_write fs o) frame_option output_format
                  output_dir name_pattern keep_original_name with
          | Some (os, fs') => Some (o :: os, fs')
          | None => None
          end
      | None => None
      end
  end.

(** [process_videos] (lines 150-168); [fs] holds the paths that exist when
    it is called.  The file list is built first, then the output directory
    is made (line 158), then the loop runs; neither of the first two steps
    is guarded, so an exception of [os.listdir] or [os.makedirs] ends the
    run before any file is processed.  The inner [None] is the loop out of
    fuel. *)
Definition process_videos (fs : gset string) (input_path : string)
    (frame_option : frame_option) (output_format output_dir : string)
    (name_pattern : option string) (keep_original_name : bool)
  : exc (option (list outcome * gset string)) :=
  do files <- select_files input_path;
  do fs1 <- makedirs output_dir fs;
  Ok (process_files files fs1 frame_option output_format output_dir
        name_pattern keep_original_name).

End Batch.

(** The paths handed to [cv2.imwrite], in order. *)
Definition written_paths (os : list outcome) : list string :=
  omap (fun o => fst <$> written o) os.

(** A directory listing, and an output directory that is made by adding
    its path to those that exist. *)
Definition listdir_three (path : string) : exc (list string) :=
  Ok ["a.mp4"; "notes.txt"; "a.MP4"].

Definition makedirs_add (output_dir : string) (fs : gset string) : exc (gset string) :=
  Ok ({[ output_dir ]} ∪ fs).

(** * Vocabulary of the statements *)

(** [x] is not a finite number below zero. *)
Definition not_negative_finite (x : Py.float) : Prop :=
  match x with
  | S754_finite true _ _ => False
  | _ => True
  end.

(** [x < 0] on floats. *)
Definition flt0 (x : Py.float) : bool := SFltb x (S754_zero false).

(** No part is negative. *)
Definition parts_nonneg (p : parts_t) : Prop :=
  0 <= hours p /\ 0 <= minutes p /\ 0 <= seconds p.

(** [pre] is empty or ends in a unit letter. *)
Definition closed_prefix (pre : string) : Prop :=
  pre = "" \/ exists pre' v, pre = pre' +:+ String v "" /\ is_unit v = true.

(** Text without an opening brace, and without a closing one. *)
Definition no_open (s : string) : Prop := Py.contains_char "{" s = false.

Definition no_close (s : string) : Prop := Py.contains_char "}" s = false.

(** The four directive patterns only match at an opening brace. *)
Definition brace_led (pat : string -> option string) : Prop :=
  forall c s, Ascii.eqb c "{" = false -> pat (String c s) = None.

(** [s.replace(old, new, 1)], the replacement of the first occurrence
    only, which is what C1 describes. *)
Fixpoint replace_first (old new s : string) : string :=
  match s with
  | EmptyString => match old with EmptyString => new | _ => EmptyString end
  | String c s' =>
      if Py.startswith old s then new +:+ Py.drop (String.length old) s
      else String c (replace_first old new s')
  end.

(** A template without directives: literal text and the tokens [{n}],
    [{f}] and [{t}]. *)
Inductive piece : Type :=
| Lit (s : string)
| TokN
| TokF
| TokT.

(** The text of a list of pieces, each rendered by [env]. *)
Fixpoint flat (env : piece -> string) (ps : list piece) : string :=
  match ps with
  | [] => ""
  | p :: ps' => env p +:+ flat env ps'
  end.

(** A piece as written in the template. *)
Definition piece_text (p : piece) : string :=
  match p with
  | Lit s => s
  | TokN => "{n}"
  | TokF => "{f}"
  | TokT => "{t}"
  end.

(** A piece as it should appear in the name. *)
Definition piece_value (original : string) (f : Z) (t : string) (p : piece) : string :=
  match p with
  | Lit s => s
  | TokN => original
  | TokF => Py.format_06d f
  | TokT => t
  end.

(** Literal text holds no opening brace. *)
Definition literal_ok (p : piece) : bool :=
  match p with
  | Lit s => negb (Py.contains_char "{" s)
  | _ => true
  end.

(** Text that a scan for [tok] passes over unchanged. *)
Definition inert (tok u : string) : Prop :=
  forall v r, Py.replace_go tok v O (u +:+ r) = u +:+ Py.replace_go tok v O r.

(** The name with counter [c]: [f"{base}_{c}{ext}"]. *)
Definition numbered (base ext : string) (c : Z) : string :=
  base +:+ "_" +:+ pretty c +:+ ext.

(** The [k]-th name tried for [path]. *)
Definition candidate (path : string) (k : nat) : string :=
  match k with
  | O => path
  | S _ => numbered (fst (Path.splitext path)) (snd (Path.splitext path)) (Z.of_nat k)
  end.

(** A run of digits that [int] accepts has at most
    [Py.int_max_str_digits] characters. *)
Definition short_enough (d : string) : bool :=
  Z.of_nat (String.length d) <=? Py.int_max_str_digits.

(** A well-formed time expression: groups of digits followed by a unit
    letter, then [tail], which is empty or a run of digits. *)
Definition group_ok (g : string * ascii) : bool :=
  Py.str_isdigit (fst g) && short_enough (fst g) && is_unit (snd g).

Definition group_text (g : string * ascii) : string :=
  fst g +:+ String (snd g) "".

Fixpoint groups_text (gs : list (string * ascii)) : string :=
  match gs with
  | [] => ""
  | g :: gs' => group_text g +:+ groups_text gs'
  end.

(** The parts after the groups, each unit taking the value of its last
    group. *)
Definition apply_groups (gs : list (string * ascii)) (parts : parts_t) : parts_t :=
  fold_left (fun p g => set_unit (snd g) (Py.int_digits 0 (fst g)) p) gs parts.

(** Trailing digits replace the seconds. *)
Definition apply_tail (tail : string) (parts : parts_t) : parts_t :=
  match tail with
  | EmptyString => parts
  | _ => {| hours := hours parts; minutes := minutes parts;
            seconds := Py.int_digits 0 tail |}
  end.

Definition zero_parts : parts_t := {| hours := 0; minutes := 0; seconds := 0 |}.

(** The six plain tokens, in the order of the [replacements] dictionary. *)
Inductive token : Type := Tn | Tf | Tt | Tbase | Tdigits | Tletters.

Definition token_text (k : token) : string :=
  match k with
  | Tn => "{n}"
  | Tf => "{f}"
  | Tt => "{t}"
  | Tbase => "{n.base}"
  | Tdigits => "{n.digits}"
  | Tletters => "{n.letters}"
  end.

Definition token_value (original : string) (f : Z) (t : string) (k : token) : string :=
  match k with
  | Tn => original
  | Tf => Py.format_06d f
  | Tt => t
  | Tbase => fst (Path.splitext original)
  | Tdigits => Py.filter_str Py.isdigit original
  | Tletters => Py.filter_str Py.isalpha original
  end.

Definition token_index (k : token) : nat :=
  match k with
  | Tn => 0
  | Tf => 1
  | Tt => 2
  | Tbase => 3
  | Tdigits => 4
  | Tletters => 5
  end.

(** A template without directives: literal text and plain tokens. *)
Inductive item : Type :=
| Text (s : string)
| Tok (k : token).

Fixpoint flat_items (env : item -> string) (xs : list item) : string :=
  match xs with
  | [] => ""
  | x :: xs' => env x +:+ flat_items env xs'
  end.

Definition item_text (x : item) : string :=
  match x with
  | Text s => s
  | Tok k => token_text k
  end.

Definition item_value (original : string) (f : Z) (t : string) (x : item) : string :=
  match x with
  | Text s => s
  | Tok k => token_value original f t k
  end.

(** The template once the first [i] tokens of the dictionary have been
    substituted. *)
Definition item_upto (original : string) (f : Z) (t : string) (i : nat) (x : item) : string :=
  match x with
  | Text s => s
  | Tok k => if (token_index k <? i)%nat then token_value original f t k else token_text k
  end.

Definition text_ok (x : item) : bool :=
  match x with
  | Text s => negb (Py.contains_char "{" s)
  | Tok _ => true
  end.

(** [sub in s]: [sub] occurs somewhere in [s]. *)
Fixpoint has_sub (sub s : string) : bool :=
  Py.startswith sub s ||
  match s with
  | EmptyString => false
  | String _ s' => has_sub sub s'
  end.

(** [re.search] on the patterns made of letters, digits and underscores,
    which match themselves: the match is the pattern, where it occurs in
    the text.  On the other patterns this engine finds nothing, and a
    lone opening parenthesis does not compile. *)
Definition re_literal (regex original : string) : exc (option string) :=
  if String.eqb regex "(" then Raise ReError
  else if Py.forallb_str Py.isword regex && has_sub regex original then Ok (Some regex)
  else Ok None.

(** * Properties *)

(** ** String lemmas *)

Lemma append_String (c : ascii) (s t : string) : String c s +:+ t = String c (s +:+ t).
Proof. reflexivity. Qed.

Lemma append_Empty (t : string) : "" +:+ t = t.
Proof. reflexivity. Qed.

Lemma append_nil_r (s : string) : s +:+ "" = s.
Proof. induction s as [|c s IH]; [reflexivity|]. rewrite append_String, IH. reflexivity. Qed.

Lemma append_assoc (a b c : string) : (a +:+ b) +:+ c = a +:+ (b +:+ c).
Proof.
  induction a as [|x a IH]; [reflexivity|].
  rewrite !append_String, IH. reflexivity.
Qed.

Lemma length_append (a b : string) :
  String.length (a +:+ b) = (String.length a + String.length b)%nat.
Proof. induction a as [|x a IH]; [reflexivity|]. rewrite append_String. simpl. lia. Qed.

Ltac norm_app := rewrite ?append_String, ?append_Empty.

(** ** Floats: the sign of a product *)

Lemma binary_round_aux_sign (sx : bool) (mx ex : Z) (lx : location) :
  match binary_round_aux Py.prec Py.emax sx mx ex lx with
  | S754_finite s _ _ => s = sx
  | _ => True
  end.
Proof.
  unfold binary_round_aux.
  destruct (shr_fexp Py.prec Py.emax mx ex lx) as [mrs' e'].
  destruct (shr_fexp Py.prec Py.emax _ e' loc_Exact) as [mrs'' e''].
  destruct (shr_m mrs''); [exact I| |exact I].
  destruct (e'' <=? Py.emax - Py.prec); [reflexivity|exact I].
Qed.

Lemma float_lit_not_negative (n : Z) : 0 <= n -> not_negative_finite (Py.float_lit n).
Proof.
  intros Hn. unfold Py.float_lit, binary_normalize.
  destruct n as [|m|m]; [exact I| |lia].
  unfold binary_round.
  destruct (shl_align m 0 _) as [mz ez].
  pose proof (binary_round_aux_sign false (Z.pos mz) ez loc_Exact) as H.
  destruct (binary_round_aux _ _ false _ _ _) as [| | |s ? ?]; try exact I.
  subst s. exact I.
Qed.

Lemma fmul_not_negative (x y : Py.float) :
  not_negative_finite x -> not_negative_finite y -> not_negative_finite (Py.fmul x y).
Proof.
  intros Hx Hy. unfold Py.fmul.
  destruct x as [sx|sx| |sx mx ex], y as [sy|sy| |sy my ey]; try exact I.
  destruct sx; [destruct Hx|]. destruct sy; [destruct Hy|].
  unfold SFmul.
  pose proof (binary_round_aux_sign (xorb false false) (Z.pos (mx * my)) (ex + ey) loc_Exact) as H.
  destruct (binary_round_aux _ _ _ _ _ _) as [| | |s ? ?]; try exact I.
  simpl in H. subst s. exact I.
Qed.

Lemma int_of_float_nonneg (x : Py.float) (n : Z) :
  not_negative_finite x -> Py.int_of_float x = Ok n -> 0 <= n.
Proof.
  intros Hx H. destruct x as [s|s| |s m e]; simpl in H; try discriminate.
  - injection H as <-. lia.
  - destruct s; [destruct Hx|]. injection H as <-. simpl.
    apply Z.shiftl_nonneg. lia.
Qed.

Lemma flt0_false_not_negative (x : Py.float) : flt0 x = false -> not_negative_finite x.
Proof. destruct x as [s|s| |[|] m e]; simpl; try (intros; exact I). discriminate. Qed.

(** ** [parse_time]: the parts are never negative *)

Lemma isdigit_value (c : ascii) : Py.isdigit c = true -> 0 <= Py.digit_value c <= 9.
Proof.
  unfold Py.isdigit, Py.digit_value. intros H.
  apply andb_true_iff in H as [H1 H2].
  apply Nat.leb_le in H1, H2.
  generalize dependent (nat_of_ascii c). intros n H1 H2. lia.
Qed.

Lemma int_digits_nonneg (s : string) (acc : Z) :
  0 <= acc -> Py.forallb_str Py.isdigit s = true -> 0 <= Py.int_digits acc s.
Proof.
  revert acc. induction s as [|c s IH]; intros acc Hacc H; simpl in *; [exact Hacc|].
  apply andb_true_iff in H as [Hc Hs].
  apply IH; [|exact Hs]. pose proof (isdigit_value c Hc). lia.
Qed.

Lemma int_of_str_nonneg (s : string) (v : Z) : Py.int_of_str s = Ok v -> 0 <= v.
Proof.
  unfold Py.int_of_str, Py.str_isdigit.
  destruct s as [|c s]; [discriminate|].
  destruct (Py.forallb_str Py.isdigit (String c s)) eqn:E; [|discriminate].
  destruct (Py.int_max_str_digits <? _); [discriminate|].
  intros H. injection H as <-.
  apply (int_digits_nonneg (String c s) 0); [lia|exact E].
Qed.

Lemma set_unit_nonneg (c : ascii) (v : Z) (p : parts_t) :
  0 <= v -> parts_nonneg p -> parts_nonneg (set_unit c v p).
Proof.
  intros Hv (Hh & Hm & Hs). unfold set_unit, parts_nonneg.
  destruct (Ascii.eqb c "h"); [simpl; lia|].
  destruct (Ascii.eqb c "m"); simpl; lia.
Qed.

Lemma parse_time_loop_nonneg (time_str : string) :
  forall parts cv parts' cv',
    parts_nonneg parts ->
    parse_time_loop time_str parts cv = Ok (parts', cv') ->
    parts_nonneg parts'.
Proof.
  induction time_str as [|c rest IH]; intros parts cv parts' cv' Hp H; simpl in H.
  - injection H as <- _. exact Hp.
  - destruct (Py.isdigit c); [eapply IH; eassumption|].
    destruct (is_unit c); [|eapply IH; eassumption].
    destruct (Py.int_of_str cv) as [v|e] eqn:E; simpl in H; [|discriminate].
    eapply IH; [|exact H]. apply set_unit_nonneg; [|exact Hp].
    eapply int_of_str_nonneg; exact E.
Qed.

Lemma parse_time_nonneg (time_str : string) (parts : parts_t) :
  parse_time time_str = Ok parts -> parts_nonneg parts.
Proof.
  unfold parse_time. intros H.
  destruct (parse_time_loop time_str _ _) as [[p cv]|e] eqn:E; simpl in H; [|discriminate].
  apply parse_time_loop_nonneg in E; [|unfold parts_nonneg; simpl; lia].
  destruct cv as [|c cv]; [injection H as <-; exact E|].
  destruct (Py.int_of_str (String c cv)) as [v|e] eqn:Ev; simpl in H; [|discriminate].
  injection H as <-. apply int_of_str_nonneg in Ev.
  destruct E as (Hh & Hm & _). unfold parts_nonneg. simpl. lia.
Qed.

Lemma timedelta_total (h m s : Z) (td : timedelta_t) :
  timedelta h m s = Ok td -> days td * 86400 + secs td = h * 3600 + m * 60 + s.
Proof.
  unfold timedelta. destruct (999999999 <? _); [discriminate|].
  intros H. injection H as <-. simpl.
  pose proof (Z.div_mod (h * 3600 + m * 60 + s) 86400). lia.
Qed.

(** The index computed for a time offset is not negative unless the frame
    rate is. *)
Lemma relative_frame_nonneg (time_str : string) (fps : Py.float) (T n : Z) :
  1 <= T -> not_negative_finite fps ->
  relative_frame time_str fps T = Ok n -> 0 <= n <= T - 1.
Proof.
  intros HT Hfps. unfold relative_frame.
  destruct (parse_time time_str) as [parts|e] eqn:Ep; simpl; [|discriminate].
  destruct (timedelta _ _ _) as [td|e] eqn:Et; simpl; [|discriminate].
  destruct (Py.int_of_float _) as [k|e] eqn:Ek; simpl; [|discriminate].
  intros H. injection H as <-.
  apply int_of_float_nonneg in Ek.
  - lia.
  - apply fmul_not_negative; [|exact Hfps].
    apply float_lit_not_negative.
    rewrite (timedelta_total _ _ _ _ Et).
    destruct (parse_time_nonneg _ _ Ep) as (? & ? & ?). lia.
Qed.

(** ** [parse_time]: how the loop treats its input *)

Lemma parse_time_loop_app (s1 s2 : string) :
  forall parts cv,
    parse_time_loop (s1 +:+ s2) parts cv =
    (do st <- parse_time_loop s1 parts cv; parse_time_loop s2 (fst st) (snd st)).
Proof.
  induction s1 as [|c s1 IH]; intros parts cv; norm_app; simpl; [reflexivity|].
  destruct (Py.isdigit c); [apply IH|].
  destruct (is_unit c); [|apply IH].
  destruct (Py.int_of_str cv) as [v|e]; simpl; [apply IH|reflexivity].
Qed.

Lemma is_unit_not_digit (u : ascii) : is_unit u = true -> Py.isdigit u = false.
Proof.
  unfold is_unit. intros Hu.
  apply orb_true_iff in Hu as [Hu|Hu]; [apply orb_true_iff in Hu as [Hu|Hu]|];
    apply Ascii.eqb_eq in Hu; subst u; reflexivity.
Qed.

(** After a unit letter nothing is pending. *)
Lemma parse_time_loop_after_unit (s : string) (u : ascii) :
  is_unit u = true ->
  forall parts cv parts' cv',
    parse_time_loop (s +:+ String u "") parts cv = Ok (parts', cv') -> cv' = "".
Proof.
  intros Hu parts cv parts' cv'. rewrite parse_time_loop_app.
  destruct (parse_time_loop s parts cv) as [[p c]|e]; simpl; [|discriminate].
  rewrite (is_unit_not_digit u Hu), Hu.
  destruct (Py.int_of_str c); simpl; [|discriminate].
  intros H. injection H as _ <-. reflexivity.
Qed.

(** With nothing pending, a unit letter reached before any digit raises. *)
Lemma parse_time_loop_bare_unit (gap : string) (u : ascii) (post : string) :
  Py.forallb_str (fun c => negb (Py.isdigit c)) gap = true ->
  is_unit u = true -> Py.isdigit u = false ->
  forall parts, exists e, parse_time_loop (gap +:+ String u post) parts "" = Raise e.
Proof.
  intros Hgap Hu Hd.
  induction gap as [|c gap IH]; intros parts; norm_app; simpl.
  - rewrite Hd, Hu. simpl. eexists; reflexivity.
  - simpl in Hgap. apply andb_true_iff in Hgap as [Hc Hgap].
    apply negb_true_iff in Hc. rewrite Hc.
    destruct (is_unit c); [simpl; eexists; reflexivity|].
    apply IH. exact Hgap.
Qed.

Lemma parse_time_malformed (pre gap : string) (u : ascii) (post : string) :
  closed_prefix pre ->
  Py.forallb_str (fun c => negb (Py.isdigit c)) gap = true ->
  is_unit u = true ->
  exists e, parse_time (pre +:+ gap +:+ String u post) = Raise e.
Proof.
  intros Hpre Hgap Hu. unfold parse_time.
  pose proof (is_unit_not_digit u Hu) as Hd.
  rewrite parse_time_loop_app.
  destruct (parse_time_loop pre _ "") as [[p cv]|e] eqn:E; simpl;
    [|eexists; reflexivity].
  assert (cv = "") as ->.
  { destruct Hpre as [->|(pre' & v & -> & Hv)].
    - simpl in E. congruence.
    - eapply parse_time_loop_after_unit; [exact Hv|exact E]. }
  destruct (parse_time_loop_bare_unit gap u post Hgap Hu Hd p) as [e ->].
  simpl. eexists; reflexivity.
Qed.

(** A character that is neither a digit nor a unit letter is skipped. *)
Lemma parse_time_skips_unknown (s1 s2 : string) (c : ascii) :
  Py.isdigit c = false -> is_unit c = false ->
  parse_time (s1 +:+ String c s2) = parse_time (s1 +:+ s2).
Proof.
  intros Hd Hu. unfold parse_time. rewrite !parse_time_loop_app.
  destruct (parse_time_loop s1 _ _) as [[p cv]|e]; simpl; [|reflexivity].
  rewrite Hd, Hu. reflexivity.
Qed.

(** ** Frame resolution *)

(** C5: an integer specifier [n] against [T >= 1] frames resolves to
    [min(max(n, 0), T - 1)], which lies in [[0, T - 1]]: a negative [n]
    gives [0], an [n] past the last frame gives [T - 1], and nothing is
    printed. *)
Theorem absolute_specifier_clamps (cap : VideoCapture) (n T : Z) :
  CAP_PROP_FRAME_COUNT cap = T -> 1 <= T ->
  calculate_frame_number cap (FInt n) = (Z.min (Z.max n 0) (T - 1), []) /\
  0 <= fst (calculate_frame_number cap (FInt n)) <= T - 1 /\
  (n < 0 -> fst (calculate_frame_number cap (FInt n)) = 0) /\
  (T - 1 < n -> fst (calculate_frame_number cap (FInt n)) = T - 1) /\
  (0 <= n <= T - 1 -> fst (calculate_frame_number cap (FInt n)) = n).
Proof.
  intros HT Hpos. unfold calculate_frame_number. rewrite HT. simpl.
  repeat split; try lia.
Qed.

Lemma absolute_specifier_clamps_witness :
  calculate_frame_number (mk_cap 10 (Py.float_lit 30)) (FInt 15) = (Z.min (Z.max 15 0) (10 - 1), []) /\
  0 <= fst (calculate_frame_number (mk_cap 10 (Py.float_lit 30)) (FInt 15)) <= 10 - 1 /\
  (15 < 0 -> fst (calculate_frame_number (mk_cap 10 (Py.float_lit 30)) (FInt 15)) = 0) /\
  (10 - 1 < 15 -> fst (calculate_frame_number (mk_cap 10 (Py.float_lit 30)) (FInt 15)) = 10 - 1) /\
  (0 <= 15 <= 10 - 1 -> fst (calculate_frame_number (mk_cap 10 (Py.float_lit 30)) (FInt 15)) = 15).
Proof.
  apply (absolute_specifier_clamps (mk_cap 10 (Py.float_lit 30)) 15 10); [reflexivity|lia].
Defined.

(** C10: a string specifier that does not begin with [t+] prints the
    invalid-specifier warning and resolves to [0] whatever the metadata; the
    command line turns its argument into an integer only when it is all
    digits, so [-5] arrives as a string and takes this branch. *)
Theorem invalid_specifier_resolves_to_zero (cap : VideoCapture) (s : string) :
  Py.startswith "t+" s = false ->
  calculate_frame_number cap (FStr s) = (0, [InvalidFrameSpec s]) /\
  (forall x n, frame_arg x = FInt n -> Py.str_isdigit x = true) /\
  (forall x, Py.str_isdigit x = false -> frame_arg x = FStr x) /\
  frame_arg "-5" = FStr "-5" /\
  calculate_frame_number cap (frame_arg "-5") = (0, [InvalidFrameSpec "-5"]).
Proof.
  intros Hs. unfold calculate_frame_number. rewrite Hs.
  split; [reflexivity|]. split; [|split; [|split; reflexivity]].
  - intros x n. unfold frame_arg. destruct (Py.str_isdigit x); [reflexivity|discriminate].
  - intros x Hx. unfold frame_arg. rewrite Hx. reflexivity.
Qed.

Lemma invalid_specifier_resolves_to_zero_witness :
  calculate_frame_number (mk_cap 100 (Py.float_lit 30)) (FStr "last")
  = (0, [InvalidFrameSpec "last"]).
Proof.
  apply (invalid_specifier_resolves_to_zero (mk_cap 100 (Py.float_lit 30)) "last").
  reflexivity.
Defined.

(** C3, as stated, fails: a letter that is not a unit is passed over, so
    [t+5x] at 30 frames per second resolves to frame 150 and prints
    nothing. *)
Lemma unknown_unit_is_skipped :
  Py.isdigit "x" = false /\ is_unit "x" = false /\
  calculate_frame_number (mk_cap 1000 (Py.float_lit 30)) (FStr "t+5x") = (150, []) /\
  calculate_frame_number (mk_cap 1000 (Py.float_lit 30)) (FStr "t+5x")
    <> (0, [InvalidTimeFormat "5x"]).
Proof. repeat split; try reflexivity. vm_compute. discriminate. Qed.

(** C3, amended: when a unit letter [h], [m] or [s] comes with no digit
    since the previous unit letter or the start of the expression, the
    resolver prints the invalid-time warning and returns [0]; a character
    that is neither a digit nor a unit letter is skipped and changes
    neither the parsed parts nor the index. *)
Theorem bare_unit_resolves_to_zero (cap : VideoCapture) (pre gap : string) (u : ascii)
    (post : string) :
  closed_prefix pre ->
  Py.forallb_str (fun c => negb (Py.isdigit c)) gap = true ->
  is_unit u = true ->
  calculate_frame_number cap (FStr ("t+" +:+ pre +:+ gap +:+ String u post))
  = (0, [InvalidTimeFormat (pre +:+ gap +:+ String u post)]) /\
  (forall c s1 s2, Py.isdigit c = false -> is_unit c = false ->
     parse_time (s1 +:+ String c s2) = parse_time (s1 +:+ s2) /\
     fst (calculate_frame_number cap (FStr ("t+" +:+ s1 +:+ String c s2)))
     = fst (calculate_frame_number cap (FStr ("t+" +:+ s1 +:+ s2)))).
Proof.
  intros Hpre Hgap Hu. split.
  - destruct (parse_time_malformed pre gap u post Hpre Hgap Hu) as [e He].
    unfold calculate_frame_number. norm_app. simpl.
    unfold relative_frame. rewrite He. reflexivity.
  - intros c s1 s2 Hd Hc.
    pose proof (parse_time_skips_unknown s1 s2 c Hd Hc) as Hskip.
    split; [exact Hskip|].
    unfold calculate_frame_number. norm_app. simpl.
    unfold relative_frame. rewrite Hskip.
    destruct (do parts <- parse_time (s1 +:+ s2); _); reflexivity.
Qed.

Lemma bare_unit_resolves_to_zero_witness :
  calculate_frame_number (mk_cap 1000 (Py.float_lit 30)) (FStr ("t+" +:+ "" +:+ "x" +:+ String "h" "5"))
  = (0, [InvalidTimeFormat ("" +:+ "x" +:+ String "h" "5")]).
Proof.
  apply (bare_unit_resolves_to_zero (mk_cap 1000 (Py.float_lit 30)) "" "x" "h" "5").
  - left. reflexivity.
  - reflexivity.
  - reflexivity.
Defined.

(** C2: with a negative frame rate the index computed for [t+1s] is
    negative: the time branch takes the minimum with the last frame but,
    unlike the integer branch, no maximum with zero. *)
Theorem relative_specifier_negative_fps :
  calculate_frame_number (mk_cap 10 (Py.float_lit (-1))) (FStr "t+1s") = (-1, []) /\
  calculate_frame_number (mk_cap 10 (Py.float_lit (-1))) (FInt (-1)) = (0, []).
Proof. split; reflexivity. Qed.

(** The spec's own example: one minute thirty at 30 frames per second. *)
Example relative_1m30s :
  calculate_frame_number (mk_cap 10000 (Py.float_lit 30)) (FStr "t+1m30s") = (2700, []).
Proof. reflexivity. Qed.

(** C4: with a reported frame rate of [0], [t+10s] resolves with the
    reported rate, to frame [0], before the default of 30 is substituted;
    only the time label is computed with the default.  With a reported
    rate of [-1] the index is [-10] and its label, [-10 / 30], is
    [-0.33s]. *)
Theorem default_fps_not_used_for_resolution :
  calculate_frame_number (mk_cap 1000 (Py.float_lit 0)) (FStr "t+10s") = (0, []) /\
  calculate_frame_number (mk_cap 1000 (Py.float_lit 30)) (FStr "t+10s") = (300, []) /\
  extract_frame re_stub imwrite_ok ∅ (mk_cap 1000 (Py.float_lit 0)) "vids/clip.mp4"
    (FStr "t+10s") "jpg" "./thumbnails" None false
  = Some {| printed := [FpsDefaulted; Saved "./thumbnails/clip_f000000_0.00s.jpg"];
            written := Some ("./thumbnails/clip_f000000_0.00s.jpg", O) |} /\
  extract_frame re_stub imwrite_ok ∅ (mk_cap 1000 (Py.float_lit (-1))) "vids/clip.mp4"
    (FStr "t+10s") "jpg" "./thumbnails" None false
  = Some {| printed := [FpsDefaulted; Saved "./thumbnails/clip_f-00010_-0.33s.jpg"];
            written := Some ("./thumbnails/clip_f-00010_-0.33s.jpg", O) |}.
Proof. repeat split; vm_compute; reflexivity. Qed.

(** C7, as stated, fails: with a frame count of [0] the integer specifier
    [5] is resolved, to index [-1], and extraction goes on to read and
    write that frame when the decoder returns one. *)
Lemma zero_frames_still_resolved :
  CAP_PROP_FRAME_COUNT (mk_cap 0 (Py.float_lit 30)) = 0 /\
  calculate_frame_number (mk_cap 0 (Py.float_lit 30)) (FInt 5) = (-1, []) /\
  ~ (0 <= fst (calculate_frame_number (mk_cap 0 (Py.float_lit 30)) (FInt 5)) <= 0 - 1) /\
  extract_frame re_stub imwrite_ok ∅ (mk_cap 0 (Py.float_lit 30)) "vids/clip.mp4"
    (FInt 5) "jpg" "./thumbnails" None false
  = Some {| printed := [Saved "./thumbnails/clip_f-00001_-0.03s.jpg"];
            written := Some ("./thumbnails/clip_f-00001_-0.03s.jpg", O) |}.
Proof.
  split; [reflexivity|]. split; [reflexivity|]. split; [simpl; lia|].
  vm_compute. reflexivity.
Qed.

Lemma calculate_frame_number_in_range (cap : VideoCapture) (spec : frame_option) :
  1 <= CAP_PROP_FRAME_COUNT cap -> flt0 (CAP_PROP_FPS cap) = false ->
  0 <= fst (calculate_frame_number cap spec) <= CAP_PROP_FRAME_COUNT cap - 1.
Proof.
  intros HT Hfps. unfold calculate_frame_number.
  destruct spec as [n|s]; [simpl; lia|].
  destruct (Py.startswith "t+" s); [|simpl; lia].
  destruct (relative_frame _ _ _) as [k|e] eqn:E; simpl; [|lia].
  eapply relative_frame_nonneg; [exact HT| |exact E].
  apply flt0_false_not_negative. exact Hfps.
Qed.

(** C7, amended: for a frame count [T >= 1] and a frame rate that is not
    negative, every index the resolver returns lies in [[0, T - 1]]; there
    is no check for a frame count of [0]: an integer specifier then
    resolves to [-1], and the file is given up only if the decoder fails to
    read at that position. *)
Theorem resolved_index_in_range (re_search : string -> string -> exc (option string))
    (imwrite : string -> frame -> exc bool)
    (fs : gset string) (cap : VideoCapture) (spec : frame_option) (T : Z) :
  CAP_PROP_FRAME_COUNT cap = T ->
  (1 <= T -> flt0 (CAP_PROP_FPS cap) = false ->
   0 <= fst (calculate_frame_number cap spec) <= T - 1) /\
  (T = 0 -> forall n, calculate_frame_number cap (FInt n) = (-1, [])) /\
  (T = 0 -> isOpened cap = true -> read_at cap (-1) = None ->
   forall n video_path output_format output_dir name_pattern keep,
   exists o,
     extract_frame re_search imwrite fs cap video_path (FInt n) output_format output_dir
       name_pattern keep = Some o /\
     written o = None /\ In (CannotReadFrame video_path (-1)) (printed o)).
Proof.
  intros HT. split; [|split].
  - intros Hpos Hfps. subst T. apply calculate_frame_number_in_range; assumption.
  - intros H0 n. unfold calculate_frame_number. rewrite HT, H0. simpl.
    f_equal. lia.
  - intros H0 Hopen Hread n video_path output_format output_dir name_pattern keep.
    assert (Hc : calculate_frame_number cap (FInt n) = (-1, [])).
    { unfold calculate_frame_number. rewrite HT, H0. simpl. f_equal. lia. }
    unfold extract_frame. rewrite Hopen, Hc. cbn [negb].
    destruct (Py.fle0 (CAP_PROP_FPS cap)); rewrite Hread;
      eexists; (split; [reflexivity|]); simpl; auto.
Qed.

Lemma resolved_index_in_range_witness :
  0 <= fst (calculate_frame_number (mk_cap 10 (Py.float_lit 30)) (FStr "t+1m")) <= 10 - 1.
Proof.
  apply (resolved_index_in_range re_stub imwrite_ok ∅ (mk_cap 10 (Py.float_lit 30)) (FStr "t+1m") 10);
    [reflexivity|lia|reflexivity].
Defined.

(** ** Scanning text that holds no opening brace *)

Lemma contains_char_app (c : ascii) (a b : string) :
  Py.contains_char c (a +:+ b) = Py.contains_char c a || Py.contains_char c b.
Proof.
  induction a as [|x a IH]; norm_app; simpl; [reflexivity|].
  rewrite IH. apply orb_assoc.
Qed.

Lemma contains_char_cons (c x : ascii) (s : string) :
  Py.contains_char c (String x s) = false ->
  Ascii.eqb x c = false /\ Py.contains_char c s = false.
Proof. simpl. intros H. apply orb_false_iff in H. exact H. Qed.

Lemma eqb_false_sym (a b : ascii) : Ascii.eqb a b = false -> Ascii.eqb b a = false.
Proof. rewrite (Ascii.eqb_sym b a). trivial. Qed.

Lemma startswith_app (p z : string) : Py.startswith p (p +:+ z) = true.
Proof.
  induction p as [|c p IH]; norm_app; simpl; [reflexivity|].
  rewrite Ascii.eqb_refl. exact IH.
Qed.

Lemma drop_app (p z : string) : Py.drop (String.length p) (p +:+ z) = z.
Proof. induction p as [|c p IH]; norm_app; simpl; [reflexivity|exact IH]. Qed.

Lemma drop_last_app (y : string) (c : ascii) : Py.drop_last (y +:+ String c "") = y.
Proof.
  induction y as [|x y IH]; norm_app; [reflexivity|].
  simpl. rewrite IH. destruct y; reflexivity.
Qed.

Lemma last_is_app (y : string) (c : ascii) : Re.last_is c (y +:+ String c "") = true.
Proof.
  induction y as [|x y IH]; norm_app; simpl; [apply Ascii.eqb_refl|].
  destruct y; exact IH.
Qed.

Lemma startswith_cons (a b : ascii) (p s : string) :
  Py.startswith (String a p) (String b s) = Ascii.eqb a b && Py.startswith p s.
Proof. reflexivity. Qed.

Lemma replace_go_head_miss (tok v : string) (c : ascii) (tail : string) :
  Py.startswith tok (String c tail) = false ->
  Py.replace_go tok v O (String c tail) = String c (Py.replace_go tok v O tail).
Proof.
  intros H. change (Py.replace_go tok v O (String c tail))
    with (if Py.startswith tok (String c tail)
          then v +:+ Py.replace_go tok v (Nat.pred (String.length tok)) tail
          else String c (Py.replace_go tok v O tail)).
  rewrite H. reflexivity.
Qed.

(** A token that begins with a brace does not occur in brace-free text. *)
Lemma replace_go_no_open (tok v x : string) :
  no_open x -> Py.replace_go (String "{" tok) v O x = x.
Proof.
  unfold no_open. induction x as [|c x IH]; intros H; [reflexivity|].
  apply contains_char_cons in H as [Hc Hx].
  rewrite replace_go_head_miss; [rewrite (IH Hx); reflexivity|].
  rewrite startswith_cons, (eqb_false_sym _ _ Hc). reflexivity.
Qed.

Lemma replace_go_skip (tok v x r : string) (k : nat) :
  Py.replace_go tok v (String.length x + k) (x +:+ r) = Py.replace_go tok v k r.
Proof. induction x as [|c x IH]; norm_app; simpl; [reflexivity|exact IH]. Qed.

Lemma match_dotted_brace_led : brace_led Re.match_dotted.
Proof.
  intros c s H. destruct c as [[] [] [] [] [] [] [] []]; try reflexivity; discriminate.
Qed.

Lemma match_colon_brace_led : brace_led Re.match_colon.
Proof.
  intros c s H. destruct c as [[] [] [] [] [] [] [] []]; try reflexivity; discriminate.
Qed.

Lemma match_call_brace_led (prefix : string) : brace_led (Re.match_call prefix).
Proof.
  intros c s H. destruct c as [[] [] [] [] [] [] [] []]; try reflexivity; discriminate.
Qed.

Lemma sub_go_no_open (pat : string -> option string) (repl : string -> exc string)
    (x : string) :
  brace_led pat -> no_open x -> Re.sub_go pat repl O x = Ok x.
Proof.
  intros Hpat. unfold no_open. induction x as [|c x IH]; intros H; [reflexivity|].
  apply contains_char_cons in H as [Hc Hx].
  simpl. rewrite (Hpat c x Hc), (IH Hx). reflexivity.
Qed.

Lemma sub_go_head_miss (pat : string -> option string) (repl : string -> exc string)
    (c : ascii) (tail : string) :
  pat (String c tail) = None ->
  Re.sub_go pat repl O (String c tail)
  = (do rest <- Re.sub_go pat repl O tail; Ok (String c rest)).
Proof. intros H. simpl. rewrite H. reflexivity. Qed.

Lemma sub_go_skip (pat : string -> option string) (repl : string -> exc string)
    (x r : string) (k : nat) :
  Re.sub_go pat repl (String.length x + k) (x +:+ r) = Re.sub_go pat repl k r.
Proof. induction x as [|c x IH]; norm_app; simpl; [reflexivity|exact IH]. Qed.

Lemma span_not_close_app (a b : string) :
  no_close a -> Re.span Re.not_close (a +:+ String "}" b) = (a, String "}" b).
Proof.
  unfold no_close. induction a as [|c a IH]; intros H; norm_app; [reflexivity|].
  apply contains_char_cons in H as [Hc Ha].
  simpl. unfold Re.not_close at 1. rewrite Hc. simpl. rewrite (IH Ha). reflexivity.
Qed.

(** A call directive that spans the whole text is matched whole. *)
Lemma match_call_whole (prefix body : string) :
  no_close body -> body <> "" ->
  Re.match_call prefix (String "{" ((prefix +:+ (body +:+ ")")) +:+ "}"))
  = Some (prefix +:+ (body +:+ ")")).
Proof.
  intros Hclose Hne. unfold Re.match_call.
  rewrite append_assoc, startswith_app, drop_app.
  rewrite span_not_close_app.
  - rewrite last_is_app, drop_last_app.
    destruct body; [contradiction|reflexivity].
  - unfold no_close. rewrite contains_char_app, Hclose. reflexivity.
Qed.

Lemma sub_go_whole_match (pat : string -> option string) (repl : string -> exc string)
    (command : string) :
  pat (String "{" (command +:+ "}")) = Some command ->
  Re.sub_go pat repl O (String "{" (command +:+ "}")) = repl command.
Proof.
  intros H. simpl. rewrite H.
  destruct (repl command) as [r|e]; simpl; [|reflexivity].
  replace (S (String.length command)) with (String.length command + 1)%nat by lia.
  rewrite sub_go_skip. simpl. rewrite append_nil_r. reflexivity.
Qed.

Lemma split1_first (old new : string) :
  Py.contains_char "," old = false ->
  Py.split1 "," (old +:+ String "," new) = [old; new].
Proof.
  induction old as [|c old IH]; intros H; norm_app; [reflexivity|].
  apply contains_char_cons in H as [Hc Hold].
  simpl. rewrite Hc, (IH Hold). reflexivity.
Qed.

(** The first field of a command that begins [n.] is not [n]. *)
Lemma split_colon_head (rest : string) :
  exists h t,
    Py.split ":" (String "n" (String "." rest)) = String "n" (String "." h) :: t.
Proof.
  simpl. destruct (Py.split ":" rest) as [|h t]; eexists _, _; reflexivity.
Qed.

(** ** The call directives *)

Section CallDirectives.

Variable re_search : string -> string -> exc (option string).

Lemma replace_inert (tok v tail : string) :
  Py.startswith (String "{" tok) (String "{" tail) = false -> no_open tail ->
  Py.replace (String "{" tail) (String "{" tok) v = String "{" tail.
Proof.
  intros Hmiss Htail. unfold Py.replace.
  rewrite replace_go_head_miss by exact Hmiss.
  rewrite replace_go_no_open by exact Htail. reflexivity.
Qed.

(** A template that is one call directive on [n] holds none of the plain
    tokens. *)
Lemma substitute_tokens_call (original : string) (f : Z) (t : string) (c : ascii)
    (rest : string) :
  Ascii.eqb c "b" = false -> Ascii.eqb c "d" = false -> Ascii.eqb c "l" = false ->
  no_open (String c rest) ->
  substitute_tokens (replacements original f t) (String "{" (String "n" (String "." (String c rest))))
  = String "{" (String "n" (String "." (String c rest))).
Proof.
  intros Hb Hd Hl Hrest.
  assert (Htail : no_open (String "n" (String "." (String c rest)))) by exact Hrest.
  unfold substitute_tokens, replacements. cbn [fold_left fst snd].
  rewrite !replace_inert; try exact Htail; try reflexivity.
  - rewrite !startswith_cons. rewrite (Ascii.eqb_sym "l" c), Hl.
    rewrite !andb_false_r. reflexivity.
  - rewrite !startswith_cons. rewrite (Ascii.eqb_sym "d" c), Hd.
    rewrite !andb_false_r. reflexivity.
  - rewrite !startswith_cons. rewrite (Ascii.eqb_sym "b" c), Hb.
    rewrite !andb_false_r. reflexivity.
Qed.

Lemma regex_replacer_not_prefix (original : string) (rest : string) (k : exc string) :
  (if Py.contains_char ":" (String "n" (String "." rest)) then
     let parts := Py.split ":" (String "n" (String "." rest)) in
     do p0 <- Py.index parts 0;
     if String.eqb p0 "n" then
       do p1 <- Py.index parts 1;
       if Py.str_isdigit p1 then
         do n <- Py.int_of_str p1;
         Ok (Py.take (Z.to_nat n) original)
       else k
     else k
   else k) = k.
Proof.
  destruct (Py.contains_char ":" _); [|reflexivity].
  destruct (split_colon_head rest) as (h & t & ->). reflexivity.
Qed.

Lemma regex_replacer_replace (original old new : string) :
  Py.contains_char "," old = false ->
  regex_replacer re_search original ("n.replace(" +:+ ((old +:+ String "," new) +:+ ")"))
  = Ok (Py.replace original old new).
Proof.
  intros Hcomma. unfold regex_replacer. cbv zeta.
  change ("n.replace(" +:+ ((old +:+ String "," new) +:+ ")"))
    with (String "n" (String "." ("replace(" +:+ ((old +:+ String "," new) +:+ ")")))).
  rewrite regex_replacer_not_prefix.
  change (String "n" (String "." ("replace(" +:+ ((old +:+ String "," new) +:+ ")"))))
    with ("n.replace(" +:+ ((old +:+ String "," new) +:+ ")")).
  replace (Py.startswith "n.match(" ("n.replace(" +:+ ((old +:+ String "," new) +:+ ")")))
    with false by reflexivity.
  rewrite startswith_app.
  rewrite (drop_app "n.replace("), drop_last_app, (split1_first _ _ Hcomma).
  reflexivity.
Qed.

Lemma regex_replacer_match (original regex : string) :
  regex_replacer re_search original ("n.match(" +:+ (regex +:+ ")"))
  = (do matched <- re_search regex original;
     match matched with
     | Some g => Ok g
     | None => Ok ""
     end).
Proof.
  unfold regex_replacer. cbv zeta.
  change ("n.match(" +:+ (regex +:+ ")"))
    with (String "n" (String "." ("match(" +:+ (regex +:+ ")")))).
  rewrite regex_replacer_not_prefix.
  change (String "n" (String "." ("match(" +:+ (regex +:+ ")"))))
    with ("n.match(" +:+ (regex +:+ ")")).
  rewrite startswith_app.
  rewrite (drop_app "n.match("), drop_last_app.
  reflexivity.
Qed.

End CallDirectives.

(** ** Rendering *)

(** C1, as stated, fails: every occurrence is replaced, so [banana] with
    [{n.replace(a,X)}] renders to [bXnXnX], not to [bXnana]. *)
Lemma replace_directive_not_first_only :
  replace_first "a" "X" "banana" = "bXnana" /\
  apply_regex_pattern re_stub "banana" "{n.replace(a,X)}" 0 "0.00s" = ("bXnXnX", []) /\
  fst (apply_regex_pattern re_stub "banana" "{n.replace(a,X)}" 0 "0.00s")
    <> replace_first "a" "X" "banana".
Proof. repeat split; try reflexivity. vm_compute. discriminate. Qed.

(** C1, amended: for [old] and [new] free of braces, and [old] free of
    commas, the directive [{n.replace(old,new)}] renders to the basename
    with every non-overlapping occurrence of [old] replaced by [new]
    ([str.replace] without a count), literally. *)
Theorem replace_directive_replaces_all
    (re_search : string -> string -> exc (option string))
    (original old new : string) (f : Z) (t : string) :
  no_open old -> no_close old -> Py.contains_char "," old = false ->
  no_open new -> no_close new ->
  apply_regex_pattern re_search original
    ("{n.replace(" +:+ old +:+ "," +:+ new +:+ ")}") f t
  = (Py.replace original old new, []).
Proof.
  intros Hoo Hoc Hcomma Hno Hnc.
  set (body := old +:+ String "," new).
  set (command := "n.replace(" +:+ (body +:+ ")")).
  assert (Et : "{n.replace(" +:+ old +:+ "," +:+ new +:+ ")}"
               = String "{" (command +:+ "}")).
  { unfold command, body. rewrite !append_assoc. reflexivity. }
  assert (Htail : no_open (command +:+ "}")).
  { unfold no_open, command, body. rewrite !contains_char_app.
    unfold no_open in Hoo, Hno. rewrite Hoo. simpl. rewrite Hno. reflexivity. }
  assert (Hbody : no_close body).
  { unfold no_close, body. rewrite contains_char_app.
    unfold no_close in Hoc, Hnc. rewrite Hoc. simpl. exact Hnc. }
  assert (Hne : body <> "") by (unfold body; destruct old; discriminate).
  rewrite Et. unfold apply_regex_pattern, render_body.
  change (String "{" (command +:+ "}"))
    with (String "{" (String "n" (String "." (String "r"
            (("eplace(" +:+ (body +:+ ")")) +:+ "}"))))) at 1.
  rewrite substitute_tokens_call; try reflexivity; [|exact Htail].
  change (String "{" (String "n" (String "." (String "r"
            (("eplace(" +:+ (body +:+ ")")) +:+ "}")))))
    with (String "{" (command +:+ "}")).
  unfold Re.sub.
  rewrite (sub_go_head_miss Re.match_dotted) by reflexivity.
  rewrite (sub_go_no_open _ _ _ match_dotted_brace_led Htail). cbn [bind].
  rewrite (sub_go_head_miss Re.match_colon) by reflexivity.
  rewrite (sub_go_no_open _ _ _ match_colon_brace_led Htail). cbn [bind].
  rewrite (sub_go_head_miss (Re.match_call "n.match(")) by reflexivity.
  rewrite (sub_go_no_open _ _ _ (match_call_brace_led _) Htail). cbn [bind].
  rewrite sub_go_whole_match by (apply match_call_whole; assumption).
  unfold command, body. rewrite regex_replacer_replace by exact Hcomma.
  reflexivity.
Qed.

Lemma replace_directive_replaces_all_witness :
  apply_regex_pattern re_stub "banana" ("{n.replace(" +:+ "a" +:+ "," +:+ "X" +:+ ")}") 42 "1.40s"
  = (Py.replace "banana" "a" "X", []).
Proof.
  apply (replace_directive_replaces_all re_stub "banana" "a" "X" 42 "1.40s");
    reflexivity.
Defined.

(** C6: rendering always returns a name: either the [try] block finishes
    and its text is the result, or it raises and the result is the basename
    followed by [_error], with the error printed; a regular expression that
    the library rejects inside [{n.match(...)}] is such a failure. *)
Theorem render_total_with_fallback
    (re_search : string -> string -> exc (option string))
    (original pattern : string) (f : Z) (t : string) :
  ((exists p, render_body re_search original pattern f t = Ok p /\
              apply_regex_pattern re_search original pattern f t = (p, [])) \/
   (exists e, render_body re_search original pattern f t = Raise e /\
              apply_regex_pattern re_search original pattern f t
              = (original +:+ "_error", [PatternError e]))) /\
  (forall regex e,
     Re.nonempty regex = true -> no_open regex -> no_close regex ->
     re_search regex original = Raise e ->
     apply_regex_pattern re_search original ("{n.match(" +:+ regex +:+ ")}") f t
     = (original +:+ "_error", [PatternError e])).
Proof.
  split.
  - unfold apply_regex_pattern.
    destruct (render_body re_search original pattern f t) as [p|e].
    + left. exists p. split; reflexivity.
    + right. exists e. split; reflexivity.
  - intros regex e Hne Hopen Hclose Hre.
    set (command := "n.match(" +:+ (regex +:+ ")")).
    assert (Et : "{n.match(" +:+ regex +:+ ")}" = String "{" (command +:+ "}")).
    { unfold command. rewrite !append_assoc. reflexivity. }
    assert (Htail : no_open (command +:+ "}")).
    { unfold no_open, command. rewrite !contains_char_app.
      unfold no_open in Hopen. rewrite Hopen. reflexivity. }
    assert (Hne' : regex <> "") by (destruct regex; [discriminate|discriminate]).
    rewrite Et. unfold apply_regex_pattern, render_body.
    change (String "{" (command +:+ "}"))
      with (String "{" (String "n" (String "." (String "m"
              (("atch(" +:+ (regex +:+ ")")) +:+ "}"))))) at 1.
    rewrite substitute_tokens_call; try reflexivity; [|exact Htail].
    change (String "{" (String "n" (String "." (String "m"
              (("atch(" +:+ (regex +:+ ")")) +:+ "}")))))
      with (String "{" (command +:+ "}")).
    unfold Re.sub.
    rewrite (sub_go_head_miss Re.match_dotted) by reflexivity.
    rewrite (sub_go_no_open _ _ _ match_dotted_brace_led Htail). cbn [bind].
    rewrite (sub_go_head_miss Re.match_colon) by reflexivity.
    rewrite (sub_go_no_open _ _ _ match_colon_brace_led Htail). cbn [bind].
    rewrite sub_go_whole_match by (apply match_call_whole; assumption).
    unfold command. rewrite regex_replacer_match, Hre. reflexivity.
Qed.

Lemma render_total_with_fallback_witness :
  apply_regex_pattern re_stub "clip" ("{n.match(" +:+ "(" +:+ ")}") 42 "1.40s"
  = ("clip" +:+ "_error", [PatternError ReError]).
Proof.
  apply (render_total_with_fallback re_stub "clip" "{n}" 42 "1.40s"); reflexivity.
Defined.

(** Other failures inside the [try] block end the same way: a replace
    directive without a comma raises [IndexError]. *)
Example render_replace_without_comma :
  apply_regex_pattern re_stub "banana" "{n.replace(a)}" 0 "0.00s"
  = ("banana_error", [PatternError IndexError]).
Proof. reflexivity. Qed.

Example render_prefix_directive :
  apply_regex_pattern re_stub "abcdef" "{n:3}" 0 "0.00s" = ("abc", []).
Proof. reflexivity. Qed.

(** ** Plain tokens *)

Lemma no_open_inert (tok u : string) : no_open u -> inert (String "{" tok) u.
Proof.
  unfold no_open, inert. induction u as [|c u IH]; intros H v r; norm_app; [reflexivity|].
  apply contains_char_cons in H as [Hc Hu].
  rewrite replace_go_head_miss; [rewrite (IH Hu); reflexivity|].
  rewrite startswith_cons, (eqb_false_sym _ _ Hc). reflexivity.
Qed.

Lemma replace_go_hit (c : ascii) (tok v r : string) :
  Py.replace_go (String c tok) v O (String c tok +:+ r)
  = v +:+ Py.replace_go (String c tok) v O r.
Proof.
  norm_app.
  change (Py.replace_go (String c tok) v O (String c (tok +:+ r)))
    with (if Py.startswith (String c tok) (String c (tok +:+ r))
          then v +:+ Py.replace_go (String c tok) v (Nat.pred (String.length (String c tok))) (tok +:+ r)
          else String c (Py.replace_go (String c tok) v O (tok +:+ r))).
  rewrite startswith_cons, Ascii.eqb_refl, startswith_app. simpl andb. cbv iota.
  simpl Nat.pred.
  replace (String.length tok) with (String.length tok + 0)%nat by lia.
  rewrite replace_go_skip. reflexivity.
Qed.

(** One replacement over a template whose pieces are either the token
    itself or inert. *)
Lemma replace_flat (c : ascii) (tok v : string) (env env' : piece -> string)
    (ps : list piece) :
  (forall p, In p ps ->
     (env p = String c tok /\ env' p = v) \/
     (env' p = env p /\ inert (String c tok) (env p))) ->
  Py.replace (flat env ps) (String c tok) v = flat env' ps.
Proof.
  unfold Py.replace. induction ps as [|p ps IH]; intros H; [reflexivity|].
  simpl flat.
  assert (IH' : Py.replace_go (String c tok) v O (flat env ps) = flat env' ps).
  { apply IH. intros q Hq. apply H. right. exact Hq. }
  destruct (H p (or_introl eq_refl)) as [[Hp Hp']|[Hp' Hp]].
  - rewrite Hp, Hp', replace_go_hit, IH'. reflexivity.
  - rewrite Hp', Hp, IH'. reflexivity.
Qed.

Lemma no_open_flat (env : piece -> string) (ps : list piece) :
  (forall p, In p ps -> no_open (env p)) -> no_open (flat env ps).
Proof.
  unfold no_open. induction ps as [|p ps IH]; intros H; [reflexivity|].
  simpl flat. rewrite contains_char_app, (H p (or_introl eq_refl)).
  apply IH. intros q Hq. apply H. right. exact Hq.
Qed.

(** Decimal digits hold no brace. *)
Lemma pretty_N_char_no_open (x : N) : Ascii.eqb (pretty_N_char x) "{" = false.
Proof. unfold pretty_N_char. repeat case_match; reflexivity. Qed.

Lemma pretty_N_go_no_open (x : N) (s : string) :
  no_open s -> no_open (pretty_N_go x s).
Proof.
  revert s. induction (N.lt_wf_0 x) as [x _ IH]. intros s Hs.
  destruct (decide (x = 0)%N) as [->|Hx]; [rewrite pretty_N_go_0; exact Hs|].
  rewrite pretty_N_go_step by lia. apply IH.
  - apply N.div_lt; lia.
  - unfold no_open. simpl. rewrite pretty_N_char_no_open. exact Hs.
Qed.

Lemma pretty_N_no_open (x : N) : no_open (pretty x).
Proof.
  unfold pretty, pretty_N. destruct (decide (x = 0)%N); [reflexivity|].
  apply pretty_N_go_no_open. reflexivity.
Qed.

Lemma pretty_Z_no_open (x : Z) : no_open (pretty x).
Proof.
  destruct x as [|p|p]; [reflexivity| |].
  - apply (pretty_N_no_open (Npos p)).
  - unfold pretty, pretty_Z. unfold no_open. rewrite contains_char_app.
    simpl. apply (pretty_N_no_open (Npos p)).
Qed.

Lemma zeros_no_open (k : nat) : no_open (String.concat "" (repeat "0" k)).
Proof.
  induction k as [|k IH]; [reflexivity|].
  simpl repeat. simpl String.concat. destruct (repeat "0" k) eqn:E; [reflexivity|].
  unfold no_open in *. rewrite !contains_char_app. simpl. exact IH.
Qed.

Lemma format_06d_no_open (n : Z) : no_open (Py.format_06d n).
Proof.
  unfold Py.format_06d, Py.zfill, no_open.
  destruct (n <? 0); rewrite !contains_char_app.
  - simpl. rewrite zeros_no_open. apply pretty_Z_no_open.
  - rewrite zeros_no_open. apply pretty_Z_no_open.
Qed.

Lemma literal_ok_no_open (ps : list piece) :
  forallb literal_ok ps = true ->
  forall s, In (Lit s) ps -> no_open s.
Proof.
  intros H s Hs. rewrite forallb_forall in H. specialize (H (Lit s) Hs).
  simpl in H. apply negb_true_iff in H. exact H.
Qed.

Example template_of_pieces :
  flat piece_text [TokN; Lit "_f"; TokF; Lit "_"; TokT] = "{n}_f{f}_{t}".
Proof. reflexivity. Qed.

(** ** Path de-duplication *)

Lemma take_drop (n : nat) (s : string) : Py.take n s +:+ Py.drop n s = s.
Proof.
  revert s. induction n as [|n IH]; intros s; [reflexivity|].
  destruct s as [|c s]; [reflexivity|]. simpl. norm_app. rewrite IH. reflexivity.
Qed.

Lemma splitext_join (p : string) :
  fst (Path.splitext p) +:+ snd (Path.splitext p) = p.
Proof.
  unfold Path.splitext.
  destruct (Path.rfind "/" p <? Path.rfind "." p); [|apply append_nil_r].
  destruct (Py.forallb_str _ _); [apply append_nil_r|].
  simpl. apply take_drop.
Qed.

Lemma append_inv_tail (a b c : string) : a +:+ c = b +:+ c -> a = b.
Proof.
  revert b. induction a as [|x a IH]; intros b H.
  - destruct b as [|y b]; [reflexivity|].
    apply (f_equal String.length) in H. rewrite !length_append in H.
    simpl in H. lia.
  - destruct b as [|y b].
    + apply (f_equal String.length) in H. rewrite !length_append in H.
      simpl in H. lia.
    + rewrite !append_String in H. injection H as -> H.
      f_equal. apply IH. exact H.
Qed.

Lemma numbered_inj (base ext : string) (i j : Z) :
  numbered base ext i = numbered base ext j -> i = j.
Proof.
  unfold numbered. intros H.
  apply String.app_inj in H. apply String.app_inj in H.
  apply append_inv_tail in H. apply (inj pretty) in H. exact H.
Qed.

Lemma numbered_fresh (base ext : string) (j : Z) : numbered base ext j <> base +:+ ext.
Proof.
  unfold numbered. intros H. apply String.app_inj in H.
  apply (f_equal String.length) in H.
  rewrite !length_append in H. simpl in H. lia.
Qed.

(** The loop stops within [size X + 1] tests, where [X] holds the
    existing paths among those still to be tried. *)
Lemma avoid_overwrite_loop_spec (fs : gset string) (base ext : string) :
  forall (fuel : nat) (X : gset string) (path : string) (c : Z),
    (size X < fuel)%nat ->
    (forall j, c <= j -> numbered base ext j <> path) ->
    (forall q, q = path \/ (exists j, c <= j /\ q = numbered base ext j) ->
               (q ∈ fs <-> q ∈ X)) ->
    exists p,
      avoid_overwrite_loop fuel fs base ext path c = Some p /\
      (p ∉ fs) /\
      (p = path \/
       exists j, c <= j /\ p = numbered base ext j /\ path ∈ fs /\
                 forall i, c <= i < j -> numbered base ext i ∈ fs).
Proof.
  induction fuel as [|fuel IH]; intros X path c Hsize Hfresh Hagree; [lia|].
  simpl. destruct (decide (path ∈ fs)) as [Hin|Hout].
  - assert (HinX : path ∈ X) by (apply Hagree; [left; reflexivity|exact Hin]).
    destruct (IH (X ∖ {[path]}) (numbered base ext c) (c + 1)) as (p & Hp & Hfree & Hshape).
    + assert (size (X ∖ {[path]}) = (size X - 1)%nat) as ->.
      { rewrite size_difference by (apply singleton_subseteq_l; exact HinX).
        rewrite size_singleton. reflexivity. }
      assert (size X <> 0%nat).
      { apply size_non_empty_iff. intros HX.
        apply (not_elem_of_empty (C := gset string) path).
        rewrite <- HX. exact HinX. }
      lia.
    + intros j Hj E. apply numbered_inj in E. lia.
    + intros q Hq.
      assert (Hq' : q ∈ fs <-> q ∈ X).
      { apply Hagree. right. destruct Hq as [->|(j & Hj & ->)].
        - exists c. split; [lia|reflexivity].
        - exists j. split; [lia|reflexivity]. }
      assert (Hne : q <> path).
      { destruct Hq as [->|(j & Hj & ->)]; apply Hfresh; lia. }
      rewrite Hq', elem_of_difference, elem_of_singleton. tauto.
    + exists p. split; [exact Hp|]. split; [exact Hfree|]. right.
      destruct Hshape as [->|(j & Hj & -> & Hc & Hbelow)].
      * exists c. split; [lia|]. split; [reflexivity|]. split; [exact Hin|].
        intros i Hi. lia.
      * exists j. split; [lia|]. split; [reflexivity|]. split; [exact Hin|].
        intros i Hi. destruct (decide (i = c)) as [->|Hic]; [exact Hc|].
        apply Hbelow. lia.
  - exists path. split; [reflexivity|]. split; [exact Hout|]. left. reflexivity.
Qed.

Lemma avoid_overwrite_least (fs : gset string) (path : string) :
  exists k : nat,
    avoid_overwrite fs path = Some (candidate path k) /\
    (candidate path k ∉ fs) /\
    forall i : nat, (i < k)%nat -> candidate path i ∈ fs.
Proof.
  unfold avoid_overwrite.
  pose proof (splitext_join path) as Hjoin.
  destruct (Path.splitext path) as [base ext] eqn:E. simpl in Hjoin.
  destruct (avoid_overwrite_loop_spec fs base ext (S (size fs)) fs path 1)
    as (p & Hp & Hfree & Hshape).
  - lia.
  - intros j _. rewrite <- Hjoin. apply numbered_fresh.
  - intros q _. reflexivity.
  - destruct Hshape as [->|(j & Hj & -> & Hin & Hbelow)].
    + exists O. split; [exact Hp|]. split; [exact Hfree|]. intros i Hi. lia.
    + exists (Z.to_nat j).
      assert (Hk : candidate path (Z.to_nat j) = numbered base ext j).
      { unfold candidate. rewrite E. simpl.
        destruct (Z.to_nat j) eqn:Ej; [lia|]. rewrite <- Ej, Z2Nat.id by lia.
        reflexivity. }
      rewrite Hk. split; [exact Hp|]. split; [exact Hfree|].
      intros i Hi. destruct i as [|i]; [exact Hin|].
      unfold candidate. rewrite E. simpl fst. simpl snd.
      apply Hbelow. lia.
Qed.

(** C9: for any finite set of existing paths, [avoid_overwrite] returns a
    path that does not exist: the requested one if it is free, otherwise
    the first free one among [_1], [_2], ... inserted before the extension;
    with [out.jpg] taken the result is [out_1.jpg], and with that taken
    too, [out_2.jpg]. *)
Theorem avoid_overwrite_free (fs : gset string) (path : string) :
  (exists k : nat,
     avoid_overwrite fs path = Some (candidate path k) /\
     (candidate path k ∉ fs) /\
     forall i : nat, (i < k)%nat -> candidate path i ∈ fs) /\
  ("out.jpg" ∈ fs -> "out_1.jpg" ∉ fs ->
   avoid_overwrite fs "out.jpg" = Some "out_1.jpg") /\
  ("out.jpg" ∈ fs -> "out_1.jpg" ∈ fs -> "out_2.jpg" ∉ fs ->
   avoid_overwrite fs "out.jpg" = Some "out_2.jpg").
Proof.
  split; [apply avoid_overwrite_least|].
  destruct (avoid_overwrite_least fs "out.jpg") as (k & Hk & Hfree & Hbelow).
  split.
  - intros H0 H1.
    destruct k as [|[|k]].
    + contradiction.
    + exact Hk.
    + exfalso. apply H1. apply (Hbelow 1%nat). lia.
  - intros H0 H1 H2.
    destruct k as [|[|[|k]]].
    + contradiction.
    + contradiction.
    + exact Hk.
    + exfalso. apply H2. apply (Hbelow 2%nat). lia.
Qed.

Lemma avoid_overwrite_free_witness :
  avoid_overwrite {[ "out.jpg"; "out_1.jpg" ]} "out.jpg" = Some "out_2.jpg".
Proof.
  apply (avoid_overwrite_free {[ "out.jpg"; "out_1.jpg" ]} "out.jpg").
  - apply elem_of_union. left. apply elem_of_singleton. reflexivity.
  - apply elem_of_union. right. apply elem_of_singleton. reflexivity.
  - rewrite elem_of_union, !elem_of_singleton. intros [H|H]; discriminate H.
Defined.

(** * Further properties *)

(** ** [parse_time] on well-formed expressions *)

Lemma parse_time_loop_digits (d : string) :
  Py.forallb_str Py.isdigit d = true ->
  forall parts cv, parse_time_loop d parts cv = Ok (parts, cv +:+ d).
Proof.
  induction d as [|c d IH]; intros H parts cv; simpl in *.
  - rewrite append_nil_r. reflexivity.
  - apply andb_true_iff in H as [Hc Hd]. rewrite Hc, (IH Hd).
    rewrite append_assoc. reflexivity.
Qed.

Lemma str_isdigit_forallb (d : string) :
  Py.str_isdigit d = true -> Py.forallb_str Py.isdigit d = true /\ d <> "".
Proof. destruct d; [discriminate|]. intros H. split; [exact H|discriminate]. Qed.

Lemma parse_time_loop_cons (c : ascii) (rest : string) (parts : parts_t) (cv : string) :
  parse_time_loop (String c rest) parts cv
  = if Py.isdigit c then parse_time_loop rest parts (cv +:+ String c "")
    else if is_unit c then
      do v <- Py.int_of_str cv; parse_time_loop rest (set_unit c v parts) ""
    else parse_time_loop rest parts cv.
Proof. reflexivity. Qed.

Lemma int_of_str_short (d : string) :
  Py.str_isdigit d = true -> short_enough d = true ->
  Py.int_of_str d = Ok (Py.int_digits 0 d).
Proof.
  intros Hd Hs. unfold Py.int_of_str. rewrite Hd.
  unfold short_enough in Hs. apply Z.leb_le in Hs.
  destruct (Z.ltb_spec Py.int_max_str_digits (Z.of_nat (String.length d))); [lia|].
  reflexivity.
Qed.

Lemma int_of_str_long (d : string) :
  short_enough d = false -> Py.int_of_str d = Raise ValueError.
Proof.
  intros Hs. unfold Py.int_of_str. destruct (Py.str_isdigit d); [|reflexivity].
  unfold short_enough in Hs. apply Z.leb_gt in Hs.
  destruct (Z.ltb_spec Py.int_max_str_digits (Z.of_nat (String.length d))); [|lia].
  reflexivity.
Qed.

Lemma parse_time_loop_run (d : string) (u : ascii) (rest : string) (parts : parts_t) :
  Py.forallb_str Py.isdigit d = true -> is_unit u = true ->
  parse_time_loop (d +:+ String u rest) parts ""
  = (do v <- Py.int_of_str d; parse_time_loop rest (set_unit u v parts) "").
Proof.
  intros Hall Hu.
  rewrite parse_time_loop_app, (parse_time_loop_digits d Hall).
  cbn [bind fst snd]. norm_app. rewrite parse_time_loop_cons.
  rewrite (is_unit_not_digit u Hu), Hu. reflexivity.
Qed.

Lemma parse_time_loop_group (d : string) (u : ascii) (rest : string) (parts : parts_t) :
  Py.str_isdigit d = true -> short_enough d = true -> is_unit u = true ->
  parse_time_loop (d +:+ String u rest) parts ""
  = parse_time_loop rest (set_unit u (Py.int_digits 0 d) parts) "".
Proof.
  intros Hd Hs Hu. destruct (str_isdigit_forallb d Hd) as [Hall _].
  rewrite (parse_time_loop_run d u rest parts Hall Hu).
  rewrite (int_of_str_short d Hd Hs). reflexivity.
Qed.

Lemma parse_time_loop_groups (gs : list (string * ascii)) (rest : string) :
  forallb group_ok gs = true ->
  forall parts,
    parse_time_loop (groups_text gs +:+ rest) parts ""
    = parse_time_loop rest (apply_groups gs parts) "".
Proof.
  induction gs as [|[d u] gs IH]; intros H parts; [reflexivity|].
  simpl in H. apply andb_true_iff in H as [Hg Hgs].
  unfold group_ok in Hg. simpl in Hg. apply andb_true_iff in Hg as [Hg Hu].
  apply andb_true_iff in Hg as [Hd Hs].
  simpl groups_text. unfold group_text. simpl fst. simpl snd.
  rewrite !append_assoc. norm_app.
  rewrite (parse_time_loop_group d u _ parts Hd Hs Hu).
  rewrite (IH Hgs). reflexivity.
Qed.

(** X1: on an expression made of groups of digits followed by [h], [m] or
    [s], in any order and number, with or without trailing digits, each
    run of digits within the limit of [int] (4300 digits), [parse_time]
    succeeds: each unit takes the value of its last group, units without a
    group stay [0], and trailing digits replace the seconds.  A run of
    digits over the limit, before a unit letter or at the end, makes
    [parse_time] raise [ValueError]. *)
Theorem parse_time_well_formed (gs : list (string * ascii)) (tail : string) :
  forallb group_ok gs = true ->
  Py.forallb_str Py.isdigit tail = true ->
  (short_enough tail = true ->
   parse_time (groups_text gs +:+ tail)
   = Ok (apply_tail tail (apply_groups gs zero_parts))) /\
  (short_enough tail = false ->
   parse_time (groups_text gs +:+ tail) = Raise ValueError /\
   forall u rest, is_unit u = true ->
     parse_time (groups_text gs +:+ tail +:+ String u rest) = Raise ValueError).
Proof.
  intros Hgs Htail. split.
  - intros Hs. unfold parse_time.
    rewrite (parse_time_loop_groups gs tail Hgs).
    rewrite (parse_time_loop_digits tail Htail). cbn [bind]. norm_app.
    destruct tail as [|c tail]; [reflexivity|]. cbv beta iota.
    rewrite (int_of_str_short (String c tail) Htail Hs). reflexivity.
  - intros Hs. split.
    + unfold parse_time.
      rewrite (parse_time_loop_groups gs tail Hgs).
      rewrite (parse_time_loop_digits tail Htail). cbn [bind]. norm_app.
      destruct tail as [|c tail]; [discriminate Hs|]. cbv beta iota.
      rewrite (int_of_str_long _ Hs). reflexivity.
    + intros u rest Hu. unfold parse_time.
      rewrite (parse_time_loop_groups gs _ Hgs).
      rewrite (parse_time_loop_run tail u rest _ Htail Hu).
      rewrite (int_of_str_long _ Hs). reflexivity.
Qed.

Lemma parse_time_well_formed_witness :
  parse_time (groups_text [("2", "m"%char); ("1", "h"%char); ("5", "m"%char)] +:+ "30")
  = Ok {| hours := 1; minutes := 5; seconds := 30 |}.
Proof.
  apply (parse_time_well_formed [("2", "m"%char); ("1", "h"%char); ("5", "m"%char)] "30");
    reflexivity.
Defined.

(** X2: whatever its input, [parse_time] returns no negative part, and
    the only exception it raises is [ValueError]. *)
Theorem parse_time_parts_not_negative (time_str : string) :
  (forall parts, parse_time time_str = Ok parts ->
     0 <= hours parts /\ 0 <= minutes parts /\ 0 <= seconds parts) /\
  (forall e, parse_time time_str = Raise e -> e = ValueError).
Proof.
  split; [intros parts H; exact (parse_time_nonneg _ _ H)|].
  assert (Hint : forall s e, Py.int_of_str s = Raise e -> e = ValueError).
  { intros s e. unfold Py.int_of_str. destruct (Py.str_isdigit s); [|congruence].
    destruct (Py.int_max_str_digits <? _); congruence. }
  assert (Hloop : forall s parts cv e,
             parse_time_loop s parts cv = Raise e -> e = ValueError).
  { induction s as [|c s IH]; intros parts cv e H; simpl in H; [discriminate|].
    destruct (Py.isdigit c); [eapply IH; exact H|].
    destruct (is_unit c); [|eapply IH; exact H].
    destruct (Py.int_of_str cv) as [v|e'] eqn:E; simpl in H.
    - eapply IH; exact H.
    - injection H as <-. eapply Hint; exact E. }
  intros e. unfold parse_time.
  destruct (parse_time_loop time_str _ _) as [[p cv]|e'] eqn:E; simpl.
  - destruct cv as [|c cv]; [discriminate|].
    destruct (Py.int_of_str (String c cv)) as [v|e''] eqn:Ev; simpl; [discriminate|].
    intros H. injection H as <-. eapply Hint; exact Ev.
  - intros H. injection H as <-. eapply Hloop; exact E.
Qed.

Lemma parse_time_parts_not_negative_witness :
  0 <= hours {| hours := 1; minutes := 30; seconds := 0 |} /\
  0 <= minutes {| hours := 1; minutes := 30; seconds := 0 |} /\
  0 <= seconds {| hours := 1; minutes := 30; seconds := 0 |}.
Proof.
  apply (proj1 (parse_time_parts_not_negative "1h30m")). reflexivity.
Defined.

(** ** Frame resolution *)

(** X3: for [T >= 1] frames no specifier resolves past the last frame,
    whatever the frame rate (negative, infinite or not a number
    included), and whenever the resolver prints a warning it returns
    [0]. *)
Theorem resolver_never_past_last_frame (cap : VideoCapture) (spec : frame_option) :
  1 <= CAP_PROP_FRAME_COUNT cap ->
  fst (calculate_frame_number cap spec) <= CAP_PROP_FRAME_COUNT cap - 1 /\
  (snd (calculate_frame_number cap spec) <> [] ->
   fst (calculate_frame_number cap spec) = 0).
Proof.
  intros HT. unfold calculate_frame_number.
  destruct spec as [n|s]; [simpl; split; [lia|congruence]|].
  destruct (Py.startswith "t+" s); [|simpl; split; [lia|reflexivity]].
  unfold relative_frame.
  destruct (parse_time _) as [parts|e]; simpl; [|split; [lia|reflexivity]].
  destruct (timedelta _ _ _) as [td|e]; simpl; [|split; [lia|reflexivity]].
  destruct (Py.int_of_float _) as [k|e]; simpl; [|split; [lia|reflexivity]].
  split; [lia|congruence].
Qed.

Lemma resolver_never_past_last_frame_witness :
  fst (calculate_frame_number (mk_cap 100 (Py.float_lit (-30))) (FStr "t+1h"))
  <= CAP_PROP_FRAME_COUNT (mk_cap 100 (Py.float_lit (-30))) - 1.
Proof.
  apply (resolver_never_past_last_frame (mk_cap 100 (Py.float_lit (-30))) (FStr "t+1h")).
  simpl. lia.
Defined.

(** X4: a time expression whose parts are all zero (the empty one, [0],
    [0h0m], ...) resolves to frame [0] for [T >= 1] frames, whatever the
    frame rate. *)
Theorem zero_duration_resolves_to_zero (cap : VideoCapture) (time_str : string) :
  1 <= CAP_PROP_FRAME_COUNT cap ->
  parse_time time_str = Ok zero_parts ->
  fst (calculate_frame_number cap (FStr ("t+" +:+ time_str))) = 0.
Proof.
  intros HT Hp. unfold calculate_frame_number. norm_app. simpl.
  unfold relative_frame. rewrite Hp. simpl.
  destruct (CAP_PROP_FPS cap) as [s|s| |s m e]; simpl; try reflexivity; lia.
Qed.

Lemma zero_duration_resolves_to_zero_witness :
  fst (calculate_frame_number (mk_cap 100 (S754_infinity false)) (FStr ("t+" +:+ "0h0m"))) = 0.
Proof.
  apply (zero_duration_resolves_to_zero (mk_cap 100 (S754_infinity false)) "0h0m").
  - simpl. lia.
  - reflexivity.
Defined.

(** X5: resolving an integer specifier is monotone in the integer, and
    resolving the resolved index again changes nothing. *)
Theorem absolute_resolution_monotone_idempotent (cap : VideoCapture) (n m : Z) :
  n <= m ->
  fst (calculate_frame_number cap (FInt n)) <= fst (calculate_frame_number cap (FInt m)) /\
  calculate_frame_number cap (FInt (fst (calculate_frame_number cap (FInt n))))
  = calculate_frame_number cap (FInt n).
Proof.
  intros Hnm. unfold calculate_frame_number. simpl. split; [lia|].
  f_equal. lia.
Qed.

Lemma absolute_resolution_monotone_idempotent_witness :
  fst (calculate_frame_number (mk_cap 10 (Py.float_lit 30)) (FInt (-3)))
  <= fst (calculate_frame_number (mk_cap 10 (Py.float_lit 30)) (FInt 42)) /\
  calculate_frame_number (mk_cap 10 (Py.float_lit 30))
    (FInt (fst (calculate_frame_number (mk_cap 10 (Py.float_lit 30)) (FInt (-3)))))
  = calculate_frame_number (mk_cap 10 (Py.float_lit 30)) (FInt (-3)).
Proof.
  apply (absolute_resolution_monotone_idempotent (mk_cap 10 (Py.float_lit 30)) (-3) 42).
  lia.
Defined.

(** ** One directive inside literal text *)

Lemma forallb_str_excludes (p : ascii -> bool) (c : ascii) (d : string) :
  p c = false -> Py.forallb_str p d = true -> Py.contains_char c d = false.
Proof.
  intros Hc. induction d as [|x d IH]; intros H; [reflexivity|].
  simpl in H. apply andb_true_iff in H as [Hx Hd].
  simpl. rewrite (IH Hd), orb_false_r.
  destruct (Ascii.eqb_spec x c) as [->|_]; [congruence|reflexivity].
Qed.

Lemma contains_char_take (c : ascii) (n : nat) (s : string) :
  Py.contains_char c s = false -> Py.contains_char c (Py.take n s) = false.
Proof.
  revert s. induction n as [|n IH]; intros s H; [destruct s; reflexivity|].
  destruct s as [|x s]; [reflexivity|].
  apply contains_char_cons in H as [Hx Hs].
  simpl. rewrite Hx, (IH s Hs). reflexivity.
Qed.

Lemma replace_in_text (tok v pre tail : string) :
  no_open pre ->
  Py.startswith (String "{" tok) (String "{" tail) = false ->
  no_open tail ->
  Py.replace (pre +:+ String "{" tail) (String "{" tok) v = pre +:+ String "{" tail.
Proof.
  intros Hpre Hmiss Htail. unfold Py.replace.
  rewrite (no_open_inert tok pre Hpre).
  rewrite replace_go_head_miss by exact Hmiss.
  rewrite replace_go_no_open by exact Htail. reflexivity.
Qed.

(** Literal text around a directive on [n] that is none of the plain
    tokens is left alone by the token substitution. *)
Lemma substitute_tokens_directive (original : string) (f : Z) (t : string)
    (pre tail : string) :
  no_open pre -> no_open tail ->
  Py.startswith "{n}" (String "{" tail) = false ->
  Py.startswith "{f}" (String "{" tail) = false ->
  Py.startswith "{t}" (String "{" tail) = false ->
  Py.startswith "{n.base}" (String "{" tail) = false ->
  Py.startswith "{n.digits}" (String "{" tail) = false ->
  Py.startswith "{n.letters}" (String "{" tail) = false ->
  substitute_tokens (replacements original f t) (pre +:+ String "{" tail)
  = pre +:+ String "{" tail.
Proof.
  intros Hpre Htail H1 H2 H3 H4 H5 H6.
  unfold substitute_tokens, replacements. cbn [fold_left fst snd].
  rewrite !replace_in_text; try assumption. reflexivity.
Qed.

Lemma sub_go_prefix (pat : string -> option string) (repl : string -> exc string)
    (pre s : string) :
  brace_led pat -> no_open pre ->
  Re.sub_go pat repl O (pre +:+ s)
  = (do r <- Re.sub_go pat repl O s; Ok (pre +:+ r)).
Proof.
  intros Hpat. unfold no_open. induction pre as [|c pre IH]; intros H; norm_app.
  - destruct (Re.sub_go pat repl 0 s); reflexivity.
  - apply contains_char_cons in H as [Hc Hpre].
    rewrite sub_go_head_miss by (apply Hpat; exact Hc).
    rewrite (IH Hpre). destruct (Re.sub_go pat repl 0 s); reflexivity.
Qed.

Lemma sub_go_match_then (pat : string -> option string) (repl : string -> exc string)
    (command post : string) :
  pat (String "{" (command +:+ String "}" post)) = Some command ->
  Re.sub_go pat repl O (String "{" (command +:+ String "}" post))
  = (do r <- repl command; do rest <- Re.sub_go pat repl O post; Ok (r +:+ rest)).
Proof.
  intros H. simpl. rewrite H.
  destruct (repl command) as [r|e]; simpl; [|reflexivity].
  replace (command +:+ String "}" post) with ((command +:+ "}") +:+ post)
    by (rewrite append_assoc; reflexivity).
  replace (S (String.length command)) with (String.length (command +:+ "}") + 0)%nat
    by (rewrite length_append; simpl; lia).
  rewrite sub_go_skip. reflexivity.
Qed.

(** A pass whose pattern misses at the brace leaves the text alone. *)
Lemma sub_go_text_miss (pat : string -> option string) (repl : string -> exc string)
    (pre tail : string) :
  brace_led pat -> no_open pre -> no_open tail ->
  pat (String "{" tail) = None ->
  Re.sub_go pat repl O (pre +:+ String "{" tail) = Ok (pre +:+ String "{" tail).
Proof.
  intros Hpat Hpre Htail Hmiss.
  rewrite (sub_go_prefix _ _ _ _ Hpat Hpre).
  rewrite sub_go_head_miss by exact Hmiss.
  rewrite (sub_go_no_open _ _ _ Hpat Htail). reflexivity.
Qed.

(** A pass whose pattern matches the directive replaces it in place. *)
Lemma sub_go_text_hit (pat : string -> option string) (repl : string -> exc string)
    (pre command post : string) :
  brace_led pat -> no_open pre -> no_open post ->
  pat (String "{" (command +:+ String "}" post)) = Some command ->
  Re.sub_go pat repl O (pre +:+ String "{" (command +:+ String "}" post))
  = (do r <- repl command; Ok (pre +:+ r +:+ post)).
Proof.
  intros Hpat Hpre Hpost Hhit.
  rewrite (sub_go_prefix _ _ _ _ Hpat Hpre).
  rewrite (sub_go_match_then _ _ _ _ Hhit).
  rewrite (sub_go_no_open _ _ _ Hpat Hpost).
  destruct (repl command); reflexivity.
Qed.

Lemma match_call_at (prefix body post : string) :
  no_close body -> Re.nonempty body = true ->
  Re.match_call prefix (String "{" ((prefix +:+ (body +:+ ")")) +:+ String "}" post))
  = Some (prefix +:+ (body +:+ ")")).
Proof.
  intros Hclose Hne. unfold Re.match_call.
  rewrite append_assoc, startswith_app, drop_app.
  rewrite span_not_close_app.
  - rewrite last_is_app, drop_last_app, Hne. reflexivity.
  - unfold no_close. rewrite contains_char_app, Hclose. reflexivity.
Qed.

Lemma match_colon_prefix_at (digits post : string) :
  no_close digits -> Re.nonempty digits = true ->
  Re.match_colon (String "{" (("n:" +:+ digits) +:+ String "}" post))
  = Some ("n:" +:+ digits).
Proof.
  intros Hclose Hne.
  change (Re.match_colon (String "{" (("n:" +:+ digits) +:+ String "}" post)))
    with (let '(x, r3) := Re.span Re.not_close (digits +:+ String "}" post) in
          if Re.nonempty "n" && Re.nonempty x && Re.starts_with_close r3
          then Some ("n" +:+ ":" +:+ x) else None).
  rewrite (span_not_close_app _ _ Hclose). rewrite Hne. reflexivity.
Qed.

Lemma split_no_sep (c : ascii) (s : string) :
  Py.contains_char c s = false -> Py.split c s = [s].
Proof.
  induction s as [|x s IH]; intros H; [reflexivity|].
  apply contains_char_cons in H as [Hx Hs].
  simpl. rewrite Hx, (IH Hs). reflexivity.
Qed.

Lemma split1_no_sep (c : ascii) (s : string) :
  Py.contains_char c s = false -> Py.split1 c s = [s].
Proof.
  induction s as [|x s IH]; intros H; [reflexivity|].
  apply contains_char_cons in H as [Hx Hs].
  simpl. rewrite Hx, (IH Hs). reflexivity.
Qed.

Lemma regex_replacer_prefix
    (re_search : string -> string -> exc (option string))
    (original digits : string) :
  Py.str_isdigit digits = true ->
  regex_replacer re_search original ("n:" +:+ digits)
  = (do k <- Py.int_of_str digits; Ok (Py.take (Z.to_nat k) original)).
Proof.
  intros Hd. destruct (str_isdigit_forallb digits Hd) as [Hall _].
  assert (Hcolon : Py.contains_char ":" digits = false)
    by (apply (forallb_str_excludes Py.isdigit); [reflexivity|exact Hall]).
  unfold regex_replacer. cbv zeta.
  change (Py.contains_char ":" ("n:" +:+ digits)) with true. cbv iota.
  change (Py.split ":" ("n:" +:+ digits)) with ("n" :: Py.split ":" digits).
  rewrite (split_no_sep _ _ Hcolon). simpl. rewrite Hd. reflexivity.
Qed.

Lemma regex_replacer_replace_no_comma
    (re_search : string -> string -> exc (option string))
    (original body : string) :
  Py.contains_char "," body = false ->
  regex_replacer re_search original ("n.replace(" +:+ (body +:+ ")")) = Raise IndexError.
Proof.
  intros Hcomma. unfold regex_replacer. cbv zeta.
  change ("n.replace(" +:+ (body +:+ ")"))
    with (String "n" (String "." ("replace(" +:+ (body +:+ ")")))).
  rewrite regex_replacer_not_prefix.
  change (String "n" (String "." ("replace(" +:+ (body +:+ ")"))))
    with ("n.replace(" +:+ (body +:+ ")")).
  replace (Py.startswith "n.match(" ("n.replace(" +:+ (body +:+ ")")))
    with false by reflexivity.
  rewrite startswith_app.
  rewrite (drop_app "n.replace("), drop_last_app, (split1_no_sep _ _ Hcomma).
  reflexivity.
Qed.

(** X6: inside literal text without braces, the directive [{n:k}], with
    [k] a run of digits, is replaced by the first [k] characters of the
    basename (itself without opening braces): the whole basename when it
    has at most [k] characters, and nothing is printed.  That is for a [k]
    within the limit of [int] (4300 digits); over it, [int] raises and
    the name is the basename followed by [_error]. *)
Theorem prefix_directive_truncates
    (re_search : string -> string -> exc (option string))
    (original pre digits post : string) (f : Z) (t : string) :
  Py.contains_char "{" pre = false ->
  Py.contains_char "{" post = false ->
  Py.contains_char "{" original = false ->
  Py.str_isdigit digits = true ->
  (short_enough digits = true ->
   apply_regex_pattern re_search original (pre +:+ "{n:" +:+ digits +:+ "}" +:+ post) f t
   = (pre +:+ Py.take (Z.to_nat (Py.int_digits 0 digits)) original +:+ post, [])) /\
  (short_enough digits = false ->
   apply_regex_pattern re_search original (pre +:+ "{n:" +:+ digits +:+ "}" +:+ post) f t
   = (original +:+ "_error", [PatternError ValueError])) /\
  (Z.of_nat (String.length original) <= Py.int_digits 0 digits ->
   Py.take (Z.to_nat (Py.int_digits 0 digits)) original = original).
Proof.
  intros Hpre Hpost Horig Hd.
  destruct (str_isdigit_forallb digits Hd) as [Hall Hne].
  assert (Hdo : no_open digits)
    by (apply (forallb_str_excludes Py.isdigit); [reflexivity|exact Hall]).
  assert (Hdc : no_close digits)
    by (apply (forallb_str_excludes Py.isdigit); [reflexivity|exact Hall]).
  set (command := "n:" +:+ digits).
  assert (Et : pre +:+ "{n:" +:+ digits +:+ "}" +:+ post
               = pre +:+ String "{" (command +:+ String "}" post)).
  { unfold command. rewrite append_assoc. reflexivity. }
  assert (Htail : no_open (command +:+ String "}" post)).
  { unfold no_open, command. rewrite !contains_char_app.
    unfold no_open in Hdo. rewrite Hdo. simpl. exact Hpost. }
  assert (Hpass2 :
            render_body re_search original (pre +:+ String "{" (command +:+ String "}" post)) f t
            = (do p <- (do r <- (do k <- Py.int_of_str digits;
                                 Ok (Py.take (Z.to_nat k) original));
                        Ok (pre +:+ r +:+ post));
               do p <- Re.sub (Re.match_call "n.match(") (regex_replacer re_search original) p;
               do p <- Re.sub (Re.match_call "n.replace(") (regex_replacer re_search original) p;
               Ok p)).
  { unfold render_body.
    rewrite substitute_tokens_directive; try assumption; try reflexivity.
    unfold Re.sub.
    rewrite (sub_go_text_miss Re.match_dotted _ _ _ match_dotted_brace_led Hpre Htail)
      by reflexivity.
    cbn [bind].
    rewrite (sub_go_text_hit Re.match_colon _ _ _ _ match_colon_brace_led Hpre Hpost).
    2:{ apply match_colon_prefix_at; [exact Hdc|]. destruct digits; [contradiction|reflexivity]. }
    unfold command. rewrite (regex_replacer_prefix _ _ _ Hd). reflexivity. }
  split; [|split].
  - intros Hs.
    set (r := Py.take (Z.to_nat (Py.int_digits 0 digits)) original).
    assert (Hr : no_open (pre +:+ r +:+ post)).
    { unfold no_open, r. rewrite !contains_char_app, Hpre, Hpost.
      rewrite (contains_char_take _ _ _ Horig). reflexivity. }
    rewrite Et. unfold apply_regex_pattern. rewrite Hpass2.
    rewrite (int_of_str_short digits Hd Hs). cbn [bind]. fold r.
    unfold Re.sub.
    rewrite (sub_go_no_open _ _ _ (match_call_brace_led _) Hr). cbn [bind].
    rewrite (sub_go_no_open _ _ _ (match_call_brace_led _) Hr). reflexivity.
  - intros Hs. rewrite Et. unfold apply_regex_pattern. rewrite Hpass2.
    rewrite (int_of_str_long digits Hs). reflexivity.
  - intros Hlen.
    assert (Hk : (String.length original <= Z.to_nat (Py.int_digits 0 digits))%nat) by lia.
    revert Hk. generalize (Z.to_nat (Py.int_digits 0 digits)). clear.
    induction original as [|c s IH]; intros n Hn; [destruct n; reflexivity|].
    destruct n as [|n]; [simpl in Hn; lia|].
    simpl. rewrite IH by (simpl in Hn; lia). reflexivity.
Qed.

Lemma prefix_directive_truncates_witness :
  apply_regex_pattern re_stub "abcdef" ("shot_" +:+ "{n:" +:+ "3" +:+ "}" +:+ "_x") 0 "0.00s"
  = ("shot_" +:+ Py.take (Z.to_nat (Py.int_digits 0 "3")) "abcdef" +:+ "_x", []).
Proof.
  apply (prefix_directive_truncates re_stub "abcdef" "shot_" "3" "_x" 0 "0.00s");
    reflexivity.
Defined.

(** X7: inside literal text without braces, the directive
    [{n.match(regex)}] (a non-empty [regex] without braces) is replaced by
    what the search returns on the basename, or by nothing when the search
    finds no match; nothing is printed. *)
Theorem match_directive_expands
    (re_search : string -> string -> exc (option string))
    (original pre regex post : string) (matched : option string) (f : Z) (t : string) :
  Py.contains_char "{" pre = false ->
  Py.contains_char "{" post = false ->
  Re.nonempty regex = true ->
  Py.contains_char "{" regex = false ->
  Py.contains_char "}" regex = false ->
  re_search regex original = Ok matched ->
  Py.contains_char "{" (default "" matched) = false ->
  apply_regex_pattern re_search original (pre +:+ "{n.match(" +:+ regex +:+ ")}" +:+ post) f t
  = (pre +:+ default "" matched +:+ post, []).
Proof.
  intros Hpre Hpost Hne Hro Hrc Hre Hg.
  set (command := "n.match(" +:+ (regex +:+ ")")).
  assert (Et : pre +:+ "{n.match(" +:+ regex +:+ ")}" +:+ post
               = pre +:+ String "{" (command +:+ String "}" post)).
  { unfold command. rewrite !append_assoc. reflexivity. }
  assert (Htail : no_open (command +:+ String "}" post)).
  { unfold no_open, command. rewrite !contains_char_app, Hro. simpl. exact Hpost. }
  assert (Hr : no_open (pre +:+ default "" matched +:+ post)).
  { unfold no_open. rewrite !contains_char_app, Hpre, Hpost, Hg. reflexivity. }
  rewrite Et. unfold apply_regex_pattern, render_body.
  rewrite substitute_tokens_directive; try assumption; try reflexivity.
  unfold Re.sub.
  rewrite (sub_go_text_miss Re.match_dotted _ _ _ match_dotted_brace_led Hpre Htail)
    by reflexivity.
  cbn [bind].
  rewrite (sub_go_text_miss Re.match_colon _ _ _ match_colon_brace_led Hpre Htail)
    by reflexivity.
  cbn [bind].
  rewrite (sub_go_text_hit (Re.match_call "n.match(") _ _ _ _
             (match_call_brace_led _) Hpre Hpost)
    by (apply match_call_at; assumption).
  unfold command. rewrite regex_replacer_match, Hre. cbn [bind].
  replace (match matched with Some g => Ok g | None => Ok "" end)
    with (@Ok string (default "" matched)) by (destruct matched; reflexivity).
  cbn [bind].
  rewrite (sub_go_no_open _ _ _ (match_call_brace_led _) Hr). reflexivity.
Qed.

Lemma match_directive_expands_witness :
  apply_regex_pattern re_literal "clip07" ("x_" +:+ "{n.match(" +:+ "07" +:+ ")}" +:+ "_y") 0 "0.00s"
  = ("x_" +:+ default "" (Some "07") +:+ "_y", []).
Proof.
  apply (match_directive_expands re_literal "clip07" "x_" "07" "_y" (Some "07") 0 "0.00s");
    reflexivity.
Defined.

(** The same directive on a basename in which the pattern does not
    occur: the directive gives the empty string. *)
Example match_directive_without_match :
  apply_regex_pattern re_literal "clip07" "x_{n.match(08)}_y" 0 "0.00s" = ("x__y", []).
Proof. reflexivity. Qed.

(** X8: a replace directive whose argument text has no comma fails the
    whole template: whatever literal text surrounds it, the name is the
    basename followed by [_error] and the [IndexError] is printed. *)
Theorem replace_directive_without_comma
    (re_search : string -> string -> exc (option string))
    (original pre body post : string) (f : Z) (t : string) :
  Py.contains_char "{" pre = false ->
  Py.contains_char "{" post = false ->
  Re.nonempty body = true ->
  Py.contains_char "{" body = false ->
  Py.contains_char "}" body = false ->
  Py.contains_char "," body = false ->
  apply_regex_pattern re_search original (pre +:+ "{n.replace(" +:+ body +:+ ")}" +:+ post) f t
  = (original +:+ "_error", [PatternError IndexError]).
Proof.
  intros Hpre Hpost Hne Hbo Hbc Hcomma.
  set (command := "n.replace(" +:+ (body +:+ ")")).
  assert (Et : pre +:+ "{n.replace(" +:+ body +:+ ")}" +:+ post
               = pre +:+ String "{" (command +:+ String "}" post)).
  { unfold command. rewrite !append_assoc. reflexivity. }
  assert (Htail : no_open (command +:+ String "}" post)).
  { unfold no_open, command. rewrite !contains_char_app, Hbo. simpl. exact Hpost. }
  rewrite Et. unfold apply_regex_pattern, render_body.
  rewrite substitute_tokens_directive; try assumption; try reflexivity.
  unfold Re.sub.
  rewrite (sub_go_text_miss Re.match_dotted _ _ _ match_dotted_brace_led Hpre Htail)
    by reflexivity.
  cbn [bind].
  rewrite (sub_go_text_miss Re.match_colon _ _ _ match_colon_brace_led Hpre Htail)
    by reflexivity.
  cbn [bind].
  rewrite (sub_go_text_miss (Re.match_call "n.match(") _ _ _
             (match_call_brace_led _) Hpre Htail)
    by reflexivity.
  cbn [bind].
  rewrite (sub_go_text_hit (Re.match_call "n.replace(") _ _ _ _
             (match_call_brace_led _) Hpre Hpost)
    by (apply match_call_at; assumption).
  unfold command. rewrite (regex_replacer_replace_no_comma _ _ _ Hcomma).
  reflexivity.
Qed.

Lemma replace_directive_without_comma_witness :
  apply_regex_pattern re_stub "banana" ("x_" +:+ "{n.replace(" +:+ "a" +:+ ")}" +:+ "_y") 0 "0.00s"
  = ("banana" +:+ "_error", [PatternError IndexError]).
Proof.
  apply (replace_directive_without_comma re_stub "banana" "x_" "a" "_y" 0 "0.00s");
    reflexivity.
Defined.

(** ** The first directive pass *)

Lemma span_spec (p : ascii -> bool) (s : string) :
  forall a b, Re.span p s = (a, b) -> s = a +:+ b /\ Py.forallb_str p a = true.
Proof.
  induction s as [|c s IH]; intros a b H; simpl in H.
  - injection H as <- <-. split; reflexivity.
  - destruct (p c) eqn:Hc.
    + destruct (Re.span p s) as [a' b'] eqn:E. injection H as <- <-.
      destruct (IH a' b' eq_refl) as [-> Ha]. split; [reflexivity|].
      simpl. rewrite Hc. exact Ha.
    + injection H as <- <-. split; reflexivity.
Qed.

Lemma startswith_contains (c : ascii) (p s : string) :
  Py.startswith p s = true -> Py.contains_char c p = true -> Py.contains_char c s = true.
Proof.
  revert s. induction p as [|a p IH]; intros s H Hc; [discriminate|].
  destruct s as [|b s]; [discriminate|].
  rewrite startswith_cons in H. apply andb_true_iff in H as [Hab Hps].
  apply Ascii.eqb_eq in Hab. subst b.
  simpl in Hc. simpl. apply orb_true_iff in Hc as [Hc|Hc].
  - rewrite Hc. reflexivity.
  - rewrite (IH s Hps Hc). apply orb_true_r.
Qed.

(** What the first pattern matches: a brace, two runs of word characters
    around a dot, a brace. *)
Lemma match_dotted_inv (s command : string) :
  Re.match_dotted s = Some command ->
  exists rest,
    s = String "{" (command +:+ String "}" rest) /\
    Py.contains_char ":" command = false /\
    Py.contains_char "(" command = false.
Proof.
  destruct s as [|c s1]; [discriminate|].
  destruct (Ascii.eqb c "{") eqn:Ec;
    [|rewrite (match_dotted_brace_led c s1 Ec); discriminate].
  apply Ascii.eqb_eq in Ec. subst c.
  change (Re.match_dotted (String "{" s1))
    with (let '(w1, r1) := Re.span Py.isword s1 in
          match r1 with
          | String "." r2 =>
              let '(w2, r3) := Re.span Py.isword r2 in
              if Re.nonempty w1 && Re.nonempty w2 && Re.starts_with_close r3
              then Some (w1 +:+ "." +:+ w2) else None
          | _ => None
          end).
  destruct (Re.span Py.isword s1) as [w1 r1] eqn:E1.
  destruct (span_spec _ _ _ _ E1) as [-> Hw1].
  destruct r1 as [|c2 r2]; [discriminate|].
  destruct (Ascii.eqb c2 ".") eqn:Ec2.
  - apply Ascii.eqb_eq in Ec2. subst c2.
    destruct (Re.span Py.isword r2) as [w2 r3] eqn:E2.
    destruct (span_spec _ _ _ _ E2) as [-> Hw2].
    destruct (Re.nonempty w1 && Re.nonempty w2 && Re.starts_with_close r3) eqn:Hc;
      [|discriminate].
    intros H. injection H as <-.
    apply andb_true_iff in Hc as [_ Hclose].
    destruct r3 as [|c3 r4]; [discriminate|].
    simpl in Hclose. apply Ascii.eqb_eq in Hclose. subst c3.
    exists r4. split; [rewrite !append_assoc; reflexivity|].
    split; rewrite !contains_char_app;
      rewrite (forallb_str_excludes Py.isword _ w1) by (reflexivity || exact Hw1);
      rewrite (forallb_str_excludes Py.isword _ w2) by (reflexivity || exact Hw2);
      reflexivity.
  - destruct c2 as [[] [] [] [] [] [] [] []]; try discriminate.
Qed.

Lemma regex_replacer_passthrough
    (re_search : string -> string -> exc (option string))
    (original command : string) :
  Py.contains_char ":" command = false ->
  Py.contains_char "(" command = false ->
  regex_replacer re_search original command = Ok ("{" +:+ command +:+ "}").
Proof.
  intros Hcolon Hparen. unfold regex_replacer. cbv zeta. rewrite Hcolon.
  destruct (Py.startswith "n.match(" command) eqn:Em.
  { apply (startswith_contains "(") in Em; [congruence|reflexivity]. }
  destruct (Py.startswith "n.replace(" command) eqn:Er.
  { apply (startswith_contains "(") in Er; [congruence|reflexivity]. }
  reflexivity.
Qed.

Lemma drop_empty (k : nat) : Py.drop k "" = "".
Proof. destruct k; reflexivity. Qed.

(** A pass that puts back what it matched is the identity. *)
Lemma sub_go_identity (pat : string -> option string) (repl : string -> exc string) :
  (forall s command, pat s = Some command ->
     (exists rest, s = String "{" (command +:+ String "}" rest)) /\
     repl command = Ok ("{" +:+ command +:+ "}")) ->
  forall s k, Re.sub_go pat repl k s = Ok (Py.drop k s).
Proof.
  intros Hpat. induction s as [|c s IH]; intros k.
  - rewrite drop_empty. reflexivity.
  - destruct k as [|k]; [|simpl; apply IH].
    simpl Py.drop. simpl Re.sub_go.
    destruct (pat (String c s)) as [command|] eqn:E.
    + destruct (Hpat _ _ E) as [[rest Hs] Hrepl].
      injection Hs as -> ->. rewrite Hrepl. cbn [bind].
      rewrite IH. cbn [bind].
      replace (command +:+ String "}" rest) with ((command +:+ "}") +:+ rest)
        by (rewrite append_assoc; reflexivity).
      replace (S (String.length command)) with (String.length (command +:+ "}"))
        by (rewrite length_append; simpl; lia).
      rewrite drop_app. rewrite !append_assoc. reflexivity.
    + rewrite IH. reflexivity.
Qed.

(** X9: the first directive pass (line 80) changes no text and never
    fails: whatever it matches holds neither a colon nor a parenthesis, so
    [regex_replacer] returns the match itself. *)
Theorem dotted_pass_is_identity
    (re_search : string -> string -> exc (option string))
    (original s : string) :
  Re.sub Re.match_dotted (regex_replacer re_search original) s = Ok s.
Proof.
  unfold Re.sub.
  rewrite (sub_go_identity Re.match_dotted (regex_replacer re_search original)).
  - reflexivity.
  - intros s' command H.
    destruct (match_dotted_inv _ _ H) as (rest & Hs & Hcolon & Hparen).
    split; [exists rest; exact Hs|].
    apply regex_replacer_passthrough; assumption.
Qed.

(** ** All six plain tokens *)

Lemma replace_flat_items (c : ascii) (tok v : string) (env env' : item -> string)
    (xs : list item) :
  (forall x, In x xs ->
     (env x = String c tok /\ env' x = v) \/
     (env' x = env x /\ inert (String c tok) (env x))) ->
  Py.replace (flat_items env xs) (String c tok) v = flat_items env' xs.
Proof.
  unfold Py.replace. induction xs as [|x xs IH]; intros H; [reflexivity|].
  simpl flat_items.
  assert (IH' : Py.replace_go (String c tok) v O (flat_items env xs) = flat_items env' xs).
  { apply IH. intros q Hq. apply H. right. exact Hq. }
  destruct (H x (or_introl eq_refl)) as [[Hx Hx']|[Hx' Hx]].
  - rewrite Hx, Hx', replace_go_hit, IH'. reflexivity.
  - rewrite Hx', Hx, IH'. reflexivity.
Qed.

Lemma no_open_flat_items (env : item -> string) (xs : list item) :
  (forall x, In x xs -> no_open (env x)) -> no_open (flat_items env xs).
Proof.
  unfold no_open. induction xs as [|x xs IH]; intros H; [reflexivity|].
  simpl flat_items. rewrite contains_char_app, (H x (or_introl eq_refl)).
  apply IH. intros q Hq. apply H. right. exact Hq.
Qed.

Lemma filter_str_excludes (p : ascii -> bool) (c : ascii) (s : string) :
  p c = false -> Py.contains_char c (Py.filter_str p s) = false.
Proof.
  intros Hc. induction s as [|x s IH]; [reflexivity|].
  simpl. destruct (p x) eqn:Hx; [|exact IH].
  simpl. rewrite IH, orb_false_r.
  destruct (Ascii.eqb_spec x c) as [->|_]; [congruence|reflexivity].
Qed.

Lemma contains_char_drop (c : ascii) (n : nat) (s : string) :
  Py.contains_char c s = false -> Py.contains_char c (Py.drop n s) = false.
Proof.
  revert s. induction n as [|n IH]; intros s H; [exact H|].
  destruct s as [|x s]; [reflexivity|].
  apply contains_char_cons in H as [_ Hs]. simpl. apply IH. exact Hs.
Qed.

Lemma splitext_base_no_open (p : string) : no_open p -> no_open (fst (Path.splitext p)).
Proof.
  intros H. unfold Path.splitext.
  destruct (Path.rfind "/" p <? Path.rfind "." p); [|exact H].
  destruct (Py.forallb_str _ _); [exact H|].
  simpl. apply contains_char_take. exact H.
Qed.

Lemma token_value_no_open (original : string) (f : Z) (t : string) (k : token) :
  no_open original -> no_open t -> no_open (token_value original f t k).
Proof.
  intros Ho Ht. destruct k; simpl.
  - exact Ho.
  - apply format_06d_no_open.
  - exact Ht.
  - apply splitext_base_no_open. exact Ho.
  - apply filter_str_excludes. reflexivity.
  - apply filter_str_excludes. reflexivity.
Qed.

Lemma text_ok_no_open (xs : list item) :
  forallb text_ok xs = true -> forall s, In (Text s) xs -> no_open s.
Proof.
  intros H s Hs. rewrite forallb_forall in H. specialize (H (Text s) Hs).
  simpl in H. apply negb_true_iff in H. exact H.
Qed.

(** One step of the substitution loop: the token of index [i] is
    replaced, the others and the text are passed over. *)
Lemma substitute_step (original : string) (f : Z) (t : string) (xs : list item)
    (k : token) (tok : string) :
  no_open original -> no_open t -> forallb text_ok xs = true ->
  token_text k = String "{" tok ->
  Py.replace (flat_items (item_upto original f t (token_index k)) xs)
    (String "{" tok) (token_value original f t k)
  = flat_items (item_upto original f t (S (token_index k))) xs.
Proof.
  intros Ho Ht Hxs Htok.
  pose proof (text_ok_no_open xs Hxs) as Hlit.
  apply replace_flat_items. intros [s|k'] Hx.
  - right. split; [reflexivity|]. apply no_open_inert, Hlit, Hx.
  - destruct (Nat.eq_dec (token_index k') (token_index k)) as [E|E].
    + left. assert (k' = k) as -> by (destruct k', k; simpl in E; congruence).
      assert (H1 : (token_index k <? token_index k)%nat = false)
        by apply Nat.ltb_irrefl.
      assert (H2 : (token_index k <? S (token_index k))%nat = true)
        by (apply Nat.ltb_lt; lia).
      unfold item_upto. rewrite H1, H2. split; [exact Htok|reflexivity].
    + right. destruct (token_index k' <? token_index k)%nat eqn:Hlt.
      * assert (H2 : (token_index k' <? S (token_index k))%nat = true)
          by (apply Nat.ltb_lt; apply Nat.ltb_lt in Hlt; lia).
        unfold item_upto. rewrite Hlt, H2. split; [reflexivity|].
        apply no_open_inert, token_value_no_open; assumption.
      * assert (H2 : (token_index k' <? S (token_index k))%nat = false)
          by (apply Nat.ltb_ge; apply Nat.ltb_ge in Hlt; lia).
        unfold item_upto. rewrite Hlt, H2. split; [reflexivity|].
        destruct k', k; simpl in E; try congruence;
          simpl in Htok; injection Htok as <-; intros v r; reflexivity.
Qed.

Lemma substitute_tokens_items (original : string) (f : Z) (t : string) (xs : list item) :
  no_open original -> no_open t -> forallb text_ok xs = true ->
  substitute_tokens (replacements original f t) (flat_items item_text xs)
  = flat_items (item_value original f t) xs.
Proof.
  intros Ho Ht Hxs.
  assert (E0 : flat_items item_text xs = flat_items (item_upto original f t 0) xs).
  { clear. induction xs as [|[s|k] xs IH]; simpl; rewrite ?IH; reflexivity. }
  assert (E6 : flat_items (item_upto original f t 6) xs
               = flat_items (item_value original f t) xs).
  { clear. induction xs as [|[s|k] xs IH]; simpl; rewrite ?IH; try reflexivity.
    destruct k; reflexivity. }
  rewrite E0, <- E6.
  unfold substitute_tokens, replacements. cbn [fold_left fst snd].
  pose proof (substitute_step original f t xs Tn "n}" Ho Ht Hxs eq_refl) as STn;
    cbn [token_index token_value] in STn; rewrite STn; clear STn.
  pose proof (substitute_step original f t xs Tf "f}" Ho Ht Hxs eq_refl) as STf;
    cbn [token_index token_value] in STf; rewrite STf; clear STf.
  pose proof (substitute_step original f t xs Tt "t}" Ho Ht Hxs eq_refl) as STt;
    cbn [token_index token_value] in STt; rewrite STt; clear STt.
  pose proof (substitute_step original f t xs Tbase "n.base}" Ho Ht Hxs eq_refl) as STbase;
    cbn [token_index token_value] in STbase; rewrite STbase; clear STbase.
  pose proof (substitute_step original f t xs Tdigits "n.digits}" Ho Ht Hxs eq_refl) as STdigits;
    cbn [token_index token_value] in STdigits; rewrite STdigits; clear STdigits.
  pose proof (substitute_step original f t xs Tletters "n.letters}" Ho Ht Hxs eq_refl) as STletters;
    cbn [token_index token_value] in STletters; rewrite STletters; clear STletters.
  reflexivity.
Qed.

Lemma render_items
    (re_search : string -> string -> exc (option string))
    (original : string) (f : Z) (t : string) (xs : list item) :
  no_open original -> no_open t -> forallb text_ok xs = true ->
  apply_regex_pattern re_search original (flat_items item_text xs) f t
  = (flat_items (item_value original f t) xs, []).
Proof.
  intros Ho Ht Hxs.
  assert (H3 : no_open (flat_items (item_value original f t) xs)).
  { apply no_open_flat_items. intros [s|k] Hx; simpl.
    - exact (text_ok_no_open xs Hxs s Hx).
    - apply token_value_no_open; assumption. }
  unfold apply_regex_pattern, render_body.
  rewrite (substitute_tokens_items original f t xs Ho Ht Hxs).
  unfold Re.sub.
  rewrite (sub_go_no_open _ _ _ match_dotted_brace_led H3). cbn [bind].
  rewrite (sub_go_no_open _ _ _ match_colon_brace_led H3). cbn [bind].
  rewrite (sub_go_no_open _ _ _ (match_call_brace_led _) H3). cbn [bind].
  rewrite (sub_go_no_open _ _ _ (match_call_brace_led _) H3). reflexivity.
Qed.

(** X10: in a template made of literal text and any of the six plain
    tokens (text, basename and time label without opening braces),
    [{n.base}] becomes the basename without its extension, [{n.digits}] the
    digits of the basename in order and [{n.letters}] its letters in
    order, next to [{n}], [{f}] and [{t}]; the values hold no opening
    brace and nothing is printed. *)
Theorem all_plain_tokens_expand
    (re_search : string -> string -> exc (option string))
    (original : string) (f : Z) (t : string) (xs : list item) :
  Py.contains_char "{" original = false ->
  Py.contains_char "{" t = false ->
  forallb text_ok xs = true ->
  apply_regex_pattern re_search original (flat_items item_text xs) f t
  = (flat_items (item_value original f t) xs, []) /\
  Py.forallb_str Py.isdigit (token_value original f t Tdigits) = true /\
  Py.forallb_str Py.isalpha (token_value original f t Tletters) = true.
Proof.
  intros Ho Ht Hxs. split; [apply render_items; assumption|].
  assert (Hfilter : forall p s, Py.forallb_str p (Py.filter_str p s) = true).
  { intros p s. induction s as [|c s IH]; [reflexivity|].
    simpl. destruct (p c) eqn:E; [simpl; rewrite E; exact IH|exact IH]. }
  split; apply Hfilter.
Qed.

Lemma all_plain_tokens_expand_witness :
  apply_regex_pattern re_stub "take2.final"
    (flat_items item_text [Tok Tbase; Text "-"; Tok Tdigits; Text "-"; Tok Tletters]) 7 "0.23s"
  = ("take2-2-takefinal", []).
Proof.
  apply (all_plain_tokens_expand re_stub "take2.final" 7 "0.23s"
           [Tok Tbase; Text "-"; Tok Tdigits; Text "-"; Tok Tletters]); reflexivity.
Defined.

(** ** Free paths *)

(** X11: a path that does not exist is returned as it is, and only such
    a path is; what [avoid_overwrite] returns is returned again when asked
    for. *)
Theorem avoid_overwrite_keeps_free_path (fs : gset string) (path : string) :
  (avoid_overwrite fs path = Some path <-> path ∉ fs) /\
  (forall q, avoid_overwrite fs path = Some q -> avoid_overwrite fs q = Some q).
Proof.
  assert (Hfree : forall p, p ∉ fs -> avoid_overwrite fs p = Some p).
  { intros p Hp. unfold avoid_overwrite. destruct (Path.splitext p) as [base ext].
    simpl. destruct (decide (p ∈ fs)); [contradiction|reflexivity]. }
  assert (Hout : forall p q, avoid_overwrite fs p = Some q -> q ∉ fs).
  { intros p q Hq. destruct (avoid_overwrite_least fs p) as (k & Hk & Hnot & _).
    rewrite Hk in Hq. injection Hq as <-. exact Hnot. }
  split; [split|].
  - intros H. exact (Hout _ _ H).
  - apply Hfree.
  - intros q Hq. apply Hfree. exact (Hout _ _ Hq).
Qed.

Lemma avoid_overwrite_keeps_free_path_witness :
  avoid_overwrite {[ "out.jpg" ]} "out_1.jpg" = Some "out_1.jpg".
Proof.
  apply (proj2 (proj1 (avoid_overwrite_keeps_free_path {[ "out.jpg" ]} "out_1.jpg"))).
  intros H. apply elem_of_singleton in H. discriminate H.
Defined.

(** ** One file *)

Lemma calculate_frame_number_log (cap : VideoCapture) (frame_option : frame_option)
    (q : string) :
  ~ In (Saved q) (snd (calculate_frame_number cap frame_option)).
Proof.
  unfold calculate_frame_number. destruct frame_option as [n|s]; [intros []|].
  destruct (Py.startswith "t+" s).
  - destruct (relative_frame _ _ _); simpl; [intros []|].
    intros [H|[]]. discriminate H.
  - simpl. intros [H|[]]. discriminate H.
Qed.

Lemma apply_regex_pattern_log (re_search : string -> string -> exc (option string))
    (original pattern : string) (f : Z) (t q : string) :
  ~ In (Saved q) (snd (apply_regex_pattern re_search original pattern f t)).
Proof.
  unfold apply_regex_pattern. destruct (render_body _ _ _ _ _); simpl; [intros []|].
  intros [H|[]]. discriminate H.
Qed.

(** X12: [extract_frame] always finishes; when it hands a frame to
    [cv2.imwrite], the capture was opened, the frame is the one read at
    the resolved index and the path did not exist when the function was
    called; if [cv2.imwrite] returns, whatever it returns, that path is
    the one reported as saved; if it raises, the exception is what is
    printed last and no success line is printed; without a call to
    [cv2.imwrite] no success line is printed either; a capture that did
    not open gives one message and no file. *)
Theorem extract_frame_never_overwrites
    (re_search : string -> string -> exc (option string))
    (imwrite : string -> frame -> exc bool)
    (fs : gset string) (cap : VideoCapture) (video_path : string)
    (frame_option : frame_option) (output_format output_dir : string)
    (name_pattern : option string) (keep_original_name : bool) :
  exists o,
    extract_frame re_search imwrite fs cap video_path frame_option output_format
      output_dir name_pattern keep_original_name = Some o /\
    (forall p fr, written o = Some (p, fr) ->
       (p ∉ fs) /\ isOpened cap = true /\
       read_at cap (fst (calculate_frame_number cap frame_option)) = Some fr /\
       (forall b, imwrite p fr = Ok b -> last (printed o) = Some (Saved p)) /\
       (forall e, imwrite p fr = Raise e ->
          last (printed o) = Some (ErrorOccurred e) /\
          forall q, ~ In (Saved q) (printed o))) /\
    (written o = None -> forall q, ~ In (Saved q) (printed o)) /\
    (isOpened cap = false ->
     o = {| printed := [CannotOpen video_path]; written := None |}).
Proof.
  unfold extract_frame.
  destruct (isOpened cap) eqn:Hopen; cbn [negb].
  2:{ eexists. split; [reflexivity|]. split; [intros p fr H; discriminate H|].
      split; [|reflexivity]. intros _ q [H|[]]. discriminate H. }
  pose proof (calculate_frame_number_log cap frame_option) as Hlog1.
  destruct (calculate_frame_number cap frame_option) as [fn log1]. cbn [fst snd] in *.
  assert (Hlog2 : forall q, ~ In (Saved q)
            (snd (if Py.fle0 (CAP_PROP_FPS cap)
                  then (Py.float_lit 30, [FpsDefaulted]) else (CAP_PROP_FPS cap, [])))).
  { intros q. destruct (Py.fle0 (CAP_PROP_FPS cap)); simpl; [|tauto].
    intros [H|[]]. discriminate H. }
  destruct (if Py.fle0 (CAP_PROP_FPS cap) then _ else _) as [fps log2]. cbn [snd] in Hlog2.
  destruct (read_at cap fn) as [fr|] eqn:Hread.
  2:{ eexists. split; [reflexivity|]. split; [intros p fr H; discriminate H|].
      split; [|discriminate]. intros _ q Hin. cbn [printed] in Hin.
      apply in_app_or in Hin as [Hin|Hin]; [exact (Hlog1 q Hin)|].
      apply in_app_or in Hin as [Hin|[Hin|[]]]; [exact (Hlog2 q Hin)|discriminate Hin]. }
  destruct (do x <- Py.float_of_int fn; _) as [tp|e].
  2:{ eexists. split; [reflexivity|]. split; [intros p fr' H; discriminate H|].
      split; [|discriminate]. intros _ q Hin. cbn [printed] in Hin.
      apply in_app_or in Hin as [Hin|Hin]; [exact (Hlog1 q Hin)|].
      apply in_app_or in Hin as [Hin|[Hin|[]]]; [exact (Hlog2 q Hin)|discriminate Hin]. }
  assert (Hlog3 : forall q, ~ In (Saved q)
            (snd (if keep_original_name
                  then (fst (Path.splitext (Path.basename video_path)), [])
                  else match name_pattern with
                       | Some (String c p) =>
                           apply_regex_pattern re_search
                             (fst (Path.splitext (Path.basename video_path)))
                             (String c p) fn tp
                       | _ =>
                           (fst (Path.splitext (Path.basename video_path)) +:+ "_f"
                              +:+ Py.format_06d fn +:+ "_" +:+ tp, [])
                       end))).
  { intros q. destruct keep_original_name; [simpl; tauto|].
    destruct name_pattern as [[|c p]|]; [simpl; tauto|apply apply_regex_pattern_log|
                                         simpl; tauto]. }
  destruct (if keep_original_name then _ else _) as [filename log3]. cbn [snd] in Hlog3.
  destruct (avoid_overwrite_least fs
              (Path.join output_dir (filename +:+ "." +:+ output_format)))
    as (k & Hk & Hfree & _).
  rewrite Hk.
  destruct (imwrite _ fr) as [b|e] eqn:Hw; eexists; (split; [reflexivity|]);
    (split; [|split; [discriminate|discriminate]]);
    intros p fr' H; cbn [written] in H; injection H as <- <-;
    (split; [exact Hfree|]); (split; [reflexivity|]); (split; [reflexivity|]);
    rewrite Hw; cbn [printed].
  - split; [|discriminate]. intros _ _. rewrite !app_assoc. apply last_snoc.
  - split; [discriminate|]. intros e' He. injection He as <-.
    split; [rewrite !app_assoc; apply last_snoc|].
    intros q Hin.
    apply in_app_or in Hin as [Hin|Hin]; [exact (Hlog1 q Hin)|].
    apply in_app_or in Hin as [Hin|Hin]; [exact (Hlog2 q Hin)|].
    apply in_app_or in Hin as [Hin|[Hin|[]]]; [exact (Hlog3 q Hin)|discriminate Hin].
Qed.

Lemma format_2f_no_open (x : Py.float) : no_open (Py.format_2f x).
Proof.
  assert (Hfixed : forall s n, no_open (Py.fixed2 s n)).
  { intros s n. unfold Py.fixed2, Py.two_digits, no_open.
    rewrite !contains_char_app.
    rewrite (pretty_Z_no_open (n / 100)).
    destruct (n mod 100 <? 10); rewrite ?contains_char_app;
      rewrite (pretty_Z_no_open (n mod 100)); destruct s; reflexivity. }
  destruct x as [s|s| |s m e]; simpl.
  - apply Hfixed.
  - destruct s; reflexivity.
  - reflexivity.
  - apply Hfixed.
Qed.

Lemma default_template_renders
    (re_search : string -> string -> exc (option string))
    (original : string) (f : Z) (t : string) :
  no_open original -> no_open t ->
  apply_regex_pattern re_search original "{n}_f{f}_{t}" f t
  = (original +:+ "_f" +:+ Py.format_06d f +:+ "_" +:+ t, []).
Proof.
  intros Ho Ht.
  pose proof (render_items re_search original f t
                [Tok Tn; Text "_f"; Tok Tf; Text "_"; Tok Tt] Ho Ht eq_refl) as H.
  cbn [flat_items item_text token_text item_value token_value] in H.
  rewrite !append_nil_r in H. exact H.
Qed.

(** X13: for a video path without opening braces, the template
    [{n}_f{f}_{t}] names the file exactly as the default naming does:
    [extract_frame] prints and writes the same with either. *)
Theorem default_name_is_a_template
    (re_search : string -> string -> exc (option string))
    (imwrite : string -> frame -> exc bool)
    (fs : gset string) (cap : VideoCapture) (video_path : string)
    (frame_option : frame_option) (output_format output_dir : string)
    (keep_original_name : bool) :
  Py.contains_char "{" video_path = false ->
  extract_frame re_search imwrite fs cap video_path frame_option output_format output_dir
    (Some "{n}_f{f}_{t}") keep_original_name
  = extract_frame re_search imwrite fs cap video_path frame_option output_format output_dir
      None keep_original_name.
Proof.
  intros Hpath.
  assert (Ho : no_open (fst (Path.splitext (Path.basename video_path)))).
  { apply splitext_base_no_open. unfold Path.basename.
    apply contains_char_drop. exact Hpath. }
  unfold extract_frame.
  destruct (negb (isOpened cap)); [reflexivity|].
  destruct (calculate_frame_number cap frame_option) as [fn log1].
  destruct (if Py.fle0 (CAP_PROP_FPS cap) then _ else _) as [fps log2].
  destruct (read_at cap fn) as [fr|]; [|reflexivity].
  destruct (Py.float_of_int fn) as [x|e]; [|reflexivity]. cbn [bind].
  destruct (Py.ftruediv x fps) as [q|e]; [|reflexivity]. cbn [bind].
  destruct keep_original_name; [reflexivity|].
  rewrite default_template_renders; [reflexivity|exact Ho|].
  unfold no_open. rewrite contains_char_app.
  rewrite (format_2f_no_open q). reflexivity.
Qed.

Lemma default_name_is_a_template_witness :
  extract_frame re_stub imwrite_ok ∅ (mk_cap 1000 (Py.float_lit 30)) "vids/clip.mp4" (FInt 42)
    "jpg" "./thumbnails" (Some "{n}_f{f}_{t}") false
  = extract_frame re_stub imwrite_ok ∅ (mk_cap 1000 (Py.float_lit 30)) "vids/clip.mp4" (FInt 42)
      "jpg" "./thumbnails" None false.
Proof.
  apply (default_name_is_a_template re_stub imwrite_ok ∅ (mk_cap 1000 (Py.float_lit 30))
           "vids/clip.mp4" (FInt 42) "jpg" "./thumbnails" false).
  reflexivity.
Defined.

(** ** The frame token read back *)

Lemma int_digits_app (a b : string) (acc : Z) :
  Py.int_digits acc (a +:+ b) = Py.int_digits (Py.int_digits acc a) b.
Proof.
  revert acc. induction a as [|c a IH]; intros acc; norm_app; [reflexivity|].
  simpl. apply IH.
Qed.

Lemma forallb_str_app (p : ascii -> bool) (a b : string) :
  Py.forallb_str p (a +:+ b) = Py.forallb_str p a && Py.forallb_str p b.
Proof.
  induction a as [|c a IH]; norm_app; [reflexivity|].
  simpl. rewrite IH. apply andb_assoc.
Qed.

Lemma pretty_N_char_digit (m : N) :
  (m < 10)%N ->
  Py.isdigit (pretty_N_char m) = true /\ Py.digit_value (pretty_N_char m) = Z.of_N m.
Proof.
  intros Hm.
  assert (Hcases : m = 0%N \/ m = 1%N \/ m = 2%N \/ m = 3%N \/ m = 4%N \/ m = 5%N \/
                   m = 6%N \/ m = 7%N \/ m = 8%N \/ m = 9%N) by lia.
  destruct Hcases as [->|[->|[->|[->|[->|[->|[->|[->|[->| ->]]]]]]]]];
    split; reflexivity.
Qed.

(** The digits that [pretty] puts before [s] are those of [x]. *)
Lemma pretty_N_go_digits (x : N) :
  forall s, exists d,
    pretty_N_go x s = d +:+ s /\
    Py.forallb_str Py.isdigit d = true /\
    Py.int_digits 0 d = Z.of_N x.
Proof.
  induction (N.lt_wf_0 x) as [x _ IH]. intros s.
  destruct (decide (x = 0)%N) as [->|Hx].
  - exists "". rewrite pretty_N_go_0. repeat split.
  - rewrite pretty_N_go_step by lia.
    destruct (IH (x `div` 10)%N) with (s := String (pretty_N_char (x `mod` 10)) s)
      as (d & Hd & Hall & Hval).
    { apply N.div_lt; lia. }
    destruct (pretty_N_char_digit (x `mod` 10)%N) as [Hc Hv].
    { apply N.mod_lt. lia. }
    exists (d +:+ String (pretty_N_char (x `mod` 10)) "").
    rewrite Hd, append_assoc. split; [reflexivity|]. split.
    + rewrite forallb_str_app, Hall. simpl. rewrite Hc. reflexivity.
    + rewrite int_digits_app, Hval. simpl. rewrite Hv.
      pose proof (N.div_mod x 10). lia.
Qed.

Lemma pretty_nonneg_digits (n : Z) :
  0 <= n ->
  Py.str_isdigit (pretty n) = true /\ Py.int_digits 0 (pretty n) = n.
Proof.
  intros Hn. destruct n as [|p|p]; [split; reflexivity| |lia].
  change (pretty (Z.pos p)) with (pretty_N_go (N.pos p) "").
  destruct (pretty_N_go_digits (N.pos p) "") as (d & -> & Hall & Hval).
  rewrite append_nil_r. split; [|exact Hval].
  destruct d as [|c d]; [simpl in Hval; lia|exact Hall].
Qed.

Lemma concat_zero_cons (l : list string) :
  String.concat "" ("0" :: l) = "0" +:+ String.concat "" l.
Proof. destruct l; reflexivity. Qed.

Lemma zeros_digits (k : nat) :
  Py.forallb_str Py.isdigit (String.concat "" (repeat "0" k)) = true /\
  Py.int_digits 0 (String.concat "" (repeat "0" k)) = 0 /\
  String.length (String.concat "" (repeat "0" k)) = k.
Proof.
  induction k as [|k (Hall & Hval & Hlen)]; [repeat split|].
  change (repeat "0" (S k)) with ("0" :: repeat "0" k).
  rewrite concat_zero_cons, forallb_str_app, int_digits_app, length_append.
  rewrite Hall, Hlen. change (Py.int_digits 0 "0") with 0. rewrite Hval.
  repeat split.
Qed.

(** X14: the frame token reads back: for a frame index [n >= 0] the
    text that [{f}] expands to is all digits, so given as the [-n] argument
    it selects frame [n] again; the token has at least six characters. *)
Theorem frame_token_reads_back (n : Z) :
  0 <= n ->
  frame_arg (Py.format_06d n) = FInt n /\
  (6 <= String.length (Py.format_06d n))%nat.
Proof.
  intros Hn. destruct (pretty_nonneg_digits n Hn) as [Hd Hv].
  destruct (str_isdigit_forallb _ Hd) as [Hall Hne].
  unfold Py.format_06d. destruct (Z.ltb_spec n 0) as [Hneg|_]; [lia|].
  unfold Py.zfill.
  destruct (zeros_digits (6 - String.length (pretty n))) as (Zall & Zval & Zlen).
  split.
  - unfold frame_arg.
    assert (His : Py.str_isdigit
                    (String.concat "" (repeat "0" (6 - String.length (pretty n)))
                     +:+ pretty n) = true).
    { unfold Py.str_isdigit.
      destruct (String.concat "" (repeat "0" (6 - String.length (pretty n)))
                +:+ pretty n) eqn:E.
      - apply (f_equal String.length) in E. rewrite length_append in E.
        destruct (pretty n); [contradiction|simpl in E; lia].
      - rewrite <- E, forallb_str_app, Zall, Hall. reflexivity. }
    rewrite His, int_digits_app, Zval, Hv. reflexivity.
  - rewrite length_append, Zlen. lia.
Qed.

Lemma frame_token_reads_back_witness :
  frame_arg (Py.format_06d 42) = FInt 42 /\ (6 <= String.length (Py.format_06d 42))%nat.
Proof. apply (frame_token_reads_back 42). lia. Defined.

(** ** Plain tokens and the order of the substitutions *)

Lemma pretty_N_go_length (x : N) :
  forall (k : nat) (s : string), (x < 10 ^ N.of_nat k)%N ->
    (String.length (pretty_N_go x s) <= k + String.length s)%nat.
Proof.
  induction (N.lt_wf_0 x) as [x _ IH]. intros k s Hx.
  destruct (decide (x = 0)%N) as [->|Hne]; [rewrite pretty_N_go_0; lia|].
  rewrite pretty_N_go_step by lia.
  destruct k as [|k].
  { change (10 ^ N.of_nat 0)%N with 1%N in Hx. lia. }
  rewrite Nat2N.inj_succ, N.pow_succ_r' in Hx.
  assert (Hdiv : (x `div` 10 < 10 ^ N.of_nat k)%N)
    by (apply N.Div0.div_lt_upper_bound; exact Hx).
  assert (Hlt : (x `div` 10 < x)%N) by (apply N.div_lt; lia).
  pose proof (IH _ Hlt k (String (pretty_N_char (x `mod` 10)) s) Hdiv) as H.
  simpl String.length in H. lia.
Qed.

(** A number below [10 ^ k] is written with at most [k] digits. *)
Lemma pretty_length (n : Z) (k : nat) :
  (1 <= k)%nat -> 0 <= n < 10 ^ Z.of_nat k -> (String.length (pretty n) <= k)%nat.
Proof.
  intros Hk [Hn Hlt]. destruct n as [|p|p]; [exact Hk| |lia].
  change (pretty (Z.pos p)) with (pretty_N_go (N.pos p) "").
  assert (Hx : (N.pos p < 10 ^ N.of_nat k)%N).
  { apply N2Z.inj_lt. rewrite N2Z.inj_pow, nat_N_Z. exact Hlt. }
  pose proof (pretty_N_go_length (N.pos p) k "" Hx) as H. simpl String.length in H. lia.
Qed.

(** The text of [{f}] for an index that is not negative: digits only,
    with the value of the index, padded to six characters. *)
Lemma format_06d_digits (n : Z) :
  0 <= n ->
  Py.str_isdigit (Py.format_06d n) = true /\
  Py.int_digits 0 (Py.format_06d n) = n /\
  String.length (Py.format_06d n)
  = (6 - String.length (pretty n) + String.length (pretty n))%nat.
Proof.
  intros Hn. destruct (pretty_nonneg_digits n Hn) as [Hd Hv].
  destruct (str_isdigit_forallb _ Hd) as [Hall Hne].
  unfold Py.format_06d. destruct (Z.ltb_spec n 0) as [Hneg|_]; [lia|].
  unfold Py.zfill.
  destruct (zeros_digits (6 - String.length (pretty n))) as (Zall & Zval & Zlen).
  split; [|split].
  - unfold Py.str_isdigit.
    destruct (String.concat "" (repeat "0" (6 - String.length (pretty n)))
              +:+ pretty n) eqn:E.
    + apply (f_equal String.length) in E. rewrite length_append in E.
      destruct (pretty n); [contradiction|simpl in E; lia].
    + rewrite <- E, forallb_str_app, Zall, Hall. reflexivity.
  - rewrite int_digits_app, Zval, Hv. reflexivity.
  - rewrite length_append, Zlen. reflexivity.
Qed.

(** The token substitution on the nested template [{n:{f}}]: only [{f}]
    is there to expand. *)
Lemma substitute_tokens_nested (original : string) (f : Z) (t : string) :
  substitute_tokens (replacements original f t) "{n:{f}}"
  = "" +:+ String "{" (("n:" +:+ Py.format_06d f) +:+ String "}" "").
Proof.
  set (tail := ("n:" +:+ Py.format_06d f) +:+ String "}" "").
  assert (Htail : no_open tail).
  { unfold tail, no_open. rewrite !contains_char_app.
    rewrite (format_06d_no_open f). reflexivity. }
  assert (E : forall tok v,
             Py.startswith (String "{" tok) (String "{" tail) = false ->
             Py.replace (String "{" tail) (String "{" tok) v = String "{" tail).
  { intros tok v Hmiss. exact (replace_in_text tok v "" tail eq_refl Hmiss Htail). }
  unfold substitute_tokens, replacements. cbn [fold_left fst snd].
  change (Py.replace "{n:{f}}" "{n}" original) with "{n:{f}}".
  change (Py.replace "{n:{f}}" "{f}" (Py.format_06d f)) with (String "{" tail).
  rewrite !E by reflexivity. reflexivity.
Qed.

(** The four passes on a template that, once the tokens are expanded,
    is one prefix directive inside literal text. *)
Lemma render_body_prefix_directive
    (re_search : string -> string -> exc (option string))
    (original pattern pre digits post : string) (f : Z) (t : string) :
  substitute_tokens (replacements original f t) pattern
  = pre +:+ String "{" (("n:" +:+ digits) +:+ String "}" post) ->
  no_open pre -> no_open post -> no_open original ->
  Py.str_isdigit digits = true -> short_enough digits = true ->
  render_body re_search original pattern f t
  = Ok (pre +:+ Py.take (Z.to_nat (Py.int_digits 0 digits)) original +:+ post).
Proof.
  intros Hsub Hpre Hpost Horig Hd Hs.
  destruct (str_isdigit_forallb digits Hd) as [Hall Hne].
  assert (Hdo : no_open digits)
    by (apply (forallb_str_excludes Py.isdigit); [reflexivity|exact Hall]).
  assert (Hdc : no_close digits)
    by (apply (forallb_str_excludes Py.isdigit); [reflexivity|exact Hall]).
  assert (Htail : no_open (("n:" +:+ digits) +:+ String "}" post)).
  { unfold no_open. rewrite !contains_char_app.
    unfold no_open in Hdo. rewrite Hdo. simpl. exact Hpost. }
  set (r := Py.take (Z.to_nat (Py.int_digits 0 digits)) original).
  assert (Hr : no_open (pre +:+ r +:+ post)).
  { unfold no_open, r. rewrite !contains_char_app, Hpre, Hpost.
    rewrite (contains_char_take _ _ _ Horig). reflexivity. }
  unfold render_body. rewrite Hsub. unfold Re.sub.
  rewrite (sub_go_text_miss Re.match_dotted _ _ _ match_dotted_brace_led Hpre Htail)
    by reflexivity.
  cbn [bind].
  rewrite (sub_go_text_hit Re.match_colon _ _ _ _ match_colon_brace_led Hpre Hpost).
  2:{ apply match_colon_prefix_at; [exact Hdc|]. destruct digits; [contradiction|reflexivity]. }
  rewrite (regex_replacer_prefix _ _ _ Hd), (int_of_str_short digits Hd Hs).
  cbn [bind]. fold r.
  rewrite (sub_go_no_open _ _ _ (match_call_brace_led _) Hr). cbn [bind].
  rewrite (sub_go_no_open _ _ _ (match_call_brace_led _) Hr). reflexivity.
Qed.

(** C8, as stated, fails: the tokens are replaced one after another, each
    over the whole text, so a [{t}] that the basename brings in under
    [{n}] is expanded in its turn, and the name rendered for the template
    [{n}] is not the basename. *)
Lemma token_in_basename_is_expanded :
  apply_regex_pattern re_stub "a{t}" "{n}" 42 "1.40s" = ("a1.40s", []) /\
  fst (apply_regex_pattern re_stub "a{t}" "{n}" 42 "1.40s") <> "a{t}".
Proof. split; [reflexivity|]. intros H. discriminate H. Qed.

(** C8, amended: for a basename and a time label free of opening braces,
    in a template made of brace-free literal text and the tokens [{n}],
    [{f}] and [{t}], each [{n}] becomes the basename, each [{f}] the frame
    index and each [{t}] the time label.  The text of [{f}] for an index
    [f >= 0] is made of digits only, reads back as [f], and has at least
    six characters: exactly six below a million.  The tokens are expanded
    before the directives are looked for: in [{n:{f}}] the directive sees
    the digits of the index, not the token, and a directive brought in by
    the basename is processed. *)
Theorem plain_tokens_expand
    (re_search : string -> string -> exc (option string))
    (original : string) (f : Z) (t : string) (ps : list piece) :
  Py.contains_char "{" original = false ->
  Py.contains_char "{" t = false ->
  forallb literal_ok ps = true ->
  apply_regex_pattern re_search original (flat piece_text ps) f t
  = (flat (piece_value original f t) ps, []) /\
  (0 <= f ->
   Py.str_isdigit (Py.format_06d f) = true /\
   Py.int_digits 0 (Py.format_06d f) = f /\
   (6 <= String.length (Py.format_06d f))%nat /\
   (f < 1000000 -> String.length (Py.format_06d f) = 6%nat)) /\
  Py.format_06d 42 = "000042" /\
  (0 <= f < 10 ^ Py.int_max_str_digits ->
   apply_regex_pattern re_search original "{n:{f}}" f t
   = (Py.take (Z.to_nat f) original, [])) /\
  apply_regex_pattern re_search "ab{n:1}" "{n}" f t = ("aba", []).
Proof.
  intros Ho Ht Hps. split; [|split; [|split; [reflexivity|split; [|reflexivity]]]].
  - pose proof (literal_ok_no_open ps Hps) as Hlit.
    pose proof (format_06d_no_open f) as Hf.
    set (env1 := fun p => match p with TokN => original | _ => piece_text p end).
    set (env2 := fun p => match p with TokF => Py.format_06d f | _ => env1 p end).
    assert (H3 : no_open (flat (piece_value original f t) ps)).
    { apply no_open_flat. intros [s| | |] Hp; simpl;
        [apply Hlit; exact Hp|exact Ho|exact Hf|exact Ht]. }
    unfold apply_regex_pattern, render_body, substitute_tokens, replacements.
    cbn [fold_left fst snd].
    rewrite (replace_flat "{" "n}" original piece_text env1).
    2:{ intros [s| | |] Hp; simpl.
        - right. split; [reflexivity|]. apply no_open_inert, Hlit, Hp.
        - left. split; reflexivity.
        - right. split; [reflexivity|]. intros v r. reflexivity.
        - right. split; [reflexivity|]. intros v r. reflexivity. }
    rewrite (replace_flat "{" "f}" (Py.format_06d f) env1 env2).
    2:{ intros [s| | |] Hp; simpl.
        - right. split; [reflexivity|]. apply no_open_inert, Hlit, Hp.
        - right. split; [reflexivity|]. apply no_open_inert, Ho.
        - left. split; reflexivity.
        - right. split; [reflexivity|]. intros v r. reflexivity. }
    rewrite (replace_flat "{" "t}" t env2 (piece_value original f t)).
    2:{ intros [s| | |] Hp; simpl.
        - right. split; [reflexivity|]. apply no_open_inert, Hlit, Hp.
        - right. split; [reflexivity|]. apply no_open_inert, Ho.
        - right. split; [reflexivity|]. apply no_open_inert, Hf.
        - left. split; reflexivity. }
    unfold Py.replace. rewrite !(replace_go_no_open _ _ _ H3).
    unfold Re.sub.
    rewrite (sub_go_no_open _ _ _ match_dotted_brace_led H3). cbn [bind].
    rewrite (sub_go_no_open _ _ _ match_colon_brace_led H3). cbn [bind].
    rewrite (sub_go_no_open _ _ _ (match_call_brace_led _) H3). cbn [bind].
    rewrite (sub_go_no_open _ _ _ (match_call_brace_led _) H3). cbn [bind].
    reflexivity.
  - intros Hf. destruct (format_06d_digits f Hf) as (Hd & Hv & Hlen).
    split; [exact Hd|]. split; [exact Hv|]. split; [lia|].
    intros Hlt.
    assert (Hp : (String.length (pretty f) <= 6)%nat).
    { apply pretty_length; [lia|]. split; [exact Hf|exact Hlt]. }
    lia.
  - intros [Hf Hlt]. destruct (format_06d_digits f Hf) as (Hd & Hv & Hlen).
    assert (Hp : (String.length (pretty f) <= 4300)%nat).
    { apply pretty_length; [lia|]. split; [exact Hf|].
      replace (Z.of_nat 4300) with Py.int_max_str_digits by reflexivity. exact Hlt. }
    assert (Hs : short_enough (Py.format_06d f) = true).
    { unfold short_enough. apply Z.leb_le. rewrite Hlen.
      unfold Py.int_max_str_digits. lia. }
    unfold apply_regex_pattern.
    rewrite (render_body_prefix_directive re_search original "{n:{f}}" ""
               (Py.format_06d f) "" f t (substitute_tokens_nested original f t)
               eq_refl eq_refl Ho Hd Hs).
    rewrite Hv, append_nil_r. reflexivity.
Qed.

Lemma plain_tokens_expand_witness :
  apply_regex_pattern re_stub "clip" (flat piece_text [TokN; Lit "_f"; TokF; Lit "_"; TokT])
    42 "1.40s"
  = ("clip_f000042_1.40s", []).
Proof.
  apply (plain_tokens_expand re_stub "clip" 42 "1.40s" [TokN; Lit "_f"; TokF; Lit "_"; TokT]);
    reflexivity.
Defined.

(** ** The batch *)

Lemma lower_app (a b : string) : Py.lower (a +:+ b) = Py.lower a +:+ Py.lower b.
Proof.
  induction a as [|c a IH]; norm_app; [reflexivity|].
  simpl. norm_app. rewrite IH. reflexivity.
Qed.

Lemma string_eqb_refl (s : string) : String.eqb s s = true.
Proof. apply String.eqb_eq. reflexivity. Qed.

Lemma endswith_unfold (suffix s : string) :
  Py.endswith suffix s
  = String.eqb s suffix ||
    match s with
    | EmptyString => false
    | String _ s' => Py.endswith suffix s'
    end.
Proof. destruct s; reflexivity. Qed.

Lemma endswith_app (a suffix : string) : Py.endswith suffix (a +:+ suffix) = true.
Proof.
  induction a as [|c a IH]; norm_app.
  - rewrite endswith_unfold, string_eqb_refl. reflexivity.
  - rewrite endswith_unfold, IH. apply orb_true_r.
Qed.

Lemma endswith_inv (suffix s : string) :
  Py.endswith suffix s = true -> exists a, s = a +:+ suffix.
Proof.
  induction s as [|c s IH]; intros H; rewrite endswith_unfold in H.
  - rewrite orb_false_r in H. apply String.eqb_eq in H. subst suffix.
    exists "". reflexivity.
  - apply orb_true_iff in H as [H|H].
    + apply String.eqb_eq in H. subst suffix. exists "". reflexivity.
    + destruct (IH H) as [a ->]. exists (String c a). reflexivity.
Qed.

(** X15: a directory entry is taken as a video exactly when its name,
    in lower case, ends in one of the six extensions, so the case of the
    name does not matter; an input that is not a directory is processed
    whatever its name, and from a directory only the entries taken as
    videos are, each joined to the directory, in listing order; a
    directory that cannot be listed gives the exception of
    [os.listdir]. *)
Theorem video_files_selected
    (isdir : string -> bool) (listdir : string -> exc (list string))
    (input_path : string) :
  (forall stem ext, In (Py.lower ext) video_extensions -> is_video (stem +:+ ext) = true) /\
  (forall f, is_video f = true ->
     exists stem ext, Py.lower f = stem +:+ ext /\ In ext video_extensions) /\
  (isdir input_path = false -> select_files isdir listdir input_path = Ok [input_path]) /\
  (isdir input_path = true ->
   select_files isdir listdir input_path
   = (do names <- listdir input_path;
      Ok (map (Path.join input_path) (List.filter is_video names)))).
Proof.
  split; [|split; [|split]].
  - intros stem ext Hin. unfold is_video. apply existsb_exists.
    exists (Py.lower ext). split; [exact Hin|].
    rewrite lower_app. apply endswith_app.
  - intros f H. unfold is_video in H. apply existsb_exists in H as (ext & Hin & Hend).
    destruct (endswith_inv _ _ Hend) as [stem Hs].
    exists stem, ext. split; assumption.
  - intros H. unfold select_files. rewrite H. reflexivity.
  - intros H. unfold select_files. rewrite H.
    destruct (listdir input_path) as [names|e]; [|reflexivity]. cbn [bind].
    f_equal. f_equal.
    induction names as [|f l IH]; [reflexivity|].
    simpl. rewrite filter_cons. rewrite IH.
    destruct (is_video f) eqn:E.
    + destruct (decide (true = true)); [reflexivity|contradiction].
    + destruct (decide (false = true)); [discriminate|reflexivity].
Qed.

Lemma video_files_selected_witness :
  is_video ("Holiday 2019" +:+ ".MP4") = true.
Proof.
  apply (video_files_selected (fun _ => false) (fun _ => Ok []) "clip.mp4").
  simpl. auto.
Defined.

Section BatchProperties.

Variable re_search : string -> string -> exc (option string).
Variable VideoCapture_open : string -> VideoCapture.
Variable imwrite : string -> frame -> exc bool.

Lemma extract_frame_never_overwrites_aux (fs : gset string) (cap : VideoCapture)
    (video_path : string) (frame_option : frame_option)
    (output_format output_dir : string) (name_pattern : option string)
    (keep_original_name : bool) :
  exists o,
    extract_frame re_search imwrite fs cap video_path frame_option output_format
      output_dir name_pattern keep_original_name = Some o /\
    forall p fr, written o = Some (p, fr) -> p ∉ fs.
Proof.
  unfold extract_frame.
  destruct (negb (isOpened cap)).
  { eexists. split; [reflexivity|]. intros p fr H. discriminate H. }
  destruct (calculate_frame_number cap frame_option) as [fn log1].
  destruct (if Py.fle0 (CAP_PROP_FPS cap) then _ else _) as [fps log2].
  destruct (read_at cap fn) as [fr|].
  2:{ eexists. split; [reflexivity|]. intros p fr H. discriminate H. }
  destruct (do x <- Py.float_of_int fn; _) as [tp|e].
  2:{ eexists. split; [reflexivity|]. intros p fr' H. discriminate H. }
  destruct (if keep_original_name then _ else _) as [filename log3].
  destruct (avoid_overwrite_least fs
              (Path.join output_dir (filename +:+ "." +:+ output_format)))
    as (k & Hk & Hfree & _).
  rewrite Hk.
  destruct (imwrite _ fr); eexists; (split; [reflexivity|]);
    intros p fr' H; simpl in H; injection H as <- _; exact Hfree.
Qed.

Lemma after_write_grows (fs : gset string) (o : outcome) :
  fs ⊆ after_write imwrite fs o.
Proof.
  unfold after_write. destruct (written o) as [[p fr]|]; [|reflexivity].
  destruct (imwrite p fr) as [[|]|e]; [|reflexivity|reflexivity].
  apply union_subseteq_r.
Qed.

(** The paths that exist after a run of outcomes: those that existed
    before, and those that [cv2.imwrite] created. *)
Lemma fold_after_write_elem (os : list outcome) :
  forall (fs : gset string) (p : string),
    p ∈ fold_left (after_write imwrite) os fs <->
    p ∈ fs \/ exists o fr, In o os /\ written o = Some (p, fr) /\ imwrite p fr = Ok true.
Proof.
  induction os as [|o os IH]; intros fs p; simpl.
  - split; [auto|]. intros [H|(o & fr & [] & _)]. exact H.
  - rewrite IH. split.
    + intros [H|(o' & fr & Hin & Hw & Hok)].
      * unfold after_write in H. destruct (written o) as [[q fr]|] eqn:Hw; [|auto].
        destruct (imwrite q fr) as [[|]|e] eqn:Hok; [|auto|auto].
        apply elem_of_union in H as [H|H]; [|auto].
        apply elem_of_singleton in H. subst q. right. exists o, fr. auto.
      * right. exists o', fr. auto.
    + intros [H|(o' & fr & [<-|Hin] & Hw & Hok)].
      * left. apply after_write_grows. exact H.
      * left. unfold after_write. rewrite Hw, Hok.
        apply elem_of_union_l, elem_of_singleton. reflexivity.
      * right. exists o', fr. auto.
Qed.

Lemma written_paths_cons (o : outcome) (os : list outcome) :
  written_paths (o :: os)
  = match written o with
    | Some (p, _) => p :: written_paths os
    | None => written_paths os
    end.
Proof.
  unfold written_paths. simpl. destruct (written o) as [[p fr]|]; reflexivity.
Qed.

(** The loop processes every file, in order, each on the paths that exist
    once the files before it are done; it hands [cv2.imwrite] only paths
    that exist neither before the loop nor, once created, later in it. *)
Lemma process_files_spec (frame_option : frame_option)
    (output_format output_dir : string) (name_pattern : option string)
    (keep_original_name : bool) (files : list string) :
  forall fs, exists os fs',
    process_files re_search VideoCapture_open imwrite files fs frame_option
      output_format output_dir name_pattern keep_original_name = Some (os, fs') /\
    length os = length files /\
    (forall (i : nat) video_path, nth_error files i = Some video_path ->
       exists o, nth_error os i = Some o /\
         extract_frame re_search imwrite
           (fold_left (after_write imwrite) (firstn i os) fs)
           (VideoCapture_open video_path) video_path frame_option output_format
           output_dir name_pattern keep_original_name = Some o) /\
    fs' = fold_left (after_write imwrite) os fs /\
    fs ⊆ fs' /\
    (forall p, In p (written_paths os) -> p ∉ fs) /\
    ((forall p fr, imwrite p fr = Ok true) ->
     NoDup (written_paths os) /\ forall p, In p (written_paths os) -> p ∈ fs').
Proof.
  induction files as [|video_path rest IH]; intros fs.
  - exists [], fs. simpl. split; [reflexivity|]. split; [reflexivity|].
    split; [intros [|i] v H; discriminate H|].
    split; [reflexivity|].
    split; [reflexivity|]. split; [intros p []|].
    intros _. split; [constructor|intros p []].
  - destruct (extract_frame_never_overwrites_aux fs (VideoCapture_open video_path)
                video_path frame_option output_format output_dir name_pattern
                keep_original_name) as (o & Ho & Hfresh).
    destruct (IH (after_write imwrite fs o))
      as (os & fs' & Hos & Hlen & Hnth & Hfold & Hsub & Hnew & Hdup).
    exists (o :: os), fs'. cbn [process_files]. rewrite Ho, Hos.
    pose proof (after_write_grows fs o) as Hgrow.
    split; [reflexivity|]. split; [simpl; lia|].
    split.
    { intros [|i] v Hv.
      - injection Hv as <-. exists o. split; [reflexivity|exact Ho].
      - destruct (Hnth i v Hv) as (o' & Ho' & He). exists o'.
        split; [exact Ho'|exact He]. }
    split; [exact Hfold|].
    split; [etrans; eassumption|].
    rewrite written_paths_cons.
    split.
    + intros p Hp. destruct (written o) as [[q fr]|] eqn:Hw.
      * destruct Hp as [<-|Hp]; [exact (Hfresh _ _ eq_refl)|].
        intros Hin. apply (Hnew p Hp). apply Hgrow. exact Hin.
      * intros Hin. apply (Hnew p Hp). apply Hgrow. exact Hin.
    + intros Hall. destruct (Hdup Hall) as [Hnd Hin'].
      destruct (written o) as [[q fr]|] eqn:Hw; [|split; assumption].
      assert (Hq : q ∈ after_write imwrite fs o).
      { unfold after_write. rewrite Hw, Hall. apply elem_of_union_l, elem_of_singleton.
        reflexivity. }
      split.
      * constructor; [|exact Hnd]. intros Hq'.
        apply list_elem_of_In in Hq'. exact (Hnew q Hq' Hq).
      * intros p [<-|Hp]; [apply Hsub; exact Hq|apply Hin'; exact Hp].
Qed.

End BatchProperties.

(** X16: [process_videos] raises only what [os.listdir] or [os.makedirs]
    raises, and then before any file is processed.  Otherwise the batch
    finishes with one outcome per selected file, in order: the outcome at
    each position is what [extract_frame] gives for the file at that
    position on the paths that exist once the files before it are done,
    so a file that cannot be opened, read or written does not stop the
    others; the paths that exist at the end are those that the output
    directory left and those that [cv2.imwrite] created; and no path
    handed to [cv2.imwrite] existed when the output directory had been
    made. *)
Theorem batch_never_overwrites
    (re_search : string -> string -> exc (option string))
    (isdir : string -> bool) (listdir : string -> exc (list string))
    (makedirs : string -> gset string -> exc (gset string))
    (VideoCapture_open : string -> VideoCapture)
    (imwrite : string -> frame -> exc bool)
    (fs : gset string) (input_path : string) (frame_option : frame_option)
    (output_format output_dir : string) (name_pattern : option string)
    (keep_original_name : bool) :
  match process_videos re_search isdir listdir makedirs VideoCapture_open imwrite fs
          input_path frame_option output_format output_dir name_pattern
          keep_original_name with
  | Raise e =>
      (isdir input_path = true /\ listdir input_path = Raise e) \/
      (exists files, select_files isdir listdir input_path = Ok files /\
                     makedirs output_dir fs = Raise e)
  | Ok r =>
      exists files fs1 os fs',
        select_files isdir listdir input_path = Ok files /\
        makedirs output_dir fs = Ok fs1 /\
        r = Some (os, fs') /\
        length os = length files /\
        (forall (i : nat) video_path, nth_error files i = Some video_path ->
           exists o, nth_error os i = Some o /\
             extract_frame re_search imwrite
               (fold_left (after_write imwrite) (firstn i os) fs1)
               (VideoCapture_open video_path) video_path frame_option output_format
               output_dir name_pattern keep_original_name = Some o) /\
        fs' = fold_left (after_write imwrite) os fs1 /\
        (forall p, p ∈ fs' <->
           p ∈ fs1 \/
           exists o fr, In o os /\ written o = Some (p, fr) /\ imwrite p fr = Ok true) /\
        fs1 ⊆ fs' /\
        forall p, In p (written_paths os) -> p ∉ fs1
  end.
Proof.
  unfold process_videos, select_files.
  destruct (isdir input_path) eqn:Hdir.
  - destruct (listdir input_path) as [names|e] eqn:Hls; cbn [bind];
      [|left; split; reflexivity].
    destruct (makedirs output_dir fs) as [fs1|e] eqn:Hmk; cbn [bind];
      [|right; eexists; split; reflexivity].
    destruct (process_files_spec re_search VideoCapture_open imwrite frame_option
                output_format output_dir name_pattern keep_original_name
                (map (Path.join input_path) (filter (fun f => is_video f = true) names)) fs1)
      as (os & fs' & H & Hlen & Hnth & Hfold & Hsub & Hnew & _).
    eexists _, fs1, os, fs'. split; [reflexivity|]. split; [reflexivity|].
    split; [exact H|]. split; [exact Hlen|]. split; [exact Hnth|].
    split; [exact Hfold|].
    split; [intros p; rewrite Hfold; apply fold_after_write_elem|].
    split; [exact Hsub|exact Hnew].
  - cbn [bind].
    destruct (makedirs output_dir fs) as [fs1|e] eqn:Hmk; cbn [bind];
      [|right; eexists; split; reflexivity].
    destruct (process_files_spec re_search VideoCapture_open imwrite frame_option
                output_format output_dir name_pattern keep_original_name
                [input_path] fs1)
      as (os & fs' & H & Hlen & Hnth & Hfold & Hsub & Hnew & _).
    eexists _, fs1, os, fs'. split; [reflexivity|]. split; [reflexivity|].
    split; [exact H|]. split; [exact Hlen|]. split; [exact Hnth|].
    split; [exact Hfold|].
    split; [intros p; rewrite Hfold; apply fold_after_write_elem|].
    split; [exact Hsub|exact Hnew].
Qed.

(** X17: when [cv2.imwrite] creates every file it is given, the paths
    written in one batch are pairwise distinct and all exist at the end:
    two videos that lead to the same name get different files.  The batch
    does not run only if [os.listdir] or [os.makedirs] raises. *)
Theorem batch_paths_distinct
    (re_search : string -> string -> exc (option string))
    (isdir : string -> bool) (listdir : string -> exc (list string))
    (makedirs : string -> gset string -> exc (gset string))
    (VideoCapture_open : string -> VideoCapture)
    (imwrite : string -> frame -> exc bool)
    (fs : gset string) (input_path : string) (frame_option : frame_option)
    (output_format output_dir : string) (name_pattern : option string)
    (keep_original_name : bool) :
  (forall p fr, imwrite p fr = Ok true) ->
  match process_videos re_search isdir listdir makedirs VideoCapture_open imwrite fs
          input_path frame_option output_format output_dir name_pattern
          keep_original_name with
  | Ok r =>
      exists os fs',
        r = Some (os, fs') /\
        NoDup (written_paths os) /\
        forall p, In p (written_paths os) -> p ∈ fs'
  | Raise e =>
      (isdir input_path = true /\ listdir input_path = Raise e) \/
      (exists files, select_files isdir listdir input_path = Ok files /\
                     makedirs output_dir fs = Raise e)
  end.
Proof.
  intros Hall. unfold process_videos, select_files.
  destruct (isdir input_path) eqn:Hdir.
  - destruct (listdir input_path) as [names|e] eqn:Hls; cbn [bind];
      [|left; split; reflexivity].
    destruct (makedirs output_dir fs) as [fs1|e] eqn:Hmk; cbn [bind];
      [|right; eexists; split; reflexivity].
    destruct (process_files_spec re_search VideoCapture_open imwrite frame_option
                output_format output_dir name_pattern keep_original_name
                (map (Path.join input_path) (filter (fun f => is_video f = true) names)) fs1)
      as (os & fs' & H & _ & _ & _ & _ & _ & Hdup).
    destruct (Hdup Hall) as [Hnd Hin].
    exists os, fs'. repeat split; assumption.
  - cbn [bind].
    destruct (makedirs output_dir fs) as [fs1|e] eqn:Hmk; cbn [bind];
      [|right; eexists; split; reflexivity].
    destruct (process_files_spec re_search VideoCapture_open imwrite frame_option
                output_format output_dir name_pattern keep_original_name
                [input_path] fs1)
      as (os & fs' & H & _ & _ & _ & _ & _ & Hdup).
    destruct (Hdup Hall) as [Hnd Hin].
    exists os, fs'. repeat split; assumption.
Qed.

Lemma batch_paths_distinct_witness :
  exists os fs',
    process_videos re_stub (fun _ => true) listdir_three makedirs_add
      (fun _ => mk_cap 100 (Py.float_lit 30)) imwrite_ok ∅ "in"
      (FInt 5) "jpg" "out" None true
    = Ok (Some (os, fs')) /\
    NoDup (written_paths os) /\
    forall p, In p (written_paths os) -> p ∈ fs'.
Proof.
  pose proof (batch_paths_distinct re_stub (fun _ => true) listdir_three makedirs_add
                (fun _ => mk_cap 100 (Py.float_lit 30)) imwrite_ok ∅ "in"
                (FInt 5) "jpg" "out" None true (fun p fr => eq_refl)) as H.
  destruct (process_videos _ _ _ _ _ _ _ _ _ _ _ _ _) as [r|e] eqn:E.
  - destruct H as (os & fs' & -> & Hnd & Hin). exists os, fs'.
    split; [reflexivity|]. split; assumption.
  - vm_compute in E. discriminate E.
Defined.

(** Two videos with the same base name, kept under their original name:
    the text file is left out and the second image gets a suffix. *)
Example batch_same_base_name :
  match process_videos re_stub (fun _ => true) listdir_three makedirs_add
          (fun _ => mk_cap 100 (Py.float_lit 30)) imwrite_ok ∅ "in"
          (FInt 5) "jpg" "out" None true with
  | Ok (Some r) => Some (written_paths (fst r))
  | _ => None
  end
  = Some ["out/a.jpg"; "out/a_1.jpg"].
Proof. vm_compute. reflexivity. Qed.

(** A directory that cannot be listed: the exception of [os.listdir]
    leaves [process_videos], and no file is processed. *)
Example batch_unreadable_directory :
  process_videos re_stub (fun _ => true) (fun _ => Raise OSError) makedirs_add
    (fun _ => mk_cap 100 (Py.float_lit 30)) imwrite_ok ∅ "in"
    (FInt 5) "jpg" "out" None true
  = Raise OSError.
Proof. reflexivity. Qed.

(** An image writer that raises: the error is printed in place of the
    success line, and the next file is processed all the same. *)
Example batch_writer_raises :
  match process_videos re_stub (fun _ => true) listdir_three makedirs_add
          (fun _ => mk_cap 100 (Py.float_lit 30)) (fun _ _ => Raise Cv2Error) ∅ "in"
          (FInt 5) "jpg" "out" None true with
  | Ok (Some r) => Some (map printed (fst r))
  | _ => None
  end
  = Some [[ErrorOccurred Cv2Error]; [ErrorOccurred Cv2Error]].
Proof. vm_compute. reflexivity. Qed.

(** ** Templates used verbatim *)

Lemma has_sub_cons (sub : string) (c : ascii) (s : string) :
  has_sub sub (String c s) = false ->
  Py.startswith sub (String c s) = false /\ has_sub sub s = false.
Proof.
  intros H. change (has_sub sub (String c s))
    with (Py.startswith sub (String c s) || has_sub sub s) in H.
  apply orb_false_iff in H. exact H.
Qed.

Lemma startswith_app_l (p r s : string) :
  Py.startswith (p +:+ r) s = true -> Py.startswith p s = true.
Proof.
  revert s. induction p as [|a p IH]; intros s H; [destruct s; reflexivity|].
  rewrite append_String in H. destruct s as [|b s]; [discriminate|].
  rewrite startswith_cons in *. apply andb_true_iff in H as [Hab H].
  rewrite Hab, (IH s H). reflexivity.
Qed.

Lemma has_sub_longer (p r s : string) :
  has_sub p s = false -> has_sub (p +:+ r) s = false.
Proof.
  induction s as [|c s IH]; intros H.
  - simpl in *. rewrite orb_false_r in *.
    destruct (Py.startswith (p +:+ r) "") eqn:E; [|reflexivity].
    apply startswith_app_l in E. congruence.
  - apply has_sub_cons in H as [Hh Hs].
    change (has_sub (p +:+ r) (String c s))
      with (Py.startswith (p +:+ r) (String c s) || has_sub (p +:+ r) s).
    rewrite (IH Hs), orb_false_r.
    destruct (Py.startswith (p +:+ r) (String c s)) eqn:E; [|reflexivity].
    apply startswith_app_l in E. congruence.
Qed.

Lemma replace_absent (tok v s : string) :
  tok <> "" -> has_sub tok s = false -> Py.replace s tok v = s.
Proof.
  intros Hne. unfold Py.replace. destruct tok as [|a tok]; [contradiction|].
  induction s as [|c s IH]; intros H; [reflexivity|].
  apply has_sub_cons in H as [Hh Hs].
  rewrite replace_go_head_miss by exact Hh. rewrite (IH Hs). reflexivity.
Qed.

(** A pass is the identity on a text all of whose matches are put back;
    [P] holds of the text and of what follows each of its characters. *)
Lemma sub_go_identity_on (P : string -> Prop) (pat : string -> option string)
    (repl : string -> exc string) :
  (forall c s, P (String c s) -> P s) ->
  (forall s command, P s -> pat s = Some command ->
     (exists rest, s = String "{" (command +:+ String "}" rest)) /\
     repl command = Ok ("{" +:+ command +:+ "}")) ->
  forall s k, P s -> Re.sub_go pat repl k s = Ok (Py.drop k s).
Proof.
  intros Htail Hpat. induction s as [|c s IH]; intros k HP.
  - rewrite drop_empty. reflexivity.
  - pose proof (Htail c s HP) as HPs.
    destruct k as [|k]; [|simpl; apply IH; exact HPs].
    simpl Py.drop. simpl Re.sub_go.
    destruct (pat (String c s)) as [command|] eqn:E.
    + destruct (Hpat _ _ HP E) as [[rest Hs] Hrepl].
      injection Hs as -> ->. rewrite Hrepl. cbn [bind].
      rewrite IH by exact HPs. cbn [bind].
      replace (command +:+ String "}" rest) with ((command +:+ "}") +:+ rest)
        by (rewrite append_assoc; reflexivity).
      replace (S (String.length command)) with (String.length (command +:+ "}"))
        by (rewrite length_append; simpl; lia).
      rewrite drop_app. rewrite !append_assoc. reflexivity.
    + rewrite IH by exact HPs. reflexivity.
Qed.

Lemma match_colon_inv (s command : string) :
  Re.match_colon s = Some command ->
  exists rest, s = String "{" (command +:+ String "}" rest).
Proof.
  destruct s as [|c s1]; [discriminate|].
  destruct (Ascii.eqb c "{") eqn:Ec;
    [|rewrite (match_colon_brace_led c s1 Ec); discriminate].
  apply Ascii.eqb_eq in Ec. subst c.
  change (Re.match_colon (String "{" s1))
    with (let '(w1, r1) := Re.span Py.isword s1 in
          match r1 with
          | String ":" r2 =>
              let '(x, r3) := Re.span Re.not_close r2 in
              if Re.nonempty w1 && Re.nonempty x && Re.starts_with_close r3
              then Some (w1 +:+ ":" +:+ x) else None
          | _ => None
          end).
  destruct (Re.span Py.isword s1) as [w1 r1] eqn:E1.
  destruct (span_spec _ _ _ _ E1) as [-> _].
  destruct r1 as [|c2 r2]; [discriminate|].
  destruct (Ascii.eqb c2 ":") eqn:Ec2.
  - apply Ascii.eqb_eq in Ec2. subst c2.
    destruct (Re.span Re.not_close r2) as [x r3] eqn:E2.
    destruct (span_spec _ _ _ _ E2) as [-> _].
    destruct (Re.nonempty w1 && Re.nonempty x && Re.starts_with_close r3) eqn:Hc;
      [|discriminate].
    intros H. injection H as <-.
    apply andb_true_iff in Hc as [_ Hclose].
    destruct r3 as [|c3 r4]; [discriminate|].
    simpl in Hclose. apply Ascii.eqb_eq in Hclose. subst c3.
    exists r4. rewrite !append_assoc. reflexivity.
  - destruct c2 as [[] [] [] [] [] [] [] []]; try discriminate.
Qed.

(** A command that does not begin with [n] is put back as it was. *)
Lemma regex_replacer_not_n
    (re_search : string -> string -> exc (option string))
    (original : string) (c : ascii) (command : string) :
  Ascii.eqb c "n" = false ->
  regex_replacer re_search original (String c command)
  = Ok ("{" +:+ String c command +:+ "}").
Proof.
  intros Hc. unfold regex_replacer. cbv zeta.
  assert (Hm : Py.startswith "n.match(" (String c command) = false)
    by (rewrite startswith_cons, (eqb_false_sym _ _ Hc); reflexivity).
  assert (Hr : Py.startswith "n.replace(" (String c command) = false)
    by (rewrite startswith_cons, (eqb_false_sym _ _ Hc); reflexivity).
  rewrite Hm, Hr.
  destruct (Py.contains_char ":" (String c command)); [|reflexivity].
  assert (Hp0 : exists h t, Py.split ":" (String c command) = h :: t /\ String.eqb h "n" = false).
  { simpl. destruct (Ascii.eqb c ":").
    - eexists _, _. split; reflexivity.
    - destruct (Py.split ":" command) as [|h t]; eexists _, _; (split; [reflexivity|]);
        simpl; rewrite Hc; reflexivity. }
  destruct Hp0 as (h & t & -> & Hh). simpl. rewrite Hh. reflexivity.
Qed.

Lemma match_call_needs_n (prefix s : string) :
  Py.startswith "{n" s = false -> Re.match_call (String "n" prefix) s = None.
Proof.
  intros H. destruct s as [|c s1]; [reflexivity|].
  destruct (Ascii.eqb c "{") eqn:Ec;
    [|exact (match_call_brace_led _ c s1 Ec)].
  apply Ascii.eqb_eq in Ec. subst c.
  destruct s1 as [|c1 s2]; [reflexivity|].
  change (Re.match_call (String "n" prefix) (String "{" (String c1 s2)))
    with (if Py.startswith (String "n" prefix) (String c1 s2) then
            let '(x, r) := Re.span Re.not_close
                             (Py.drop (String.length (String "n" prefix)) (String c1 s2)) in
            if Re.last_is ")" x && Re.nonempty (Py.drop_last x) && Re.starts_with_close r
            then Some (String "n" prefix +:+ x) else None
          else None).
  rewrite startswith_cons.
  destruct (Ascii.eqb "n" c1) eqn:E; [|reflexivity].
  apply Ascii.eqb_eq in E. subst c1. cbv in H. discriminate H.
Qed.

Lemma has_sub_cons_or_empty (sub s : string) :
  has_sub sub s = false -> Py.startswith sub s = false.
Proof.
  destruct s as [|c s]; intros H.
  - simpl in H. rewrite orb_false_r in H. exact H.
  - exact (proj1 (has_sub_cons _ _ _ H)).
Qed.

Lemma dotted_pass_identity_aux
    (re_search : string -> string -> exc (option string))
    (original s : string) :
  Re.sub Re.match_dotted (regex_replacer re_search original) s = Ok s.
Proof.
  unfold Re.sub.
  rewrite (sub_go_identity Re.match_dotted (regex_replacer re_search original)).
  - reflexivity.
  - intros s' command H.
    destruct (match_dotted_inv _ _ H) as (rest & Hs & Hcolon & Hparen).
    split; [exists rest; exact Hs|].
    apply regex_replacer_passthrough; assumption.
Qed.

(** X18: a template in which [{n], [{f}] and [{t}] do not occur is used
    verbatim, whatever else it holds, braces and unknown directives
    included, and nothing is printed. *)
Theorem template_without_directives_is_verbatim
    (re_search : string -> string -> exc (option string))
    (original pattern : string) (f : Z) (t : string) :
  has_sub "{n" pattern = false ->
  has_sub "{f}" pattern = false ->
  has_sub "{t}" pattern = false ->
  apply_regex_pattern re_search original pattern f t = (pattern, []).
Proof.
  intros Hn Hf Ht.
  set (P := fun s => has_sub "{n" s = false).
  assert (Htail : forall c s, P (String c s) -> P s).
  { intros c s H. exact (proj2 (has_sub_cons _ _ _ H)). }
  assert (Hcolon : Re.sub_go Re.match_colon (regex_replacer re_search original) 0 pattern
                   = Ok pattern).
  { apply (sub_go_identity_on P); [exact Htail| |exact Hn].
    intros s command HP H.
    destruct (match_colon_inv _ _ H) as [rest Hs]. split; [exists rest; exact Hs|].
    subst s. apply has_sub_cons in HP as [HP _].
    destruct command as [|c command].
    - apply regex_replacer_passthrough; reflexivity.
    - apply regex_replacer_not_n.
      destruct (Ascii.eqb c "n") eqn:E; [|reflexivity].
      apply Ascii.eqb_eq in E. subst c. cbv in HP. discriminate HP. }
  assert (Hcall : forall prefix,
             Re.sub_go (Re.match_call (String "n" prefix))
               (regex_replacer re_search original) 0 pattern = Ok pattern).
  { intros prefix. apply (sub_go_identity_on P); [exact Htail| |exact Hn].
    intros s command HP H. apply has_sub_cons_or_empty in HP.
    rewrite (match_call_needs_n prefix s HP) in H. discriminate H. }
  unfold apply_regex_pattern, render_body, substitute_tokens, replacements.
  cbn [fold_left fst snd].
  rewrite (replace_absent "{n}" _ pattern) by (discriminate || exact (has_sub_longer "{n" "}" _ Hn)).
  rewrite (replace_absent "{f}" _ pattern) by (discriminate || exact Hf).
  rewrite (replace_absent "{t}" _ pattern) by (discriminate || exact Ht).
  rewrite (replace_absent "{n.base}" _ pattern)
    by (discriminate || exact (has_sub_longer "{n" ".base}" _ Hn)).
  rewrite (replace_absent "{n.digits}" _ pattern)
    by (discriminate || exact (has_sub_longer "{n" ".digits}" _ Hn)).
  rewrite (replace_absent "{n.letters}" _ pattern)
    by (discriminate || exact (has_sub_longer "{n" ".letters}" _ Hn)).
  rewrite dotted_pass_identity_aux. cbn [bind].
  unfold Re.sub. rewrite Hcolon. cbn [bind].
  rewrite (Hcall ".match("). cbn [bind].
  rewrite (Hcall ".replace("). reflexivity.
Qed.

Lemma template_without_directives_is_verbatim_witness :
  apply_regex_pattern re_stub "clip" "shot_{x}_{a.b}_{w:3}_}{" 0 "0.00s"
  = ("shot_{x}_{a.b}_{w:3}_}{", []).
Proof.
  apply (template_without_directives_is_verbatim re_stub "clip"
           "shot_{x}_{a.b}_{w:3}_}{" 0 "0.00s"); reflexivity.
Defined.

Lemma extract_frame_never_overwrites_witness :
  exists o,
    extract_frame re_stub (fun _ _ => Raise Cv2Error) {[ "./thumbnails/clip.jpg" ]}
      (mk_cap 100 (Py.float_lit 30))
      "vids/clip.mp4" (FInt 5) "jpg" "./thumbnails" None true = Some o /\
    (forall p fr, written o = Some (p, fr) ->
       (p ∉ ({[ "./thumbnails/clip.jpg" ]} : gset string)) /\
       isOpened (mk_cap 100 (Py.float_lit 30)) = true /\
       read_at (mk_cap 100 (Py.float_lit 30))
         (fst (calculate_frame_number (mk_cap 100 (Py.float_lit 30)) (FInt 5))) = Some fr /\
       (forall b, @Raise bool Cv2Error = Ok b -> last (printed o) = Some (Saved p)) /\
       (forall e, @Raise bool Cv2Error = Raise e ->
          last (printed o) = Some (ErrorOccurred e) /\
          forall q, ~ In (Saved q) (printed o))) /\
    (written o = None -> forall q, ~ In (Saved q) (printed o)) /\
    (isOpened (mk_cap 100 (Py.float_lit 30)) = false ->
     o = {| printed := [CannotOpen "vids/clip.mp4"]; written := None |}).
Proof.
  apply (extract_frame_never_overwrites re_stub (fun _ _ => Raise Cv2Error)
           {[ "./thumbnails/clip.jpg" ]}
           (mk_cap 100 (Py.float_lit 30)) "vids/clip.mp4" (FInt 5) "jpg" "./thumbnails"
           None true).
Defined.

Lemma batch_never_overwrites_witness :
  match process_videos re_stub (fun _ => true) listdir_three makedirs_add
          (fun _ => mk_cap 100 (Py.float_lit 30)) imwrite_ok {[ "out/a.jpg" ]} "in"
          (FInt 5) "jpg" "out" None true with
  | Raise e =>
      (true = true /\ listdir_three "in" = Raise e) \/
      (exists files, select_files (fun _ => true) listdir_three "in" = Ok files /\
                     makedirs_add "out" {[ "out/a.jpg" ]} = Raise e)
  | Ok r =>
      exists files fs1 os fs',
        select_files (fun _ => true) listdir_three "in" = Ok files /\
        makedirs_add "out" {[ "out/a.jpg" ]} = Ok fs1 /\
        r = Some (os, fs') /\
        length os = length files /\
        (forall (i : nat) video_path, nth_error files i = Some video_path ->
           exists o, nth_error os i = Some o /\
             extract_frame re_stub imwrite_ok
               (fold_left (after_write imwrite_ok) (firstn i os) fs1)
               (mk_cap 100 (Py.float_lit 30)) video_path (FInt 5) "jpg"
               "out" None true = Some o) /\
        fs' = fold_left (after_write imwrite_ok) os fs1 /\
        (forall p, p ∈ fs' <->
           p ∈ fs1 \/
           exists o fr, In o os /\ written o = Some (p, fr) /\ imwrite_ok p fr = Ok true) /\
        fs1 ⊆ fs' /\
        forall p, In p (written_paths os) -> p ∉ fs1
  end.
Proof.
  apply (batch_never_overwrites re_stub (fun _ => true) listdir_three makedirs_add
           (fun _ => mk_cap 100 (Py.float_lit 30)) imwrite_ok {[ "out/a.jpg" ]} "in"
           (FInt 5) "jpg" "out" None true).
Defined.
